(** * Kiokun dictionary pipeline: the Python tooling, embedded and verified

    The scripts under [scripts/], [webapp/] and the top level of the
    repository are embedded function by function.  Python values are
    modelled as follows.

    - A [str] is the list of its code points ([pystr := list Z]); [ord] is
      the identity on elements, [len] is [length].
    - A [dict] is an insertion-ordered association list (module [PyDict]);
      [d[k] = v] keeps the position of an existing key and appends a new
      one, [d[k]] on a missing key raises.
    - A [set] of strings is the list of its members without repetition; the
      order in which Python iterates over it is not fixed by the language
      and is an explicit parameter wherever the code iterates.
    - Effects on the file system are recorded as a trace of operations;
      a missing input file is an explicit input.
    - Library calls whose code is not part of the repository (the OpenCC
      subprocess, [json.loads], [urllib.parse.unquote], the static handler
      of [http.server]) are parameters. *)

From Stdlib Require Import ZArith List Lia Bool.
From Stdlib Require Import Strings.String Strings.Ascii.
From Stdlib Require Import DecimalString.
From stdpp Require Import base decidable option list sorting.

Open Scope Z_scope.

(** ** Python strings *)

Definition pystr := list Z.

(** An ASCII literal as a Python string. *)
Definition str (s : string) : pystr :=
  map (fun a => Z.of_N (N_of_ascii a)) (list_ascii_of_string s).

Module PyStr.

Definition NL : Z := 10.          (* '\n' *)
Definition SLASH : Z := 47.       (* '/' *)
Definition DOT : Z := 46.         (* '.' *)
Definition APOS : Z := 39.        (* the single quote *)
Definition QUOTE : Z := 34.       (* the double quote *)
Definition BACKSLASH : Z := 92.

(** [str.isspace] on one code point: the characters [s.strip()] removes
    when called without arguments. *)
Definition isspace (c : Z) : bool :=
  ((9 <=? c) && (c <=? 13)) || ((28 <=? c) && (c <=? 32))
  || (c =? 0x85) || (c =? 0xA0) || (c =? 0x1680)
  || ((0x2000 <=? c) && (c <=? 0x200A))
  || (c =? 0x2028) || (c =? 0x2029) || (c =? 0x202F)
  || (c =? 0x205F) || (c =? 0x3000).

Fixpoint lstrip (s : pystr) : pystr :=
  match s with
  | c :: s' => if isspace c then lstrip s' else s
  | [] => []
  end.

Definition rstrip (s : pystr) : pystr := rev (lstrip (rev s)).

(** [s.strip()] *)
Definition strip (s : pystr) : pystr := rstrip (lstrip s).

(** [s.split(sep)] for a one-character separator; the result is never
    empty ([''.split(sep) == ['']]). *)
Fixpoint split (sep : Z) (s : pystr) : list pystr :=
  match s with
  | [] => [[]]
  | c :: s' =>
      if Z.eqb c sep then [] :: split sep s'
      else match split sep s' with
           | w :: ws => (c :: w) :: ws
           | [] => [[c]]
           end
  end.

(** [sep.join(parts)] *)
Fixpoint join (sep : pystr) (parts : list pystr) : pystr :=
  match parts with
  | [] => []
  | p :: ps =>
      match ps with
      | [] => p
      | _ :: _ => p ++ sep ++ join sep ps
      end
  end.

Fixpoint startswith (s p : pystr) {struct p} : bool :=
  match p, s with
  | [], _ => true
  | c :: p', d :: s' => Z.eqb c d && startswith s' p'
  | _ :: _, [] => false
  end.

Definition endswith (s p : pystr) : bool := startswith (rev s) (rev p).

(** [c in s] for a single character [c]. *)
Definition contains_char (c : Z) (s : pystr) : bool :=
  existsb (Z.eqb c) s.

(** [s.replace(old, new)] where [old] is one character. *)
Definition replace_char (old : Z) (new : pystr) (s : pystr) : pystr :=
  flat_map (fun c => if Z.eqb c old then new else [c]) s.

(** [s.rfind(c)]: index of the last occurrence, [-1] when there is none. *)
Fixpoint rfind_from (c : Z) (s : pystr) (i last : Z) : Z :=
  match s with
  | [] => last
  | x :: s' => rfind_from c s' (i + 1) (if Z.eqb x c then i else last)
  end.

Definition rfind (c : Z) (s : pystr) : Z := rfind_from c s 0 (-1).

(** [a <= b] on strings: lexicographic on code points. *)
Fixpoint leb (a b : pystr) : bool :=
  match a, b with
  | [], _ => true
  | _ :: _, [] => false
  | x :: a', y :: b' =>
      if Z.ltb x y then true
      else if Z.eqb x y then leb a' b' else false
  end.

Definition le (a b : pystr) : Prop := leb a b = true.

#[export] Instance le_dec : RelDecision le :=
  fun a b => decide (leb a b = true).

Definition eqb (a b : pystr) : bool := bool_decide (a = b).

(** [sorted(xs)] on strings.  The members are pairwise comparable and the
    order is total, so the result does not depend on the algorithm. *)
Definition sorted (xs : list pystr) : list pystr := merge_sort le xs.

End PyStr.

(** ** Python dictionaries *)

Module PyDict.

Definition dict (K V : Type) : Type := list (K * V).

Section ops.
Context {K V : Type} `{EqDecision K}.

(** [d.get(k)]: [None] when the key is missing. *)
Fixpoint get (d : dict K V) (k : K) : option V :=
  match d with
  | [] => None
  | (k', v) :: d' => if decide (k = k') then Some v else get d' k
  end.

(** [k in d] *)
Definition contains (d : dict K V) (k : K) : bool :=
  match get d k with Some _ => true | None => false end.

(** [d[k] = v] *)
Fixpoint setitem (d : dict K V) (k : K) (v : V) : dict K V :=
  match d with
  | [] => [(k, v)]
  | (k', v') :: d' =>
      if decide (k = k') then (k', v) :: d'
      else (k', v') :: setitem d' k v
  end.

Definition keys (d : dict K V) : list K := map fst d.
Definition values (d : dict K V) : list V := map snd d.
Definition items (d : dict K V) : list (K * V) := d.
Definition copy (d : dict K V) : dict K V := d.

End ops.
End PyDict.

(** ** Exceptions *)

Inductive exn := KeyError | FileNotFoundError | ZeroDivisionError.

Inductive result (A : Type) : Type :=
| Return (a : A)
| Raise (e : exn).
Arguments Return {A} a.
Arguments Raise {A} e.

Definition bind {A B : Type} (m : result A) (k : A -> result B) : result B :=
  match m with
  | Return a => k a
  | Raise e => Raise e
  end.

Notation "x <- m ;; k" := (bind m (fun x => k))
  (at level 100, m at next level, right associativity).

(** [d[k]] *)
Definition getitem {V : Type} (d : PyDict.dict pystr V) (k : pystr) : result V :=
  match PyDict.get d k with
  | Some v => Return v
  | None => Raise KeyError
  end.

(** A [for] loop whose body may raise. *)
Fixpoint for_each {A S : Type} (body : S -> A -> result S) (xs : list A) (s : S)
  : result S :=
  match xs with
  | [] => Return s
  | x :: xs' => s' <- body s x ;; for_each body xs' s'
  end.

(** Operations on the file system, in the order the program performs them. *)
Inductive fs_op :=
| Mkdir (path : pystr)
| CopyFile (src dst : pystr)
| WriteFile (path content : pystr).

(** [Path / name] *)
Definition path_join (dir name : pystr) : pystr := dir ++ [PyStr.SLASH] ++ name.

(** ** scripts/separate_shards.py *)

Module SeparateShards.

Definition is_han_character (c : Z) : bool :=
  let code := c in
  ((0x4E00 <=? code) && (code <=? 0x9FFF))
  || ((0x3400 <=? code) && (code <=? 0x4DBF))
  || ((0x20000 <=? code) && (code <=? 0x2A6DF))
  || ((0x2A700 <=? code) && (code <=? 0x2B73F))
  || ((0x2B740 <=? code) && (code <=? 0x2B81F))
  || ((0x2B820 <=? code) && (code <=? 0x2CEAF))
  || ((0x2CEB0 <=? code) && (code <=? 0x2EBEF))
  || ((0x30000 <=? code) && (code <=? 0x3134F)).

(** [sum(1 for c in word if is_han_character(c))] *)
Fixpoint count_han_chars (word : pystr) : Z :=
  match word with
  | [] => 0
  | c :: w => (if is_han_character c then 1 else 0) + count_han_chars w
  end.

Definition get_shard_for_word (word : pystr) : pystr :=
  let han_count := count_han_chars word in
  if han_count =? 0 then str "non-han"
  else if han_count =? 1 then str "han-1char"
  else if han_count =? 2 then str "han-2char"
  else str "han-3plus".

(** The glossary's Han character, as a table of Unicode blocks (first and
    last code point of each): the specification side of the refinement. *)
Definition han_blocks : list (Z * Z) :=
  [ (0x4E00, 0x9FFF)      (* CJK Unified Ideographs *)
  ; (0x3400, 0x4DBF)      (* Extension A *)
  ; (0x20000, 0x2A6DF)    (* Extension B *)
  ; (0x2A700, 0x2B73F)    (* Extension C *)
  ; (0x2B740, 0x2B81F)    (* Extension D *)
  ; (0x2B820, 0x2CEAF)    (* Extension E *)
  ; (0x2CEB0, 0x2EBEF)    (* Extension F *)
  ; (0x30000, 0x3134F) ]. (* Extension G *)

Definition in_han_blocks (c : Z) : bool :=
  existsb (fun b => (fst b <=? c) && (c <=? snd b)) han_blocks.

(** Number of code points of [w] that lie in one of the blocks. *)
Definition han_code_points (w : pystr) : nat :=
  length (List.filter in_han_blocks w).

Definition source_dir : pystr := str "output_dictionary".

Definition shards : PyDict.dict pystr pystr :=
  [ (str "non-han", str "output_non-han")
  ; (str "han-1char", str "output_han-1char")
  ; (str "han-2char", str "output_han-2char")
  ; (str "han-3plus", str "output_han-3plus") ].

(** [PurePath.stem] of a final path component. *)
Definition stem (name : pystr) : pystr :=
  let i := PyStr.rfind PyStr.DOT name in
  if (0 <? i) && (i <? Z.of_nat (length name) - 1)
  then take (Z.to_nat i) name
  else name.

(** State of the separation loop: the counters and the operations done. *)
Record loop_state := {
  shard_counts : PyDict.dict pystr Z;
  ops : list fs_op
}.

(** One iteration of [for i, file_path in enumerate(all_files, 1)]; the
    file is given by its name inside [source_dir]. *)
Definition separate_one (st : loop_state) (name : pystr) : result loop_state :=
  let word := stem name in
  let shard := get_shard_for_word word in
  dir <- getitem shards shard ;;
  let dest_path := path_join dir name in
  let ops' := ops st ++ [CopyFile (path_join source_dir name) dest_path] in
  n <- getitem (shard_counts st) shard ;;
  Return {| shard_counts := PyDict.setitem (shard_counts st) shard (n + 1);
            ops := ops' |}.

(** [sum(shard_counts.values())] *)
Definition sum_values (d : PyDict.dict pystr Z) : Z :=
  fold_left Z.add (PyDict.values d) 0.

(** The closing check of [main]: the value it returns. *)
Definition verify (counts : PyDict.dict pystr Z) (total_files : Z) : Z :=
  if negb (sum_values counts =? total_files) then 1 else 0.

(** [main()].  [source] is [None] when [output_dictionary] does not exist,
    otherwise the names matched by [glob("*.json")] in the order the glob
    yields them.  The result is the exit status with the final state. *)
Definition main (source : option (list pystr)) : result (Z * loop_state) :=
  match source with
  | None => Return (1, {| shard_counts := []; ops := [] |})
  | Some all_files =>
      let mkdirs := map Mkdir (PyDict.values shards) in
      let total_files := Z.of_nat (length all_files) in
      let counts0 := map (fun shard => (shard, 0)) (PyDict.keys shards) in
      st <- for_each separate_one all_files
              {| shard_counts := counts0; ops := mkdirs |} ;;
      Return (verify (shard_counts st) total_files, st)
  end.

(** The files of [all_files] whose word falls in [shard], and the copy the
    loop performs for a file: the statement side of the partition. *)
Definition files_of_shard (shard : pystr) (all_files : list pystr) : list pystr :=
  List.filter
    (fun name => PyStr.eqb (get_shard_for_word (stem name)) shard) all_files.

Definition copy_of (name : pystr) : fs_op :=
  CopyFile (path_join source_dir name)
    (path_join (str "output_" ++ get_shard_for_word (stem name)) name).

(** The loop invariant after the files [seen]. *)
Definition separated (seen : list pystr) (st : loop_state) : Prop :=
  PyDict.keys (shard_counts st) = PyDict.keys shards
  /\ (forall shard, elem_of shard (PyDict.keys shards) ->
       PyDict.get (shard_counts st) shard
       = Some (Z.of_nat (length (files_of_shard shard seen))))
  /\ sum_values (shard_counts st) = Z.of_nat (length seen)
  /\ ops st = map Mkdir (PyDict.values shards) ++ map copy_of seen.

End SeparateShards.

(** ** [json.dump] of a mapping from strings to strings *)

Module PyJson.

Definition hexdigit (n : Z) : Z := if n <? 10 then 48 + n else 87 + n.

(** The replacement [json.encoder] applies to one character when
    [ensure_ascii=False]: the short escapes, [\u00xx] for the other control
    characters, and the character itself otherwise. *)
Definition escape_char (c : Z) : pystr :=
  if c =? 92 then [92; 92]
  else if c =? 34 then [92; 34]
  else if c =? 8 then [92; 98]
  else if c =? 12 then [92; 102]
  else if c =? 10 then [92; 110]
  else if c =? 13 then [92; 114]
  else if c =? 9 then [92; 116]
  else if (0 <=? c) && (c <? 32)
       then [92; 117; 48; 48; hexdigit (c / 16); hexdigit (c mod 16)]
  else [c].

Definition encode_basestring (s : pystr) : pystr :=
  [PyStr.QUOTE] ++ flat_map escape_char s ++ [PyStr.QUOTE].

(** Order of [(key, value)] tuples, as [sorted(d.items())] compares them. *)
Definition item_leb (a b : pystr * pystr) : bool :=
  if PyStr.eqb (fst a) (fst b) then PyStr.leb (snd a) (snd b)
  else PyStr.leb (fst a) (fst b).

Definition item_le (a b : pystr * pystr) : Prop := item_leb a b = true.

#[export] Instance item_le_dec : RelDecision item_le :=
  fun a b => decide (item_leb a b = true).

Definition sorted_items (d : PyDict.dict pystr pystr) : list (pystr * pystr) :=
  merge_sort item_le (PyDict.items d).

Definition encode_item (kv : pystr * pystr) : pystr :=
  encode_basestring (fst kv) ++ str ": " ++ encode_basestring (snd kv).

(** The text [json.dump(d, f, ensure_ascii=False, indent=2,
    sort_keys=sort_keys)] writes. *)
Definition dumps (sort_keys : bool) (d : PyDict.dict pystr pystr) : pystr :=
  match d with
  | [] => str "{}"
  | _ :: _ =>
      let items := if sort_keys then sorted_items d else PyDict.items d in
      str "{" ++ [PyStr.NL] ++ str "  "
      ++ PyStr.join (str "," ++ [PyStr.NL] ++ str "  ") (map encode_item items)
      ++ [PyStr.NL] ++ str "}"
  end.

End PyJson.

(** ** The conversion oracle *)

(** What [subprocess.run(['opencc', '-c', 'jp2t'], input=..., check=True)]
    does: it completes with a standard output, exits with a non-zero status,
    or the executable is missing. *)
Inductive oracle_result :=
| Completed (stdout : pystr)
| CalledProcessError
| OpenCCNotFound.

(** A Python [set] of strings under construction: [s.add(x)]. *)
Definition set_add (s : list pystr) (x : pystr) : list pystr :=
  if bool_decide (elem_of x s) then s else s ++ [x].

(** ** scripts/generate_character_mapping.py *)

Module CharacterMapping.

(** An element of [data['characters']]; [literal] is [None] when the key is
    missing. *)
Record char_entry := { literal : option pystr }.

Definition extract_unique_kanji_from_kanjidic
    (set_iter : list pystr -> list pystr) (characters : list char_entry)
  : list pystr :=
  let unique_kanji :=
    fold_left
      (fun unique_kanji char_entry =>
         match literal char_entry with
         | Some kanji_char =>
             match kanji_char with
             | [] => unique_kanji
             | _ :: _ => set_add unique_kanji kanji_char
             end
         | None => unique_kanji
         end)
      characters [] in
  PyStr.sorted (set_iter unique_kanji).

Definition generate_mapping_batch
    (opencc : pystr -> oracle_result) (unique_kanji : list pystr)
  : PyDict.dict pystr pystr :=
  let batch_input := PyStr.join [PyStr.NL] unique_kanji in
  match opencc batch_input with
  | Completed stdout =>
      let converted_lines := PyStr.split PyStr.NL (PyStr.strip stdout) in
      if negb (Nat.eqb (length converted_lines) (length unique_kanji)) then []
      else
        fold_left
          (fun mapping oc =>
             let original := fst oc in
             let converted := snd oc in
             if negb (PyStr.eqb converted original)
             then PyDict.setitem mapping original converted
             else mapping)
          (combine unique_kanji converted_lines) []
  | CalledProcessError => []
  | OpenCCNotFound => []
  end.

Definition load_existing_j2c_mapping
    (j2c : option (PyDict.dict pystr pystr)) : PyDict.dict pystr pystr :=
  match j2c with
  | Some mapping => mapping
  | None => []
  end.

Definition merge_mappings
    (existing_mapping character_mapping : PyDict.dict pystr pystr)
  : PyDict.dict pystr pystr :=
  fold_left
    (fun merged kc =>
       let kanji := fst kc in
       let chinese := snd kc in
       if negb (PyDict.contains merged kanji)
       then PyDict.setitem merged kanji chinese
       else merged)
    (PyDict.items character_mapping)
    (PyDict.copy existing_mapping).

Definition save_mapping_as_json
    (mapping : PyDict.dict pystr pystr) (output_path : pystr) : list fs_op :=
  [WriteFile output_path (PyJson.dumps true mapping)].

(** [analyze_coverage] reads and prints only; what matters of it is whether
    it raises: [char['literal']] on an entry without that key, and the
    division by [len(chinese_chars)]. *)
Definition analyze_coverage
    (characters : list char_entry) (chinese_chars : list pystr) : result unit :=
  if forallb (fun e => match literal e with Some _ => true | None => false end)
       characters
  then match chinese_chars with
       | [] => Raise ZeroDivisionError
       | _ :: _ => Return tt
       end
  else Raise KeyError.

Definition j2c_mapping_path : pystr := str "output/j2c_mapping.json".

(** [main()].  Inputs: the iteration order of the set of kanji, the
    characters of KANJIDIC2 ([None]: the file is missing), the characters
    read from the Chinese dictionary ([None]: the file is missing), the
    oracle, and the parsed prior mapping ([None]: no file yet).  Result: the
    operations performed, and the exit status or the uncaught exception. *)
Definition main
    (set_iter : list pystr -> list pystr)
    (kanjidic : option (list char_entry))
    (chinese_char : option (list pystr))
    (opencc : pystr -> oracle_result)
    (j2c : option (PyDict.dict pystr pystr))
  : list fs_op * result Z :=
  let ops0 := [Mkdir (str "output")] in
  match kanjidic with
  | None => (ops0, Return 1)
  | Some characters =>
      match chinese_char with
      | None => (ops0, Return 1)
      | Some chinese_chars =>
          let unique_kanji :=
            extract_unique_kanji_from_kanjidic set_iter characters in
          let character_mapping := generate_mapping_batch opencc unique_kanji in
          match character_mapping with
          | [] => (ops0, Return 1)
          | _ :: _ =>
              let existing_mapping := load_existing_j2c_mapping j2c in
              let merged_mapping :=
                merge_mappings existing_mapping character_mapping in
              let ops1 :=
                ops0 ++ save_mapping_as_json merged_mapping j2c_mapping_path in
              (ops1, _ <- analyze_coverage characters chinese_chars ;; Return 0)
          end
      end
  end.

(** Two parsed prior mappings with the same entries, whatever the order in
    which the dictionaries hold them. *)
Definition same_mapping (a b : option (PyDict.dict pystr pystr)) : Prop :=
  match a, b with
  | Some x, Some y => Permutation x y
  | None, None => True
  | _, _ => False
  end.

End CharacterMapping.

(** ** scripts/generate_kanji_mapping.py *)

Module KanjiMapping.

(** An element of [word['kanji']] and an element of [data['words']]; a field
    is [None] when the key is missing. *)
Record kanji_entry := { text : option pystr }.
Record word := { kanji : option (list kanji_entry) }.

Definition extract_unique_kanji_from_jmdict
    (set_iter : list pystr -> list pystr) (words : list word) : list pystr :=
  let unique_kanji :=
    fold_left
      (fun unique_kanji word =>
         match kanji word with
         | Some (e :: es) =>
             fold_left
               (fun unique_kanji kanji_entry =>
                  match text kanji_entry with
                  | Some kanji_text =>
                      match kanji_text with
                      | [] => unique_kanji
                      | _ :: _ => set_add unique_kanji kanji_text
                      end
                  | None => unique_kanji
                  end)
               (e :: es) unique_kanji
         | Some [] => unique_kanji
         | None => unique_kanji
         end)
      words [] in
  PyStr.sorted (set_iter unique_kanji).

(** Only [CalledProcessError] is caught here: a missing executable
    propagates. *)
Definition generate_mapping_batch
    (opencc : pystr -> oracle_result) (unique_kanji : list pystr)
  : result (PyDict.dict pystr pystr) :=
  let batch_input := PyStr.join [PyStr.NL] unique_kanji in
  match opencc batch_input with
  | Completed stdout =>
      let converted_lines := PyStr.split PyStr.NL (PyStr.strip stdout) in
      if negb (Nat.eqb (length converted_lines) (length unique_kanji))
      then Return []
      else
        Return
          (fold_left
             (fun mapping oc =>
                let original := fst oc in
                let converted := snd oc in
                if negb (PyStr.eqb converted original)
                then PyDict.setitem mapping original converted
                else mapping)
             (combine unique_kanji converted_lines) [])
  | CalledProcessError => Return []
  | OpenCCNotFound => Raise FileNotFoundError
  end.

Definition rust_header_lines : list pystr :=
  [ str "use std::collections::HashMap;"
  ; str "use std::sync::LazyLock;"
  ; []
  ; str "/// Comprehensive mapping from Japanese kanji to Traditional Chinese"
  ; str "/// Generated from JMDict using OpenCC jp2t configuration"
  ; str "pub static KANJI_TO_TRADITIONAL_MAP: LazyLock<HashMap<&'static str, &'static str>> = LazyLock::new(|| {"
  ; str "    let mut map = HashMap::new();"
  ].

Definition rust_footer_lines : list pystr :=
  [ str "    map"
  ; str "});"
  ; []
  ; str "/// Convert Japanese kanji string to Traditional Chinese using the comprehensive mapping"
  ; str "pub fn convert_japanese_to_traditional(japanese: &str) -> String {"
  ; str "    KANJI_TO_TRADITIONAL_MAP.get(japanese)"
  ; str "        .map(|&traditional| traditional.to_string())"
  ; str "        .unwrap_or_else(|| japanese.to_string())"
  ; str "}"
  ; []
  ; str "#[cfg(test)]"
  ; str "mod tests {"
  ; str "    use super::*;"
  ; str "    "
  ; str "    #[test]"
  ; str "    fn test_basic_conversions() {"
  ; str "        // Test some common conversions"
  ; str "        assert_eq!(convert_japanese_to_traditional(" ++ [34; 23398; 29983; 34] ++ str "), " ++ [34; 23416; 29983; 34] ++ str ");"
  ; str "        assert_eq!(convert_japanese_to_traditional(" ++ [34; 22269; 23478; 34] ++ str "), " ++ [34; 22283; 23478; 34] ++ str ");"
  ; str "        assert_eq!(convert_japanese_to_traditional(" ++ [34; 20250; 31038; 34] ++ str "), " ++ [34; 26371; 31038; 34] ++ str ");"
  ; str "    }"
  ; str "    "
  ; str "    #[test]"
  ; str "    fn test_unchanged_strings() {"
  ; str "        // Strings that don't need conversion should remain unchanged"
  ; str "        let unchanged = convert_japanese_to_traditional(" ++ [34] ++ str "unchanged_test" ++ [34] ++ str ");"
  ; str "        assert_eq!(unchanged, " ++ [34] ++ str "unchanged_test" ++ [34] ++ str ");"
  ; str "    }"
  ; str "}"
  ].

(** The two literal blocks of the generated Rust module. *)
Definition rust_header : pystr :=
  concat (map (fun l => l ++ [PyStr.NL]) rust_header_lines).
Definition rust_footer : pystr :=
  concat (map (fun l => l ++ [PyStr.NL]) rust_footer_lines).

Definition rust_escape (s : pystr) : pystr :=
  PyStr.replace_char PyStr.QUOTE [PyStr.BACKSLASH; PyStr.QUOTE]
    (PyStr.replace_char PyStr.BACKSLASH [PyStr.BACKSLASH; PyStr.BACKSLASH] s).

Definition rust_insert_line (jt : pystr * pystr) : pystr :=
  let japanese_escaped := rust_escape (fst jt) in
  let traditional_escaped := rust_escape (snd jt) in
  str "    map.insert(" ++ [PyStr.QUOTE] ++ japanese_escaped ++ [PyStr.QUOTE]
  ++ str ", " ++ [PyStr.QUOTE] ++ traditional_escaped ++ [PyStr.QUOTE]
  ++ str ");" ++ [PyStr.NL].

Definition save_mapping_as_rust_code
    (mapping : PyDict.dict pystr pystr) (output_path : pystr) : list fs_op :=
  let rust_code :=
    rust_header
    ++ concat (map rust_insert_line (PyJson.sorted_items mapping))
    ++ rust_footer in
  [WriteFile output_path rust_code].

Definition save_mapping_as_json
    (mapping : PyDict.dict pystr pystr) (output_path : pystr) : list fs_op :=
  [WriteFile output_path (PyJson.dumps false mapping)].

Definition rust_output_path : pystr := str "src/kanji_mapping_generated.rs".
Definition json_output_path : pystr := str "output/kanji_mapping.json".

(** [main()].  [jmdict] is [None] when the JMDict file is missing.  Result:
    the operations performed, and the exit status or the uncaught
    exception (the closing statistics divide by [len(unique_kanji)]). *)
Definition main
    (set_iter : list pystr -> list pystr)
    (jmdict : option (list word))
    (opencc : pystr -> oracle_result)
  : list fs_op * result Z :=
  let ops0 := [Mkdir (str "output")] in
  match jmdict with
  | None => (ops0, Return 1)
  | Some words =>
      let unique_kanji := extract_unique_kanji_from_jmdict set_iter words in
      match generate_mapping_batch opencc unique_kanji with
      | Raise e => (ops0, Raise e)
      | Return mapping =>
          let ops1 :=
            ops0 ++ save_mapping_as_rust_code mapping rust_output_path
                 ++ save_mapping_as_json mapping json_output_path in
          match unique_kanji with
          | [] => (ops1, Raise ZeroDivisionError)
          | _ :: _ => (ops1, Return 0)
          end
      end
  end.

End KanjiMapping.

(** ** webapp/server.py *)

Module Server.

(** What [open(path)] followed by [read()] does: the content, a
    [FileNotFoundError], or another exception with its message. *)
Inductive open_result :=
| FileContent (content : pystr)
| NotFound
| OpenError (e : pystr).

(** What the handler sends back.  The CORS headers [end_headers] adds to
    every response are left out.  With [Uncaught] and [UnicodeEncodeError]
    an exception leaves [do_GET] before anything is written: no response is
    sent. *)
Inductive response :=
| Response (status : Z) (content_type : pystr) (body : pystr)
| SendError (code : Z) (message : pystr)
| Delegated (raw_path : pystr)
| Uncaught
| UnicodeEncodeError.

(** [s.encode('latin-1', 'strict')] succeeds. *)
Definition latin1 (s : pystr) : bool := forallb (fun c => c <=? 255) s.

(** [self.send_error(code, message)] of [http.server], for a request that
    carries an HTTP version.  Before anything is written, [send_response_only]
    encodes the status line, whose reason phrase is [message], with the
    codec [latin-1] in strict mode: a message with a character above U+00FF
    raises [UnicodeEncodeError].  The calls below are made inside [except]
    clauses, where no handler of [do_GET] catches it. *)
Definition send_error (code : Z) (message : pystr) : response :=
  if latin1 message then SendError code message else UnicodeEncodeError.

(** The branch [do_GET] takes. *)
Inductive handler :=
| ServeIndex
| ServeJsonFile (path : pystr)
| SuperDoGET.

(** [os.path.join(a, *p)] of [posixpath]. *)
Definition os_path_join (a : pystr) (p : list pystr) : pystr :=
  fold_left
    (fun path b =>
       if PyStr.startswith b (str "/") then b
       else match path with
            | [] => path ++ b
            | _ :: _ =>
                if PyStr.endswith path (str "/") then path ++ b
                else path ++ str "/" ++ b
            end)
    p a.

Definition serve_index (fs : pystr -> open_result) : response :=
  match fs (str "index.html") with
  | FileContent content =>
      Response 200 (str "text/html; charset=utf-8") content
  | NotFound => send_error 404 (str "index.html not found")
  | OpenError _ => Uncaught
  end.

Definition serve_json_file (fs : pystr -> open_result) (path : pystr)
  : response :=
  let filename := List.last (PyStr.split PyStr.SLASH path) [] in
  let character := take (length filename - 5)%nat filename in
  let json_file_path :=
    os_path_join (str "..") [str "output_dictionary"; character ++ str ".json"] in
  match fs json_file_path with
  | FileContent content =>
      Response 200 (str "application/json; charset=utf-8") content
  | NotFound =>
      send_error 404 (str "Character '" ++ character ++ str "' not found")
  | OpenError e =>
      send_error 500 (str "Error loading character data: " ++ e)
  end.

(** The chain of tests of [do_GET] on the decoded path. *)
Definition route (path : pystr) : handler :=
  if PyStr.eqb path (str "/") then ServeIndex
  else if (1 <? length path)%nat
          && negb (PyStr.startswith path (str "/static"))
          && negb (PyStr.contains_char PyStr.DOT path)
  then ServeIndex
  else if PyStr.startswith path (str "/output_dictionary/")
          && PyStr.endswith path (str ".json")
  then ServeJsonFile path
  else if PyStr.startswith path (str "/static")
          || PyStr.contains_char PyStr.DOT path
  then SuperDoGET
  else ServeIndex.

(** [do_GET] on the request path [raw]; [unquote] is
    [urllib.parse.unquote(_, encoding='utf-8')]. *)
Definition do_GET (unquote : pystr -> pystr) (fs : pystr -> open_result)
    (raw : pystr) : response :=
  let path := unquote raw in
  match route path with
  | ServeIndex => serve_index fs
  | ServeJsonFile p => serve_json_file fs p
  | SuperDoGET => Delegated raw
  end.

(** The artifact of a word, as the build lays it out. *)
Definition artifact_path (word : pystr) : pystr :=
  str "../output_dictionary/" ++ word ++ str ".json".

End Server.

(** ** convert_csv_to_sql.py *)

Module CsvToSql.

Definition escape_sql_string (s : option pystr) : pystr :=
  match s with
  | None => []
  | Some s => PyStr.replace_char PyStr.APOS [PyStr.APOS; PyStr.APOS] s
  end.

(** A row of [csv.DictReader]: a field is [None] when the line is short. *)
Record row := {
  word : option pystr;
  language : option pystr;
  definition : option pystr;
  pronunciation : option pystr;
  is_common : option pystr
}.

(** [f"{x}"] for a string or [None]. *)
Definition format_value (x : option pystr) : pystr :=
  match x with
  | Some s => s
  | None => str "None"
  end.

Definition value (r : row) : pystr :=
  let word := escape_sql_string (word r) in
  let language := escape_sql_string (language r) in
  let definition := escape_sql_string (definition r) in
  let pronunciation := escape_sql_string (pronunciation r) in
  let is_common := is_common r in
  str "('" ++ word ++ str "', '" ++ language ++ str "', '" ++ definition
  ++ str "', '" ++ pronunciation ++ str "', " ++ format_value is_common
  ++ str ")".

Definition insert_header : pystr :=
  str "INSERT INTO dictionary_search (word, language, definition, pronunciation, is_common) VALUES"
  ++ [PyStr.NL].

Definition batch_size : nat := 500.

Record state := {
  batch : list pystr;
  sqlfile : pystr;
  total : Z
}.

Definition statement (batch : list pystr) (terminator : pystr) : pystr :=
  insert_header ++ PyStr.join (str "," ++ [PyStr.NL]) batch ++ terminator.

(** The body of [for row in reader]. *)
Definition step (st : state) (r : row) : state :=
  let batch' := batch st ++ [value r] in
  let total' := total st + 1 in
  if (batch_size <=? length batch')%nat
  then {| batch := [];
          sqlfile := sqlfile st
                     ++ statement batch' (str ";" ++ [PyStr.NL; PyStr.NL]);
          total := total' |}
  else {| batch := batch'; sqlfile := sqlfile st; total := total' |}.

(** [main()]: the text written to [output_search_index.sql]. *)
Definition main (rows : list row) : pystr :=
  let st := fold_left step rows {| batch := []; sqlfile := []; total := 0 |} in
  match batch st with
  | [] => sqlfile st
  | _ :: _ => sqlfile st ++ statement (batch st) (str ";" ++ [PyStr.NL])
  end.

(** The text a field stands for: a missing field is the empty string. *)
Definition text (x : option pystr) : pystr :=
  match x with
  | Some s => s
  | None => []
  end.

(** How a SQL reader takes a string literal apart, for the statement of the
    escaping property: after the opening quote two quotes stand for one and
    a lone quote closes the literal.  The result is the value of the
    literal and the text after it. *)
Fixpoint sql_literal_body (s : pystr) : option (pystr * pystr) :=
  match s with
  | [] => None
  | c :: s' =>
      if c =? PyStr.APOS then
        match s' with
        | d :: s'' =>
            if d =? PyStr.APOS
            then match sql_literal_body s'' with
                 | Some (v, rest) => Some (PyStr.APOS :: v, rest)
                 | None => None
                 end
            else Some ([], s')
        | [] => Some ([], [])
        end
      else match sql_literal_body s' with
           | Some (v, rest) => Some (c :: v, rest)
           | None => None
           end
  end.

Definition sql_literal (s : pystr) : option (pystr * pystr) :=
  match s with
  | c :: s' => if c =? PyStr.APOS then sql_literal_body s' else None
  | [] => None
  end.

(** [expect p s]: [s] without its prefix [p]. *)
Fixpoint expect (p s : pystr) : option pystr :=
  match p, s with
  | [], _ => Some s
  | c :: p', d :: s' => if c =? d then expect p' s' else None
  | _ :: _, [] => None
  end.

(** The four leading string literals of a parenthesised tuple, and the text
    after the separator that follows the fourth. *)
Definition sql_tuple_literals (s : pystr)
  : option (pystr * pystr * pystr * pystr * pystr) :=
  match expect (str "(") s with
  | None => None
  | Some s1 =>
  match sql_literal s1 with
  | None => None
  | Some (a, s2) =>
  match expect (str ", ") s2 with
  | None => None
  | Some s3 =>
  match sql_literal s3 with
  | None => None
  | Some (b, s4) =>
  match expect (str ", ") s4 with
  | None => None
  | Some s5 =>
  match sql_literal s5 with
  | None => None
  | Some (c, s6) =>
  match expect (str ", ") s6 with
  | None => None
  | Some s7 =>
  match sql_literal s7 with
  | None => None
  | Some (d, s8) =>
  match expect (str ", ") s8 with
  | None => None
  | Some s9 => Some (a, b, c, d, s9)
  end end end end end end end end end.

End CsvToSql.

(** ** scripts/jsonl_to_json.py *)

Module JsonlToJson.

(** What the function prints while reading and writing. *)
Inductive event :=
| SampleStop
| InvalidJson (lineno : Z)
| Progress (n : Z)
| FileNotFound
| ErrorReading
| ErrorWriting.

(** What [json.loads(line)] does: it returns a value, raises
    [json.JSONDecodeError], or raises another exception (a
    [RecursionError] on a deeply nested line). *)
Inductive loads_result (J : Type) :=
| Loaded (entry : J)
| JSONDecodeError
| LoadsRaised.
Arguments Loaded {J} entry.
Arguments JSONDecodeError {J}.
Arguments LoadsRaised {J}.

(** What the iteration over the open file gives next: a line, or an
    exception (bytes that are not UTF-8, an error of the device). *)
Inductive read_item :=
| Line (text : pystr)
| ReadRaised.

(** What [open(input_file, 'r', encoding='utf-8')] does: the file is
    missing, another exception is raised, or the file is open and the
    iteration gives these items. *)
Inductive input_file :=
| NoSuchFile
| OpenRaised
| Opened (items : list read_item).

(** [sample_size and i >= sample_size] *)
Definition sample_reached (sample_size : option Z) (i : Z) : bool :=
  match sample_size with
  | Some n => negb (n =? 0) && (n <=? i)
  | None => false
  end.

Definition progress (i : Z) (log : list event) : list event :=
  if ((i + 1) mod 10000 =? 0) then log ++ [Progress (i + 1)] else log.

Section with_json.
Context {J : Type}.
Variable json_loads : pystr -> loads_result J.
(** Whether [open(output_file, 'w')] and [json.dump(entries, f, ...)]
    complete without an exception. *)
Variable json_dump : list J -> bool.

(** [for i, line in enumerate(f)], from index [i] on, inside the [try] whose
    [except Exception] returns [False]: the entries, or [None] when an
    exception other than [JSONDecodeError] ended the loop.  The next line is
    fetched before the sample size is tested. *)
Fixpoint read_lines (sample_size : option Z) (i : Z) (items : list read_item)
    (entries : list J) (log : list event) : option (list J) * list event :=
  match items with
  | [] => (Some entries, log)
  | ReadRaised :: _ => (None, log ++ [ErrorReading])
  | Line line :: rest =>
      if sample_reached sample_size i then (Some entries, log ++ [SampleStop])
      else
        let line := PyStr.strip line in
        match line with
        | [] => read_lines sample_size (i + 1) rest entries (progress i log)
        | _ :: _ =>
            match json_loads line with
            | Loaded entry =>
                read_lines sample_size (i + 1) rest (entries ++ [entry])
                  (progress i log)
            | JSONDecodeError =>
                read_lines sample_size (i + 1) rest entries
                  (log ++ [InvalidJson (i + 1)])
            | LoadsRaised => (None, log ++ [ErrorReading])
            end
        end
  end.

(** [jsonl_to_json(input_file, output_file, sample_size)].  The result is
    the array written by [json.dump] when the function returns [True],
    [None] when it returns [False], with what was printed. *)
Definition jsonl_to_json (input : input_file) (sample_size : option Z)
  : option (list J) * list event :=
  match input with
  | NoSuchFile => (None, [FileNotFound])
  | OpenRaised => (None, [ErrorReading])
  | Opened items =>
      match read_lines sample_size 0 items [] [] with
      | (Some entries, log) =>
          if json_dump entries then (Some entries, log)
          else (None, log ++ [ErrorWriting])
      | (None, log) => (None, log)
      end
  end.

End with_json.

(** The lines the loop reads from index [i] on: all of them, or those
    before index [sample_size] in sample mode. *)
Definition sampled_from (sample_size : option Z) (i : Z) (lines : list pystr)
  : list pystr :=
  match sample_size with
  | None => lines
  | Some n => if n =? 0 then lines else take (Z.to_nat (n - i)) lines
  end.

Definition sampled (sample_size : option Z) (lines : list pystr) : list pystr :=
  sampled_from sample_size 0 lines.

(** The value of a line that parses. *)
Definition loaded {J : Type} (r : loads_result J) : option J :=
  match r with
  | Loaded entry => Some entry
  | JSONDecodeError => None
  | LoadsRaised => None
  end.

(** The line is blank, or [json.loads] returns or raises
    [JSONDecodeError] on it. *)
Definition readable {J : Type} (json_loads : pystr -> loads_result J)
    (line : pystr) : bool :=
  match PyStr.strip line with
  | [] => true
  | c :: l =>
      match json_loads (c :: l) with
      | LoadsRaised => false
      | _ => true
      end
  end.

(** The parsed objects of the non-empty, well-formed lines, in order. *)
Definition parsed_entries {J : Type} (json_loads : pystr -> loads_result J)
    (lines : list pystr) : list J :=
  omap (fun l => loaded (json_loads l))
    (List.filter (fun l => match l with [] => false | _ :: _ => true end)
       (map PyStr.strip lines)).

(** The numbers of the non-empty lines rejected with [JSONDecodeError],
    [lines] starting at line number [i + 1]. *)
Fixpoint malformed_lines {J : Type} (json_loads : pystr -> loads_result J)
    (i : Z) (lines : list pystr) : list Z :=
  match lines with
  | [] => []
  | line :: rest =>
      match PyStr.strip line with
      | [] => malformed_lines json_loads (i + 1) rest
      | c :: l =>
          match json_loads (c :: l) with
          | JSONDecodeError => (i + 1) :: malformed_lines json_loads (i + 1) rest
          | _ => malformed_lines json_loads (i + 1) rest
          end
      end
  end.

(** The line numbers of the warnings in a log. *)
Definition warnings (log : list event) : list Z :=
  omap (fun e => match e with InvalidJson n => Some n | _ => None end) log.

End JsonlToJson.

(** ** Reading the generated Rust source back *)

Module RustSource.

Definition CR : Z := 13.

(** A Unicode scalar value: what a character of a UTF-8 source file is. *)
Definition is_scalar (c : Z) : bool :=
  ((0 <=? c) && (c <? 0xD800)) || ((0xDFFF <? c) && (c <=? 0x10FFFF)).

(** What the Rust compiler does to a source file before it reads tokens:
    each CR immediately followed by LF is replaced by LF, once. *)
Fixpoint normalize_crlf (s : pystr) : pystr :=
  match s with
  | [] => []
  | c :: s' =>
      match s' with
      | d :: s'' =>
          if (c =? CR) && (d =? PyStr.NL) then PyStr.NL :: normalize_crlf s''
          else c :: normalize_crlf s'
      | [] => [c]
      end
  end.

(** How the Rust compiler reads a string literal of the normalized source
    after its opening quote: a backslash escapes the next character, an
    unescaped quote closes the literal, and a CR (which after the
    normalization is an isolated one) is an error.  The escapes with braces
    or hexadecimal digits and the line continuation are not read.  The
    result is the value of the literal and the text after it. *)
Fixpoint literal_body (s : pystr) : option (pystr * pystr) :=
  match s with
  | [] => None
  | c :: s' =>
      if c =? PyStr.QUOTE then Some ([], s')
      else if c =? PyStr.BACKSLASH then
        match s' with
        | d :: s'' =>
            let unescaped :=
              if d =? PyStr.BACKSLASH then Some PyStr.BACKSLASH
              else if d =? PyStr.QUOTE then Some PyStr.QUOTE
              else if d =? PyStr.APOS then Some PyStr.APOS
              else if d =? 110 then Some 10
              else if d =? 114 then Some 13
              else if d =? 116 then Some 9
              else if d =? 48 then Some 0
              else None in
            match unescaped, literal_body s'' with
            | Some x, Some (v, rest) => Some (x :: v, rest)
            | _, _ => None
            end
        | [] => None
        end
      else if (c =? CR) || negb (is_scalar c) then None
      else match literal_body s' with
           | Some (v, rest) => Some (c :: v, rest)
           | None => None
           end
  end.

Definition literal (s : pystr) : option (pystr * pystr) :=
  match s with
  | c :: s' => if c =? PyStr.QUOTE then literal_body s' else None
  | [] => None
  end.

(** One [map.insert("...", "...");] line: its two literals and the text
    after the line. *)
Definition insert_line (s : pystr) : option (pystr * pystr * pystr) :=
  match CsvToSql.expect (str "    map.insert(") s with
  | None => None
  | Some s1 =>
  match literal s1 with
  | None => None
  | Some (k, s2) =>
  match CsvToSql.expect (str ", ") s2 with
  | None => None
  | Some s3 =>
  match literal s3 with
  | None => None
  | Some (v, s4) =>
  match CsvToSql.expect (str ");" ++ [PyStr.NL]) s4 with
  | None => None
  | Some s5 => Some (k, v, s5)
  end end end end end.

(** The first [n] insert lines of a text, with the text after them; [None]
    when one of them cannot be read. *)
Fixpoint insert_lines (n : nat) (s : pystr)
  : option (list (pystr * pystr) * pystr) :=
  match n with
  | O => Some ([], s)
  | S n' =>
      match insert_line s with
      | Some (k, v, s') =>
          match insert_lines n' s' with
          | Some (kvs, rest) => Some ((k, v) :: kvs, rest)
          | None => None
          end
      | None => None
      end
  end.

(** The first [n] insert lines of a source file after its [header], as the
    compiler reads them. *)
Definition read_source (header : pystr) (n : nat) (source : pystr)
  : option (list (pystr * pystr) * pystr) :=
  match CsvToSql.expect header (normalize_crlf source) with
  | Some body => insert_lines n body
  | None => None
  end.

(** A text that a string literal can hold as it is, once quotes and
    backslashes are escaped: scalar values, none of them a CR. *)
Definition rust_text (s : pystr) : bool :=
  forallb (fun c => is_scalar c && negb (c =? CR)) s.

Definition no_cr (s : pystr) : bool := forallb (fun c => negb (c =? CR)) s.

End RustSource.

(** ** scripts/import_notes.py *)

(** [f"{n}"] for an [int]. *)
Definition format_int (n : Z) : pystr :=
  str (NilZero.string_of_int (Z.to_int n)).

Module ImportNotes.

(** A note of [notes.json]: an object with string values. *)
Definition note := PyDict.dict pystr pystr.

(** [convert_with_opencc(text, opencc_path)]; [run] is this call of
    [subprocess.run([opencc_path, '-c', 'jp2t'], input=text, ...)].  Only
    [CalledProcessError] is caught. *)
Definition convert_with_opencc (run : pystr -> pystr -> oracle_result)
    (text opencc_path : pystr) : result pystr :=
  match run opencc_path text with
  | Completed stdout => Return (PyStr.strip stdout)
  | CalledProcessError => Return text
  | OpenCCNotFound => Raise FileNotFoundError
  end.

(** An element of the list [process_notes] returns. *)
Record processed_note := {
  id : pystr;
  userId : pystr;
  character : pystr;
  noteText : pystr;
  isAdmin : Z;
  createdAt : Z;
  updatedAt : Z
}.

(** State of the loop of [process_notes]; [opencc_calls] counts the
    conversions run so far. *)
Record loop_state := {
  processed : list processed_note;
  conversions : PyDict.dict pystr pystr;
  opencc_calls : nat
}.

Section externals.
(** The externals of one run: the [n]-th run of OpenCC on a path and a
    text, and the values of the [n]-th [uuid.uuid4()] and
    [datetime.now().timestamp()]. *)
Variable opencc : nat -> pystr -> pystr -> oracle_result.
Variable uuid4 : nat -> pystr.
Variable timestamp : nat -> Z.

(** The body of [for note in notes]. *)
Definition process_one (user_id opencc_path : pystr) (st : loop_state)
    (note : note) : result loop_state :=
  word <- getitem note (str "word") ;;
  note_text <- getitem note (str "note") ;;
  tc <- (if negb (PyDict.contains (conversions st) word)
         then
           traditional <-
             convert_with_opencc (opencc (opencc_calls st)) word opencc_path ;;
           Return (traditional,
                   (PyDict.setitem (conversions st) word traditional,
                    S (opencc_calls st)))
         else
           traditional <- getitem (conversions st) word ;;
           Return (traditional, (conversions st, opencc_calls st))) ;;
  let traditional := fst tc in
  let n := length (processed st) in
  let note_id := uuid4 n in
  let now := timestamp n in
  Return {| processed :=
              processed st
              ++ [ {| id := note_id;
                      userId := user_id;
                      character := traditional;
                      noteText := note_text;
                      isAdmin := 0;
                      createdAt := now;
                      updatedAt := now |} ];
            conversions := fst (snd tc);
            opencc_calls := snd (snd tc) |}.

(** The loop of [process_notes], with its final state. *)
Definition process_notes_loop (notes : list note) (user_id opencc_path : pystr)
  : result loop_state :=
  for_each (process_one user_id opencc_path) notes
    {| processed := []; conversions := []; opencc_calls := 0 |}.

Definition process_notes (notes : list note) (user_id opencc_path : pystr)
  : result (list processed_note) :=
  st <- process_notes_loop notes user_id opencc_path ;;
  Return (processed st).

End externals.

(** The statement [insert_notes_to_db] builds for one note. *)
Definition note_sql (note : processed_note) : pystr :=
  let note_text_escaped :=
    PyStr.replace_char PyStr.APOS [PyStr.APOS; PyStr.APOS] (noteText note) in
  let character_escaped :=
    PyStr.replace_char PyStr.APOS [PyStr.APOS; PyStr.APOS] (character note) in
  str "INSERT OR REPLACE INTO notes (id, userId, character, noteText, isAdmin, createdAt, updatedAt)"
  ++ [PyStr.NL]
  ++ str "VALUES ('" ++ id note ++ str "', '" ++ userId note ++ str "', '"
  ++ character_escaped ++ str "', '" ++ note_text_escaped ++ str "', "
  ++ format_int (isAdmin note) ++ str ", " ++ format_int (createdAt note)
  ++ str ", " ++ format_int (updatedAt note) ++ str ");".

Definition batch_size : nat := 50.








(** The words of the notes, for those that have one. *)
Definition words_of (notes : list note) : list pystr :=
  omap (fun n => PyDict.get n (str "word")) notes.

(** What [process_notes] makes of one note, given the final table of
    conversions. *)
Definition processed_from (user_id : pystr)
    (conversions : PyDict.dict pystr pystr) (n : note) (p : processed_note)
  : Prop :=
  exists word note_text,
    PyDict.get n (str "word") = Some word
    /\ PyDict.get n (str "note") = Some note_text
    /\ PyDict.get conversions word = Some (character p)
    /\ noteText p = note_text
    /\ userId p = user_id
    /\ isAdmin p = 0
    /\ createdAt p = updatedAt p.

(** The words of the notes in order of first occurrence. *)
Fixpoint distinct_words (seen words : list pystr) : list pystr :=
  match words with
  | [] => []
  | w :: ws =>
      if bool_decide (elem_of w seen) then distinct_words seen ws
      else w :: distinct_words (seen ++ [w]) ws
  end.

End ImportNotes.

(** ** convert_notes_to_json.py *)

Module ConvertNotes.

(** [field.strip() == ''] *)
Definition blank (field : pystr) : bool :=
  match PyStr.strip field with
  | [] => true
  | _ :: _ => false
  end.

(** The warning printed for a row with fewer than four fields: its length
    and [row[:2]]. *)
Inductive event := ShortRow (fields : nat) (head : list pystr).

(** The body of [for row in reader], on the entries and the warnings so
    far. *)
Definition parse_row (st : list ImportNotes.note * list event)
    (row : list pystr) : list ImportNotes.note * list event :=
  match row with
  | [] => st
  | _ :: _ =>
      if forallb blank row then st
      else
        match row with
        | w :: p :: d :: n :: _ =>
            let entry :=
              [ (str "word", PyStr.strip w)
              ; (str "pronunciation", PyStr.strip p)
              ; (str "definition", PyStr.strip d)
              ; (str "note", PyStr.strip n) ] in
            (fst st ++ [entry], snd st)
        | _ => (fst st, snd st ++ [ShortRow (length row) (take 2 row)])
        end
  end.

(** [parse_notes_csv(filename)] on the rows [csv.reader] yields: the notes,
    with the warnings printed. *)
Definition parse_notes_csv (rows : list (list pystr))
  : list ImportNotes.note * list event :=
  fold_left parse_row rows ([], []).

(** The rows that become notes, and the rows that are reported, for the
    statements about [parse_notes_csv]. *)
Definition complete (row : list pystr) : bool :=
  negb (forallb blank row) && (4 <=? length row)%nat.

Definition short (row : list pystr) : bool :=
  negb (forallb blank row) && (length row <? 4)%nat.

(** The note of a row: its first four fields, stripped. *)
Definition note_of (row : list pystr) (n : ImportNotes.note) : Prop :=
  exists w p d t extra,
    row = w :: p :: d :: t :: extra
    /\ n = [ (str "word", PyStr.strip w)
           ; (str "pronunciation", PyStr.strip p)
           ; (str "definition", PyStr.strip d)
           ; (str "note", PyStr.strip t) ].

End ConvertNotes.

(** * Properties *)

(** ** Sharding *)

Lemma is_han_character_blocks (c : Z) :
  SeparateShards.is_han_character c = SeparateShards.in_han_blocks c.
Proof.
  unfold SeparateShards.is_han_character, SeparateShards.in_han_blocks,
    SeparateShards.han_blocks.
  cbn [existsb fst snd].
  now rewrite orb_false_r, !orb_assoc.
Qed.

Lemma count_han_chars_blocks (w : pystr) :
  SeparateShards.count_han_chars w = Z.of_nat (SeparateShards.han_code_points w).
Proof.
  unfold SeparateShards.han_code_points.
  induction w as [|c w IH]; [reflexivity|].
  cbn [SeparateShards.count_han_chars].
  cbn [List.filter]. rewrite IH, is_han_character_blocks.
  destruct (SeparateShards.in_han_blocks c); cbn [length]; lia.
Qed.

Lemma shard_names_distinct :
  NoDup [str "non-han"; str "han-1char"; str "han-2char"; str "han-3plus"].
Proof.
  assert (D01 : str "non-han" <> str "han-1char") by (vm_compute; discriminate).
  assert (D02 : str "non-han" <> str "han-2char") by (vm_compute; discriminate).
  assert (D03 : str "non-han" <> str "han-3plus") by (vm_compute; discriminate).
  assert (D12 : str "han-1char" <> str "han-2char") by (vm_compute; discriminate).
  assert (D13 : str "han-1char" <> str "han-3plus") by (vm_compute; discriminate).
  assert (D23 : str "han-2char" <> str "han-3plus") by (vm_compute; discriminate).
  repeat (apply NoDup_cons; split);
    rewrite ?elem_of_cons, ?elem_of_nil; try tauto.
  apply NoDup_nil. exact I.
Qed.

Lemma get_shard_for_word_cases (w : pystr) :
  SeparateShards.get_shard_for_word w =
    match SeparateShards.han_code_points w with
    | 0%nat => str "non-han"
    | 1%nat => str "han-1char"
    | 2%nat => str "han-2char"
    | _ => str "han-3plus"
    end.
Proof.
  unfold SeparateShards.get_shard_for_word.
  rewrite count_han_chars_blocks.
  destruct (SeparateShards.han_code_points w) as [|[|[|n]]]; try reflexivity.
  replace (Z.of_nat (S (S (S n))) =? 0) with false by (symmetry; apply Z.eqb_neq; lia).
  replace (Z.of_nat (S (S (S n))) =? 1) with false by (symmetry; apply Z.eqb_neq; lia).
  replace (Z.of_nat (S (S (S n))) =? 2) with false by (symmetry; apply Z.eqb_neq; lia).
  reflexivity.
Qed.

(** C5. [get_shard_for_word] returns one of the four shard names, chosen by
    the number of code points of the word in the CJK Unified Ideographs
    block or Extensions A-G: [non-han] iff that number is 0, [han-1char] iff
    1, [han-2char] iff 2, [han-3plus] iff 3 or more; the three scenario
    words land in [han-1char], [non-han] and [han-2char]. *)
Theorem get_shard_for_word_by_han_count (w : pystr) :
  let n := SeparateShards.han_code_points w in
  let s := SeparateShards.get_shard_for_word w in
  (s = str "non-han" \/ s = str "han-1char"
   \/ s = str "han-2char" \/ s = str "han-3plus")
  /\ (s = str "non-han" <-> n = 0%nat)
  /\ (s = str "han-1char" <-> n = 1%nat)
  /\ (s = str "han-2char" <-> n = 2%nat)
  /\ (s = str "han-3plus" <-> (3 <= n)%nat)
  /\ SeparateShards.get_shard_for_word [0x7684] = str "han-1char"
  /\ SeparateShards.get_shard_for_word (str "abc") = str "non-han"
  /\ SeparateShards.get_shard_for_word [0x5B66; 0x751F] = str "han-2char".
Proof.
  intros n s.
  assert (Ex : SeparateShards.get_shard_for_word [0x7684] = str "han-1char"
    /\ SeparateShards.get_shard_for_word (str "abc") = str "non-han"
    /\ SeparateShards.get_shard_for_word [0x5B66; 0x751F] = str "han-2char")
    by (repeat split; vm_compute; reflexivity).
  revert Ex. generalize (SeparateShards.get_shard_for_word [0x7684]),
    (SeparateShards.get_shard_for_word (str "abc")),
    (SeparateShards.get_shard_for_word [0x5B66; 0x751F]).
  intros e1 e2 e3 Ex.
  subst s. rewrite get_shard_for_word_cases. fold n.
  pose proof shard_names_distinct as D.
  set (s0 := str "non-han") in *. set (s1 := str "han-1char") in *.
  set (s2 := str "han-2char") in *. set (s3 := str "han-3plus") in *.
  clearbody s0 s1 s2 s3 n.
  rewrite !NoDup_cons, !elem_of_cons, !elem_of_nil in D.
  assert (D01 : s0 <> s1) by tauto. assert (D02 : s0 <> s2) by tauto.
  assert (D03 : s0 <> s3) by tauto. assert (D12 : s1 <> s2) by tauto.
  assert (D13 : s1 <> s3) by tauto. assert (D23 : s2 <> s3) by tauto.
  clear D.
  split; [destruct n as [|[|[|n']]]; auto|].
  split; [destruct n as [|[|[|n']]]; split; intros; try congruence; try lia|].
  split; [destruct n as [|[|[|n']]]; split; intros; try congruence; try lia|].
  split; [destruct n as [|[|[|n']]]; split; intros; try congruence; try lia|].
  split; [destruct n as [|[|[|n']]]; split; intros; try congruence; try lia|].
  exact Ex.
Qed.

(** ** Dictionaries *)

Section dict_facts.
Context {K V : Type} `{EqDecision K}.
Implicit Types (d : PyDict.dict K V) (k : K) (v : V).

Lemma get_setitem d k v k' :
  PyDict.get (PyDict.setitem d k v) k' =
    if decide (k' = k) then Some v else PyDict.get d k'.
Proof.
  induction d as [|[k0 v0] d IH]; cbn.
  - destruct (decide (k' = k)); reflexivity.
  - destruct (decide (k = k0)) as [->|Hne]; cbn.
    + destruct (decide (k' = k0)); reflexivity.
    + destruct (decide (k' = k0)) as [->|Hne'].
      * rewrite decide_False by congruence. reflexivity.
      * exact IH.
Qed.

Lemma keys_setitem_present d k v :
  PyDict.contains d k = true ->
  PyDict.keys (PyDict.setitem d k v) = PyDict.keys d.
Proof.
  unfold PyDict.contains, PyDict.keys.
  induction d as [|[k0 v0] d IH]; cbn; [discriminate|].
  destruct (decide (k = k0)) as [->|Hne]; cbn; [reflexivity|].
  intros Hc. f_equal. exact (IH Hc).
Qed.

Lemma setitem_absent d k v :
  PyDict.contains d k = false -> PyDict.setitem d k v = d ++ [(k, v)].
Proof.
  unfold PyDict.contains.
  induction d as [|[k0 v0] d IH]; cbn; [reflexivity|].
  destruct (decide (k = k0)) as [->|Hne]; [discriminate|].
  intros Hc. f_equal. exact (IH Hc).
Qed.

Lemma contains_elem_of_keys d k :
  PyDict.contains d k = true <-> k ∈ PyDict.keys d.
Proof.
  unfold PyDict.contains, PyDict.keys.
  induction d as [|[k0 v0] d IH]; cbn.
  - rewrite elem_of_nil. split; [discriminate|tauto].
  - rewrite elem_of_cons. destruct (decide (k = k0)) as [->|Hne].
    + split; auto.
    + rewrite IH. split; [auto|intros [?|?]; [contradiction|assumption]].
Qed.

Lemma get_app d1 d2 k :
  PyDict.get (d1 ++ d2) k =
    match PyDict.get d1 k with
    | Some v => Some v
    | None => PyDict.get d2 k
    end.
Proof.
  induction d1 as [|[k0 v0] d1 IH]; cbn; [reflexivity|].
  destruct (decide (k = k0)); [reflexivity|exact IH].
Qed.

End dict_facts.

Lemma fold_left_Zadd (l : list Z) (a : Z) :
  fold_left Z.add l a = a + fold_left Z.add l 0.
Proof.
  revert a. induction l as [|x l IH]; intros a; cbn; [lia|].
  rewrite (IH (a + x)), (IH (0 + x)). lia.
Qed.

Lemma sum_values_cons (k : pystr) (n : Z) (d : PyDict.dict pystr Z) :
  SeparateShards.sum_values ((k, n) :: d) = n + SeparateShards.sum_values d.
Proof.
  unfold SeparateShards.sum_values, PyDict.values. cbn.
  now rewrite fold_left_Zadd.
Qed.

Lemma sum_values_setitem (d : PyDict.dict pystr Z) (k : pystr) (n v : Z) :
  PyDict.get d k = Some n ->
  SeparateShards.sum_values (PyDict.setitem d k v)
  = SeparateShards.sum_values d + (v - n).
Proof.
  induction d as [|[k0 v0] d IH]; cbn [PyDict.get PyDict.setitem];
    [discriminate|].
  destruct (decide (k = k0)) as [->|Hne].
  - intros [= ->]. rewrite !sum_values_cons. lia.
  - intros Hg. rewrite !sum_values_cons, (IH Hg). lia.
Qed.

(** ** Separation into shards *)

Lemma shard_is_a_key (w : pystr) :
  PyDict.get SeparateShards.shards (SeparateShards.get_shard_for_word w)
  = Some (str "output_" ++ SeparateShards.get_shard_for_word w)
  /\ SeparateShards.get_shard_for_word w ∈ PyDict.keys SeparateShards.shards.
Proof.
  rewrite get_shard_for_word_cases.
  destruct (SeparateShards.han_code_points w) as [|[|[|n]]];
    (split; [vm_compute; reflexivity|]);
    unfold PyDict.keys, SeparateShards.shards; cbn [map fst];
    rewrite !elem_of_cons; tauto.
Qed.

Lemma files_of_shard_snoc (shard name : pystr) (seen : list pystr) :
  length (SeparateShards.files_of_shard shard (seen ++ [name]))
  = (length (SeparateShards.files_of_shard shard seen)
     + if decide (shard = SeparateShards.get_shard_for_word (SeparateShards.stem name))
       then 1 else 0)%nat.
Proof.
  unfold SeparateShards.files_of_shard.
  rewrite List.filter_app, length_app. f_equal.
  cbn [List.filter]. unfold PyStr.eqb.
  destruct (decide (shard = _)) as [->|Hne].
  - rewrite bool_decide_eq_true_2 by reflexivity. reflexivity.
  - rewrite bool_decide_eq_false_2 by congruence. reflexivity.
Qed.

Lemma separate_one_separated (seen : list pystr) (st : SeparateShards.loop_state)
    (name : pystr) :
  SeparateShards.separated seen st ->
  exists st', SeparateShards.separate_one st name = Return st'
              /\ SeparateShards.separated (seen ++ [name]) st'.
Proof.
  intros (Hk & Hc & Hs & Ho).
  unfold SeparateShards.separate_one, getitem.
  destruct (shard_is_a_key (SeparateShards.stem name)) as [Hdir Hin].
  rewrite Hdir. cbn [bind]. rewrite (Hc _ Hin). cbn [bind].
  eexists. split; [reflexivity|].
  unfold SeparateShards.separated; cbn [SeparateShards.shard_counts SeparateShards.ops].
  split; [|split; [|split]].
  - rewrite keys_setitem_present; [exact Hk|].
    unfold PyDict.contains. now rewrite (Hc _ Hin).
  - intros shard Hshard. rewrite get_setitem, files_of_shard_snoc.
    destruct (decide (shard = _)) as [->|Hne].
    + f_equal. lia.
    + rewrite (Hc _ Hshard). f_equal. lia.
  - rewrite (sum_values_setitem _ _ _ _ (Hc _ Hin)), Hs, length_app.
    cbn [length]. lia.
  - rewrite Ho, map_app, <- app_assoc. reflexivity.
Qed.

Lemma for_each_separated (files seen : list pystr) (st : SeparateShards.loop_state) :
  SeparateShards.separated seen st ->
  exists st', for_each SeparateShards.separate_one files st = Return st'
              /\ SeparateShards.separated (seen ++ files) st'.
Proof.
  revert seen st. induction files as [|name files IH]; intros seen st Hinv.
  - exists st. rewrite app_nil_r. split; [reflexivity|exact Hinv].
  - destruct (separate_one_separated seen st name Hinv) as (st1 & Hstep & Hinv1).
    destruct (IH _ _ Hinv1) as (st' & Hrest & Hinv').
    exists st'. cbn [for_each]. rewrite Hstep. cbn [bind].
    rewrite <- app_assoc in Hinv'. split; [exact Hrest|exact Hinv'].
Qed.

Lemma separated_start :
  SeparateShards.separated []
    {| SeparateShards.shard_counts :=
         map (fun shard => (shard, 0)) (PyDict.keys SeparateShards.shards);
       SeparateShards.ops := map Mkdir (PyDict.values SeparateShards.shards) |}.
Proof.
  unfold SeparateShards.separated;
    cbn [SeparateShards.shard_counts SeparateShards.ops].
  split; [reflexivity|split; [|split; [reflexivity|now rewrite app_nil_r]]].
  intros shard. unfold PyDict.keys, SeparateShards.shards. cbn [map fst].
  rewrite !elem_of_cons, elem_of_nil.
  intros [->|[->|[->|[->|[]]]]]; vm_compute; reflexivity.
Qed.

Lemma files_of_shard_cons (shard name : pystr) (files : list pystr) :
  SeparateShards.files_of_shard shard (name :: files)
  = if decide (SeparateShards.get_shard_for_word (SeparateShards.stem name) = shard)
    then name :: SeparateShards.files_of_shard shard files
    else SeparateShards.files_of_shard shard files.
Proof.
  unfold SeparateShards.files_of_shard. cbn [List.filter]. unfold PyStr.eqb.
  destruct (decide (_ = shard)) as [E|E].
  - now rewrite bool_decide_eq_true_2.
  - now rewrite bool_decide_eq_false_2.
Qed.

Lemma shard_lists_cons (names : list pystr) (name : pystr) (files : list pystr) :
  NoDup names ->
  concat (map (fun shard => SeparateShards.files_of_shard shard (name :: files))
            names)
  ≡ₚ (if decide (SeparateShards.get_shard_for_word (SeparateShards.stem name)
                  ∈ names)
      then [name] else [])
     ++ concat (map (fun shard => SeparateShards.files_of_shard shard files) names).
Proof.
  induction names as [|k names IH]; intros Hnd.
  - rewrite decide_False by apply not_elem_of_nil. reflexivity.
  - apply NoDup_cons in Hnd. destruct Hnd as [Hk Hnd].
    cbn [map concat]. rewrite (IH Hnd), files_of_shard_cons.
    destruct (decide (_ = k)) as [E|E].
    + rewrite (decide_True (P := _ ∈ k :: names)) by (rewrite E; apply elem_of_cons; now left).
      rewrite decide_False by now rewrite E. reflexivity.
    + destruct (decide (_ ∈ names)) as [Hin|Hin].
      * rewrite (decide_True (P := _ ∈ k :: names)) by (apply elem_of_cons; now right).
        cbn [app]. now rewrite Permutation_middle.
      * rewrite (decide_False (P := _ ∈ k :: names)); [reflexivity|].
        rewrite elem_of_cons. intros [?|?]; [congruence|contradiction].
Qed.

Lemma shard_lists_partition (files : list pystr) :
  concat (map (fun shard => SeparateShards.files_of_shard shard files)
            (PyDict.keys SeparateShards.shards))
  ≡ₚ files.
Proof.
  induction files as [|name files IH].
  - reflexivity.
  - rewrite shard_lists_cons by apply shard_names_distinct.
    destruct (shard_is_a_key (SeparateShards.stem name)) as [_ Hin].
    rewrite decide_True by exact Hin. cbn [app]. now rewrite IH.
Qed.

(** C4. Every file is copied exactly once, into the directory of the one
    shard [get_shard_for_word] gives its word, so that the four lists of
    files are a partition of the files; each counter is the number of files
    of its shard; the counters add up to the number of files; and the
    closing check returns a non-zero status on any mismatch. *)
Theorem shards_partition_the_words (all_files : list pystr) :
  (exists st,
     SeparateShards.main (Some all_files) = Return (0, st)
     /\ SeparateShards.ops st
        = map Mkdir (PyDict.values SeparateShards.shards)
          ++ map SeparateShards.copy_of all_files
     /\ PyDict.keys (SeparateShards.shard_counts st)
        = PyDict.keys SeparateShards.shards
     /\ (forall shard, shard ∈ PyDict.keys SeparateShards.shards ->
          PyDict.get (SeparateShards.shard_counts st) shard
          = Some (Z.of_nat (length (SeparateShards.files_of_shard shard all_files))))
     /\ SeparateShards.sum_values (SeparateShards.shard_counts st)
        = Z.of_nat (length all_files))
  /\ concat (map (fun shard => SeparateShards.files_of_shard shard all_files)
               (PyDict.keys SeparateShards.shards))
     ≡ₚ all_files
  /\ (forall name, name ∈ all_files ->
       exists shard,
         shard ∈ PyDict.keys SeparateShards.shards
         /\ name ∈ SeparateShards.files_of_shard shard all_files
         /\ forall shard', name ∈ SeparateShards.files_of_shard shard' all_files ->
                           shard' = shard)
  /\ (forall counts total_files,
       SeparateShards.sum_values counts <> total_files ->
       SeparateShards.verify counts total_files = 1)
  /\ (forall st status,
       SeparateShards.main (Some all_files) = Return (status, st) ->
       status = SeparateShards.verify (SeparateShards.shard_counts st)
                  (Z.of_nat (length all_files))).
Proof.
  destruct (for_each_separated all_files [] _ separated_start)
    as (st & Hrun & Hk & Hc & Hs & Ho).
  cbn [app] in *.
  split; [|split; [|split; [|split]]].
  - exists st. unfold SeparateShards.main. rewrite Hrun. cbn [bind].
    unfold SeparateShards.verify. rewrite Hs, Z.eqb_refl. cbn [negb].
    repeat split; assumption.
  - apply shard_lists_partition.
  - intros name Hname.
    exists (SeparateShards.get_shard_for_word (SeparateShards.stem name)).
    destruct (shard_is_a_key (SeparateShards.stem name)) as [_ Hin].
    split; [exact Hin|]. unfold SeparateShards.files_of_shard.
    split.
    + apply list_elem_of_In, List.filter_In. split; [now apply list_elem_of_In|].
      unfold PyStr.eqb. now apply bool_decide_eq_true_2.
    + intros shard' H'. apply list_elem_of_In, List.filter_In in H'.
      destruct H' as [_ H']. unfold PyStr.eqb in H'.
      apply bool_decide_eq_true_1 in H'. congruence.
  - intros counts total_files Hne. unfold SeparateShards.verify.
    destruct (Z.eqb_spec (SeparateShards.sum_values counts) total_files);
      [contradiction|reflexivity].
  - intros st' status. unfold SeparateShards.main. rewrite Hrun. cbn [bind].
    intros [= <- <-]. reflexivity.
Qed.

(** ** Merging mappings *)

Lemma merge_mappings_get (N M : PyDict.dict pystr pystr) (k : pystr) :
  PyDict.get (CharacterMapping.merge_mappings M N) k =
    match PyDict.get M k with
    | Some v => Some v
    | None => PyDict.get N k
    end.
Proof.
  unfold CharacterMapping.merge_mappings, PyDict.items, PyDict.copy.
  revert M. induction N as [|[k0 v0] N IH]; intros M; cbn [fold_left fst snd].
  - cbn. now destruct (PyDict.get M k).
  - destruct (PyDict.contains M k0) eqn:Hc; cbn [negb].
    + rewrite IH. cbn [PyDict.get].
      destruct (PyDict.get M k) eqn:Hk; [reflexivity|].
      destruct (decide (k = k0)) as [->|Hne]; [|reflexivity].
      unfold PyDict.contains in Hc. rewrite Hk in Hc. discriminate.
    + rewrite IH, (setitem_absent _ _ _ Hc), get_app. cbn [PyDict.get].
      destruct (PyDict.get M k); [reflexivity|].
      destruct (decide (k = k0)); reflexivity.
Qed.

Lemma merge_mappings_extends (N M : PyDict.dict pystr pystr) :
  exists added,
    CharacterMapping.merge_mappings M N = M ++ added
    /\ forall kv, kv ∈ added ->
         kv ∈ N /\ PyDict.contains M (fst kv) = false.
Proof.
  unfold CharacterMapping.merge_mappings, PyDict.items, PyDict.copy.
  assert (G : forall acc, exists added,
    fold_left
      (fun merged kc =>
         if negb (PyDict.contains merged (fst kc))
         then PyDict.setitem merged (fst kc) (snd kc) else merged) N (M ++ acc)
    = M ++ acc ++ added
    /\ forall kv, kv ∈ added -> kv ∈ N /\ PyDict.contains (M ++ acc) (fst kv) = false).
  { induction N as [|[k0 v0] N IH]; intros acc; cbn [fold_left fst snd].
    - exists []. rewrite app_nil_r. split; [reflexivity|].
      intros kv H. now apply elem_of_nil in H.
    - destruct (PyDict.contains (M ++ acc) k0) eqn:Hc; cbn [negb].
      + destruct (IH acc) as (added & E & Hin). exists added. split; [exact E|].
        intros kv H. destruct (Hin kv H). split; [now apply elem_of_cons; right|assumption].
      + rewrite (setitem_absent _ _ _ Hc), <- app_assoc.
        destruct (IH (acc ++ [(k0, v0)])) as (added & E & Hin).
        exists ((k0, v0) :: added). split.
        * rewrite E, <- app_assoc. reflexivity.
        * intros kv H. apply elem_of_cons in H. destruct H as [->|H].
          -- split; [apply elem_of_cons; now left|exact Hc].
          -- destruct (Hin kv H) as [H1 H2]. split; [apply elem_of_cons; now right|].
             revert H2. unfold PyDict.contains.
             rewrite (app_assoc M acc), (get_app (M ++ acc)).
             destruct (PyDict.get (M ++ acc) (fst kv)); [discriminate|reflexivity]. }
  destruct (G []) as (added & E & Hin). rewrite app_nil_r in *.
  exists added. split; [exact E|exact Hin].
Qed.

(** C6. Merging is additive: merging the empty mapping changes nothing;
    the entries of [M] stay where they are, followed only by entries of [N]
    whose key [M] lacks; a key of [M] keeps its value, and a key missing
    from [M] gets exactly the value [N] has for it (none when [N] lacks it
    too). *)
Theorem merge_mappings_monotone (M N : PyDict.dict pystr pystr) :
  CharacterMapping.merge_mappings M [] = M
  /\ (exists added,
        CharacterMapping.merge_mappings M N = M ++ added
        /\ forall kv, kv ∈ added ->
             kv ∈ N /\ PyDict.contains M (fst kv) = false)
  /\ (forall k,
        PyDict.get (CharacterMapping.merge_mappings M N) k =
          match PyDict.get M k with
          | Some v => Some v
          | None => PyDict.get N k
          end).
Proof.
  split; [reflexivity|]. split.
  - apply merge_mappings_extends.
  - intros k. apply merge_mappings_get.
Qed.

(** ** Orders *)

Lemma leb_refl (a : pystr) : PyStr.leb a a = true.
Proof.
  induction a as [|x a IH]; cbn; [reflexivity|].
  now rewrite Z.ltb_irrefl, Z.eqb_refl.
Qed.

Lemma leb_antisym (a b : pystr) :
  PyStr.leb a b = true -> PyStr.leb b a = true -> a = b.
Proof.
  revert b. induction a as [|x a IH]; intros [|y b]; cbn;
    try discriminate; [reflexivity|].
  destruct (Z.ltb_spec x y), (Z.eqb_spec x y), (Z.ltb_spec y x), (Z.eqb_spec y x);
    try lia; try discriminate.
  intros H1 H2. subst. f_equal. now apply IH.
Qed.

Lemma leb_trans (a b c : pystr) :
  PyStr.leb a b = true -> PyStr.leb b c = true -> PyStr.leb a c = true.
Proof.
  revert b c. induction a as [|x a IH]; intros [|y b] [|z c]; cbn;
    try discriminate; try reflexivity.
  destruct (Z.ltb_spec x y), (Z.eqb_spec x y), (Z.ltb_spec y z), (Z.eqb_spec y z),
    (Z.ltb_spec x z), (Z.eqb_spec x z); try lia; try discriminate; try reflexivity.
  apply IH.
Qed.

Lemma leb_total (a b : pystr) : PyStr.leb a b = true \/ PyStr.leb b a = true.
Proof.
  revert b. induction a as [|x a IH]; intros [|y b]; cbn; auto.
  destruct (Z.ltb_spec x y), (Z.eqb_spec x y), (Z.ltb_spec y x), (Z.eqb_spec y x);
    try lia; auto.
Qed.

#[local] Instance pystr_le_trans : Transitive PyStr.le.
Proof. intros a b c. apply leb_trans. Qed.
#[local] Instance pystr_le_antisym : AntiSymm (=) PyStr.le.
Proof. intros a b. apply leb_antisym. Qed.
#[local] Instance pystr_le_total : Total PyStr.le.
Proof. intros a b. apply leb_total. Qed.

Lemma item_leb_cases (a b : pystr * pystr) :
  PyJson.item_leb a b = true <->
  (fst a = fst b /\ PyStr.leb (snd a) (snd b) = true)
  \/ (fst a <> fst b /\ PyStr.leb (fst a) (fst b) = true).
Proof.
  unfold PyJson.item_leb, PyStr.eqb.
  destruct (decide (fst a = fst b)) as [E|E].
  - rewrite bool_decide_eq_true_2 by assumption. tauto.
  - rewrite bool_decide_eq_false_2 by assumption. tauto.
Qed.

#[local] Instance item_le_trans : Transitive PyJson.item_le.
Proof.
  intros a b c. unfold PyJson.item_le. rewrite !item_leb_cases.
  intros [[E1 L1]|[N1 L1]] [[E2 L2]|[N2 L2]].
  - left. split; [congruence|eapply leb_trans; eassumption].
  - right. rewrite E1. tauto.
  - right. rewrite <- E2. tauto.
  - right. split; [|eapply leb_trans; eassumption].
    intros E. rewrite <- E in L2. apply N1. now apply leb_antisym.
Qed.

#[local] Instance item_le_antisym : AntiSymm (=) PyJson.item_le.
Proof.
  intros [k1 v1] [k2 v2]. unfold PyJson.item_le. rewrite !item_leb_cases.
  cbn [fst snd].
  intros [[E1 L1]|[N1 L1]] [[E2 L2]|[N2 L2]]; try congruence.
  - f_equal; [assumption|now apply leb_antisym].
  - exfalso. apply N1. now apply leb_antisym.
Qed.

#[local] Instance item_le_total : Total PyJson.item_le.
Proof.
  intros a b. unfold PyJson.item_le. rewrite !item_leb_cases.
  destruct (decide (fst a = fst b)) as [E|E].
  - destruct (leb_total (snd a) (snd b)); [left; left|right; left]; auto.
  - destruct (leb_total (fst a) (fst b)); [left; right|right; right]; auto.
Qed.

Lemma sorted_Permutation (l1 l2 : list pystr) :
  l1 ≡ₚ l2 -> PyStr.sorted l1 = PyStr.sorted l2.
Proof.
  intros HP. unfold PyStr.sorted.
  apply (Sorted_unique PyStr.le); try apply Sorted_merge_sort; try apply _.
  now rewrite !merge_sort_Permutation.
Qed.

Lemma sorted_items_Permutation (d1 d2 : PyDict.dict pystr pystr) :
  d1 ≡ₚ d2 -> PyJson.sorted_items d1 = PyJson.sorted_items d2.
Proof.
  intros HP. unfold PyJson.sorted_items, PyDict.items.
  apply (Sorted_unique PyJson.item_le); try apply Sorted_merge_sort; try apply _.
  now rewrite !merge_sort_Permutation.
Qed.

Lemma dumps_sorted_Permutation (d1 d2 : PyDict.dict pystr pystr) :
  d1 ≡ₚ d2 -> PyJson.dumps true d1 = PyJson.dumps true d2.
Proof.
  intros HP. unfold PyJson.dumps.
  destruct d1 as [|x d1], d2 as [|y d2].
  - reflexivity.
  - now apply Permutation_nil_cons in HP.
  - symmetry in HP. now apply Permutation_nil_cons in HP.
  - now rewrite (sorted_items_Permutation _ _ HP).
Qed.

(** ** The character-mapping build *)

Lemma contains_Permutation (d1 d2 : PyDict.dict pystr pystr) (k : pystr) :
  d1 ≡ₚ d2 -> PyDict.contains d1 k = PyDict.contains d2 k.
Proof.
  intros HP.
  assert (HK : PyDict.keys d1 ≡ₚ PyDict.keys d2)
    by (unfold PyDict.keys; now rewrite HP).
  destruct (PyDict.contains d1 k) eqn:E1, (PyDict.contains d2 k) eqn:E2;
    try reflexivity.
  - apply contains_elem_of_keys in E1. rewrite HK in E1.
    apply contains_elem_of_keys in E1. congruence.
  - apply contains_elem_of_keys in E2. rewrite <- HK in E2.
    apply contains_elem_of_keys in E2. congruence.
Qed.

Lemma merge_mappings_Permutation (N M1 M2 : PyDict.dict pystr pystr) :
  M1 ≡ₚ M2 ->
  CharacterMapping.merge_mappings M1 N ≡ₚ CharacterMapping.merge_mappings M2 N.
Proof.
  unfold CharacterMapping.merge_mappings, PyDict.items, PyDict.copy.
  revert M1 M2. induction N as [|[k0 v0] N IH]; intros M1 M2 HP;
    cbn [fold_left fst snd]; [exact HP|].
  rewrite (contains_Permutation _ _ k0 HP).
  destruct (PyDict.contains M2 k0) eqn:Hc; cbn [negb].
  - now apply IH.
  - apply IH. rewrite (setitem_absent M2 _ _ Hc).
    rewrite <- (contains_Permutation _ _ k0 HP) in Hc.
    rewrite (setitem_absent M1 _ _ Hc). now rewrite HP.
Qed.

Lemma extract_unique_kanji_order_free
    (set_iter1 set_iter2 : list pystr -> list pystr)
    (characters : list CharacterMapping.char_entry) :
  (forall s, set_iter1 s ≡ₚ s) -> (forall s, set_iter2 s ≡ₚ s) ->
  CharacterMapping.extract_unique_kanji_from_kanjidic set_iter1 characters
  = CharacterMapping.extract_unique_kanji_from_kanjidic set_iter2 characters.
Proof.
  intros H1 H2. unfold CharacterMapping.extract_unique_kanji_from_kanjidic.
  apply sorted_Permutation. now rewrite H1, H2.
Qed.

Lemma extract_unique_kanji_sorted
    (set_iter : list pystr -> list pystr)
    (characters : list CharacterMapping.char_entry) :
  Sorted PyStr.le
    (CharacterMapping.extract_unique_kanji_from_kanjidic set_iter characters).
Proof.
  unfold CharacterMapping.extract_unique_kanji_from_kanjidic, PyStr.sorted.
  apply Sorted_merge_sort. apply _.
Qed.

(** C7. Two runs of the character-mapping build on the same KANJIDIC2
    characters, the same Chinese dictionary, the same oracle and the same
    prior mapping perform the same operations with the same file contents,
    whatever order the set of kanji is iterated in and whatever order the
    prior mapping holds its entries in: the batch sent to the oracle is the
    sorted list of kanji, and the file is written with sorted keys. *)
Theorem character_mapping_build_deterministic
    (set_iter1 set_iter2 : list pystr -> list pystr)
    (kanjidic : option (list CharacterMapping.char_entry))
    (chinese_char : option (list pystr))
    (opencc : pystr -> oracle_result)
    (j2c1 j2c2 : option (PyDict.dict pystr pystr)) :
  (forall s, set_iter1 s ≡ₚ s) ->
  (forall s, set_iter2 s ≡ₚ s) ->
  CharacterMapping.same_mapping j2c1 j2c2 ->
  CharacterMapping.main set_iter1 kanjidic chinese_char opencc j2c1
  = CharacterMapping.main set_iter2 kanjidic chinese_char opencc j2c2
  /\ (forall characters,
        CharacterMapping.extract_unique_kanji_from_kanjidic set_iter1 characters
        = CharacterMapping.extract_unique_kanji_from_kanjidic set_iter2 characters
        /\ Sorted PyStr.le
             (CharacterMapping.extract_unique_kanji_from_kanjidic set_iter1
                characters))
  /\ (forall m1 m2 path,
        m1 ≡ₚ m2 ->
        CharacterMapping.save_mapping_as_json m1 path
        = CharacterMapping.save_mapping_as_json m2 path).
Proof.
  intros H1 H2 Hj. split; [|split].
  - unfold CharacterMapping.main.
    destruct kanjidic as [characters|]; [|reflexivity].
    destruct chinese_char as [chinese_chars|]; [|reflexivity].
    rewrite (extract_unique_kanji_order_free set_iter1 set_iter2 _ H1 H2).
    destruct (CharacterMapping.generate_mapping_batch opencc _) as [|kv cm] eqn:E;
      [reflexivity|].
    f_equal. f_equal. unfold CharacterMapping.save_mapping_as_json.
    f_equal. f_equal. apply dumps_sorted_Permutation.
    apply merge_mappings_Permutation.
    destruct j2c1, j2c2; cbn in Hj |- *; try contradiction; auto.
  - intros characters. split.
    + now apply extract_unique_kanji_order_free.
    + apply extract_unique_kanji_sorted.
  - intros m1 m2 path HP. unfold CharacterMapping.save_mapping_as_json.
    now rewrite (dumps_sorted_Permutation _ _ HP).
Qed.

(** A concrete pair of runs: the set is iterated in insertion order in one
    and in reverse in the other, and the prior mapping is held in two
    different orders. *)
Lemma character_mapping_build_deterministic_witness :
  (forall s : list pystr, id s ≡ₚ s)
  /\ (forall s : list pystr, rev s ≡ₚ s)
  /\ CharacterMapping.same_mapping
       (Some [(str "a", str "b"); (str "c", str "d")])
       (Some [(str "c", str "d"); (str "a", str "b")])
  /\ CharacterMapping.main id
       (Some [ {| CharacterMapping.literal := Some [0x5B66] |}
             ; {| CharacterMapping.literal := Some [0x56FD] |} ])
       (Some [[0x5B78]])
       (fun _ => Completed [0x570B; 10; 0x5B78; 10])
       (Some [(str "a", str "b"); (str "c", str "d")])
     = CharacterMapping.main (@rev pystr)
       (Some [ {| CharacterMapping.literal := Some [0x5B66] |}
             ; {| CharacterMapping.literal := Some [0x56FD] |} ])
       (Some [[0x5B78]])
       (fun _ => Completed [0x570B; 10; 0x5B78; 10])
       (Some [(str "c", str "d"); (str "a", str "b")]).
Proof.
  assert (Hid : forall s : list pystr, id s ≡ₚ s) by reflexivity.
  assert (Hrev : forall s : list pystr, rev s ≡ₚ s)
    by (intros s; symmetry; apply Permutation_rev).
  assert (Hsame : CharacterMapping.same_mapping
       (Some [(str "a", str "b"); (str "c", str "d")])
       (Some [(str "c", str "d"); (str "a", str "b")]))
    by apply perm_swap.
  split; [exact Hid|]. split; [exact Hrev|]. split; [exact Hsame|].
  exact (proj1 (character_mapping_build_deterministic id (@rev pystr) _ _ _ _ _
                  Hid Hrev Hsame)).
Defined.

(** ** The mapping builds on a mismatched batch *)

(** On a mismatched batch the character-mapping program stops before any
    file is written. *)
Lemma character_mapping_mismatch_writes_nothing
    (set_iter : list pystr -> list pystr)
    (characters : list CharacterMapping.char_entry)
    (chinese_char : option (list pystr))
    (opencc : pystr -> oracle_result)
    (j2c : option (PyDict.dict pystr pystr)) (stdout : pystr) :
  let unique_kanji :=
    CharacterMapping.extract_unique_kanji_from_kanjidic set_iter characters in
  opencc (PyStr.join [PyStr.NL] unique_kanji) = Completed stdout ->
  length (PyStr.split PyStr.NL (PyStr.strip stdout)) <> length unique_kanji ->
  CharacterMapping.main set_iter (Some characters) chinese_char opencc j2c
  = ([Mkdir (str "output")], Return 1).
Proof.
  intros unique_kanji Hrun Hlen. unfold CharacterMapping.main.
  destruct chinese_char as [chinese_chars|]; [|reflexivity].
  fold unique_kanji. unfold CharacterMapping.generate_mapping_batch.
  rewrite Hrun. apply Nat.eqb_neq in Hlen. rewrite Hlen. reflexivity.
Qed.

(** On a mismatched batch the kanji-mapping program goes on and writes both
    of its output files from the empty mapping. *)
Lemma kanji_mapping_mismatch_writes_empty
    (set_iter : list pystr -> list pystr)
    (words : list KanjiMapping.word)
    (opencc : pystr -> oracle_result) (stdout : pystr) :
  let unique_kanji :=
    KanjiMapping.extract_unique_kanji_from_jmdict set_iter words in
  opencc (PyStr.join [PyStr.NL] unique_kanji) = Completed stdout ->
  length (PyStr.split PyStr.NL (PyStr.strip stdout)) <> length unique_kanji ->
  fst (KanjiMapping.main set_iter (Some words) opencc)
  = [ Mkdir (str "output")
    ; WriteFile KanjiMapping.rust_output_path
        (KanjiMapping.rust_header ++ KanjiMapping.rust_footer)
    ; WriteFile KanjiMapping.json_output_path (str "{}") ].
Proof.
  intros unique_kanji Hrun Hlen. unfold KanjiMapping.main.
  fold unique_kanji. unfold KanjiMapping.generate_mapping_batch.
  rewrite Hrun. apply Nat.eqb_neq in Hlen. rewrite Hlen. cbn [negb].
  destruct unique_kanji; reflexivity.
Qed.

(** C1. The kanji-mapping program does not fail atomically.  Two kanji
    strings are sent to the oracle and one line comes back; the program
    still writes the generated Rust module and the JSON mapping, both from
    the empty mapping, and ends with status 0. *)
Theorem kanji_mapping_mismatch_overwrites_outputs :
  KanjiMapping.main id
    (Some [ {| KanjiMapping.kanji :=
                 Some [ {| KanjiMapping.text := Some [0x5B66; 0x751F] |} ] |}
          ; {| KanjiMapping.kanji :=
                 Some [ {| KanjiMapping.text := Some [0x56FD; 0x5BB6] |} ] |} ])
    (fun _ => Completed [0x5B78; 0x751F; 10])
  = ( [ Mkdir (str "output")
      ; WriteFile KanjiMapping.rust_output_path
          (KanjiMapping.rust_header ++ KanjiMapping.rust_footer)
      ; WriteFile KanjiMapping.json_output_path (str "{}") ],
      Return 0 ).
Proof. vm_compute. reflexivity. Qed.

(** ** Strings *)

Lemma startswith_app (p s : pystr) : PyStr.startswith (p ++ s) p = true.
Proof.
  induction p as [|c p IH]; cbn; [now destruct s|].
  now rewrite Z.eqb_refl, IH.
Qed.

Lemma endswith_app (s p : pystr) : PyStr.endswith (s ++ p) p = true.
Proof.
  unfold PyStr.endswith. rewrite rev_app_distr. apply startswith_app.
Qed.

Lemma contains_char_app (c : Z) (a b : pystr) :
  PyStr.contains_char c (a ++ b)
  = PyStr.contains_char c a || PyStr.contains_char c b.
Proof. apply existsb_app. Qed.

Lemma split_nonempty (sep : Z) (s : pystr) : PyStr.split sep s <> [].
Proof.
  destruct s as [|c s]; cbn; [discriminate|].
  destruct (c =? sep); [discriminate|].
  destruct (PyStr.split sep s); discriminate.
Qed.

Lemma split_no_sep (sep : Z) (s : pystr) :
  PyStr.contains_char sep s = false -> PyStr.split sep s = [s].
Proof.
  unfold PyStr.contains_char.
  induction s as [|c s IH]; cbn; [reflexivity|].
  rewrite (Z.eqb_sym sep c). destruct (c =? sep); cbn; [discriminate|].
  intros H. now rewrite (IH H).
Qed.

Lemma split_app_sep (sep : Z) (a b : pystr) :
  PyStr.split sep (a ++ sep :: b) = PyStr.split sep a ++ PyStr.split sep b.
Proof.
  induction a as [|c a IH]; cbn.
  - now rewrite Z.eqb_refl.
  - destruct (c =? sep); [now rewrite IH|].
    rewrite IH. pose proof (split_nonempty sep a) as Hne.
    destruct (PyStr.split sep a); [contradiction|reflexivity].
Qed.

Lemma last_app_nonempty {A : Type} (l1 l2 : list A) (d : A) :
  l2 <> [] -> List.last (l1 ++ l2) d = List.last l2 d.
Proof.
  intros Hne. induction l1 as [|x l1 IH]; [reflexivity|].
  cbn [app List.last]. destruct (l1 ++ l2) eqn:E; [|exact IH].
  apply app_eq_nil in E. destruct E. contradiction.
Qed.

(** ** The web server *)

Lemma route_json (word : pystr) :
  Server.route (str "/output_dictionary/" ++ word ++ str ".json")
  = Server.ServeJsonFile (str "/output_dictionary/" ++ word ++ str ".json").
Proof.
  unfold Server.route.
  rewrite startswith_app, (app_assoc _ word), endswith_app.
  rewrite contains_char_app.
  replace (PyStr.contains_char PyStr.DOT (str ".json")) with true
    by (vm_compute; reflexivity).
  rewrite orb_true_r, andb_false_r.
  unfold PyStr.eqb. rewrite bool_decide_eq_false_2; [reflexivity|].
  intros H. apply (f_equal (@length Z)) in H.
  rewrite !length_app in H. vm_compute in H. lia.
Qed.

Lemma last_segment_of_path (dir word : pystr) :
  PyStr.contains_char PyStr.SLASH word = false ->
  List.last
    (PyStr.split PyStr.SLASH (dir ++ [PyStr.SLASH] ++ word ++ str ".json")) []
  = word ++ str ".json".
Proof.
  intros Hw. cbn [app].
  rewrite split_app_sep, last_app_nonempty by apply split_nonempty.
  rewrite split_no_sep; [reflexivity|].
  rewrite contains_char_app, Hw. vm_compute. reflexivity.
Qed.

Lemma os_path_join_artifact (word : pystr) :
  PyStr.contains_char PyStr.SLASH word = false ->
  Server.os_path_join (str "..") [str "output_dictionary"; word ++ str ".json"]
  = Server.artifact_path word.
Proof.
  intros Hw. unfold Server.os_path_join, Server.artifact_path.
  cbn [fold_left].
  replace (PyStr.startswith (str "output_dictionary") (str "/")) with false
    by (vm_compute; reflexivity).
  change (str "..") with [46; 46]. cbv iota.
  replace (PyStr.endswith [46; 46] (str "/")) with false
    by (vm_compute; reflexivity).
  replace (PyStr.startswith (word ++ str ".json") (str "/")) with false.
  2:{ change (str "/") with [47].
      destruct word as [|c word]; [vm_compute; reflexivity|].
      cbn [PyStr.contains_char existsb] in Hw. cbn [app PyStr.startswith].
      apply orb_false_elim in Hw. destruct Hw as [Hc _].
      change PyStr.SLASH with 47 in Hc. now rewrite Hc. }
  change ([46; 46] ++ str "/" ++ str "output_dictionary")
    with (str "../output_dictionary").
  replace (PyStr.endswith (str "../output_dictionary") (str "/")) with false
    by (vm_compute; reflexivity).
  change (str "../output_dictionary/")
    with (str "../output_dictionary" ++ str "/").
  change (str "../output_dictionary") with (46 :: str "./output_dictionary").
  cbv iota. now rewrite <- app_assoc.
Qed.

(** [serve_json_file] looks up the last segment of the path, whatever
    comes before it. *)
Lemma serve_json_file_last_segment
    (fs : pystr -> Server.open_result) (dir word : pystr) :
  PyStr.contains_char PyStr.SLASH word = false ->
  Server.serve_json_file fs (dir ++ [PyStr.SLASH] ++ word ++ str ".json")
  = match fs (Server.artifact_path word) with
    | Server.FileContent content =>
        Server.Response 200 (str "application/json; charset=utf-8") content
    | Server.NotFound =>
        Server.send_error 404 (str "Character '" ++ word ++ str "' not found")
    | Server.OpenError e =>
        Server.send_error 500 (str "Error loading character data: " ++ e)
    end.
Proof.
  intros Hw. unfold Server.serve_json_file.
  rewrite (last_segment_of_path dir word Hw).
  replace (take (length (word ++ str ".json") - 5) (word ++ str ".json"))
    with word.
  2:{ rewrite length_app. change (length (str ".json")) with 5%nat.
      replace (length word + 5 - 5)%nat with (length word) by lia.
      now rewrite take_app_length. }
  now rewrite (os_path_join_artifact word Hw).
Qed.

Lemma serve_json_file_artifact (fs : pystr -> Server.open_result) (word : pystr) :
  PyStr.contains_char PyStr.SLASH word = false ->
  Server.serve_json_file fs (str "/output_dictionary/" ++ word ++ str ".json")
  = match fs (Server.artifact_path word) with
    | Server.FileContent content =>
        Server.Response 200 (str "application/json; charset=utf-8") content
    | Server.NotFound =>
        Server.send_error 404 (str "Character '" ++ word ++ str "' not found")
    | Server.OpenError e =>
        Server.send_error 500 (str "Error loading character data: " ++ e)
    end.
Proof.
  intros Hw.
  change (str "/output_dictionary/")
    with (str "/output_dictionary" ++ [PyStr.SLASH]).
  rewrite <- app_assoc.
  exact (serve_json_file_last_segment fs (str "/output_dictionary") word Hw).
Qed.

(** A word with [/] inside is not looked up as a whole: the path
    [/output_dictionary/a/b.json] has the form with the word [a/b]; the
    artifact of [a/b] exists, and the server answers 404, because it looks
    the last segment [b] up. *)
Lemma json_request_counterexample :
  ~ (forall (unquote : pystr -> pystr) (fs : pystr -> Server.open_result)
            (raw word : pystr),
       unquote raw = str "/output_dictionary/" ++ word ++ str ".json" ->
       (forall content,
          fs (Server.artifact_path word) = Server.FileContent content ->
          Server.do_GET unquote fs raw
          = Server.Response 200 (str "application/json; charset=utf-8") content)
       /\ (fs (Server.artifact_path word) = Server.NotFound ->
           exists message,
             Server.do_GET unquote fs raw = Server.SendError 404 message)).
Proof.
  intros H.
  destruct (H id
    (fun p => if PyStr.eqb p (str "../output_dictionary/a/b.json")
              then Server.FileContent (str "{}") else Server.NotFound)
    (str "/output_dictionary/a/b.json") (str "a/b") eq_refl) as [H200 _].
  specialize (H200 (str "{}") eq_refl).
  assert (E : Server.do_GET id
                (fun p => if PyStr.eqb p (str "../output_dictionary/a/b.json")
                          then Server.FileContent (str "{}") else Server.NotFound)
                (str "/output_dictionary/a/b.json")
              = Server.SendError 404 (str "Character 'b' not found"))
    by (vm_compute; reflexivity).
  rewrite E in H200. discriminate H200.
Qed.

Lemma latin1_app (a b : pystr) :
  Server.latin1 (a ++ b) = Server.latin1 a && Server.latin1 b.
Proof. apply forallb_app. Qed.

Lemma send_error_not_found (word : pystr) :
  Server.send_error 404 (str "Character '" ++ word ++ str "' not found")
  = if Server.latin1 word
    then Server.SendError 404 (str "Character '" ++ word ++ str "' not found")
    else Server.UnicodeEncodeError.
Proof.
  unfold Server.send_error. rewrite !latin1_app.
  replace (Server.latin1 (str "Character '")) with true
    by (vm_compute; reflexivity).
  replace (Server.latin1 (str "' not found")) with true
    by (vm_compute; reflexivity).
  now rewrite andb_true_r.
Qed.

Lemma send_error_loading (e : pystr) :
  Server.send_error 500 (str "Error loading character data: " ++ e)
  = if Server.latin1 e
    then Server.SendError 500 (str "Error loading character data: " ++ e)
    else Server.UnicodeEncodeError.
Proof.
  unfold Server.send_error. rewrite latin1_app.
  replace (Server.latin1 (str "Error loading character data: ")) with true
    by (vm_compute; reflexivity).
  reflexivity.
Qed.

(** C2. The request for the artifact of the word U+7684, which does not
    exist, is not answered with 404: [send_error] raises
    [UnicodeEncodeError] on the message that quotes the word, and nothing
    is sent.  In general, for a request whose decoded path is
    [/output_dictionary/<word>.json] with no [/] inside the word, the
    server answers 200 with the JSON content type and the content of the
    artifact when that file can be read; when the file is missing it
    answers 404 only if every character of the word is below U+0100, and
    sends nothing otherwise. *)
Theorem json_request_for_missing_word_not_answered :
  Server.do_GET id (fun _ => Server.NotFound)
    (str "/output_dictionary/" ++ [0x7684] ++ str ".json")
  = Server.UnicodeEncodeError
  /\ forall (unquote : pystr -> pystr) (fs : pystr -> Server.open_result)
            (raw word : pystr),
       unquote raw = str "/output_dictionary/" ++ word ++ str ".json" ->
       PyStr.contains_char PyStr.SLASH word = false ->
       (forall content,
          fs (Server.artifact_path word) = Server.FileContent content ->
          Server.do_GET unquote fs raw
          = Server.Response 200 (str "application/json; charset=utf-8") content)
       /\ (fs (Server.artifact_path word) = Server.NotFound ->
           Server.do_GET unquote fs raw
           = if Server.latin1 word
             then Server.SendError 404
                    (str "Character '" ++ word ++ str "' not found")
             else Server.UnicodeEncodeError)
       /\ (fs (Server.artifact_path word) = Server.NotFound ->
           Server.latin1 word = false ->
           forall code message,
             Server.do_GET unquote fs raw <> Server.SendError code message).
Proof.
  split; [vm_compute; reflexivity|].
  intros unquote fs raw word Hpath Hw. unfold Server.do_GET.
  rewrite Hpath, route_json, (serve_json_file_artifact fs word Hw).
  split; [|split].
  - intros content Hc. now rewrite Hc.
  - intros Hc. rewrite Hc. apply send_error_not_found.
  - intros Hc Hl code message. rewrite Hc, send_error_not_found, Hl.
    discriminate.
Qed.

Lemma route_lookup_is_index (path : pystr) :
  (1 < length path)%nat ->
  PyStr.startswith path (str "/static") = false ->
  PyStr.contains_char PyStr.DOT path = false ->
  Server.route path = Server.ServeIndex.
Proof.
  intros Hlen Hs Hd. unfold Server.route. rewrite Hs, Hd.
  apply Nat.ltb_lt in Hlen. rewrite Hlen. cbn [negb andb].
  now destruct (PyStr.eqb path (str "/")).
Qed.

Lemma route_json_only (path p : pystr) :
  Server.route path = Server.ServeJsonFile p ->
  p = path
  /\ PyStr.startswith path (str "/output_dictionary/") = true
  /\ PyStr.endswith path (str ".json") = true.
Proof.
  unfold Server.route.
  destruct (PyStr.eqb path (str "/")); [discriminate|].
  destruct ((1 <? length path)%nat && _ && _); [discriminate|].
  destruct (PyStr.startswith path (str "/output_dictionary/")) eqn:E1;
    destruct (PyStr.endswith path (str ".json")) eqn:E2; cbn [andb];
    try (destruct (_ || _); discriminate).
  intros [= <-]. auto.
Qed.

(** The claim C10 as it is written does not hold when [index.html] is
    missing: the lookup path of the character U+7684 is answered with 404
    and not with a 200 response. *)
Lemma lookup_request_counterexample :
  ~ (forall (unquote : pystr -> pystr) (fs : pystr -> Server.open_result)
            (raw : pystr),
       (1 < length (unquote raw))%nat ->
       PyStr.startswith (unquote raw) (str "/static") = false ->
       PyStr.contains_char PyStr.DOT (unquote raw) = false ->
       exists content,
         Server.do_GET unquote fs raw
         = Server.Response 200 (str "text/html; charset=utf-8") content).
Proof.
  intros H.
  assert (E : Server.do_GET id (fun _ => Server.NotFound) [47; 0x7684]
              = Server.SendError 404 (str "index.html not found"))
    by (vm_compute; reflexivity).
  destruct (H id (fun _ => Server.NotFound) [47; 0x7684]) as [content Hc];
    [vm_compute; lia|reflexivity|reflexivity|].
  rewrite E in Hc. discriminate Hc.
Qed.

(** C10, amended. A request whose decoded path is longer than one
    character, does not start with [/static] and has no dot is answered by
    the index responder, whatever artifacts exist: the content of
    [index.html] with status 200 and the HTML content type when that file
    can be read, 404 when it is missing.  Only a path that starts with
    [/output_dictionary/] and ends with [.json] reaches the artifact
    lookup. *)
Theorem lookup_request_serves_index
    (unquote : pystr -> pystr) (fs : pystr -> Server.open_result)
    (raw : pystr) :
  (1 < length (unquote raw))%nat ->
  PyStr.startswith (unquote raw) (str "/static") = false ->
  PyStr.contains_char PyStr.DOT (unquote raw) = false ->
  Server.do_GET unquote fs raw = Server.serve_index fs
  /\ (forall content,
        fs (str "index.html") = Server.FileContent content ->
        Server.do_GET unquote fs raw
        = Server.Response 200 (str "text/html; charset=utf-8") content)
  /\ (fs (str "index.html") = Server.NotFound ->
      Server.do_GET unquote fs raw
      = Server.SendError 404 (str "index.html not found"))
  /\ (forall fs',
        fs' (str "index.html") = fs (str "index.html") ->
        Server.do_GET unquote fs' raw = Server.do_GET unquote fs raw)
  /\ (forall path p,
        Server.route path = Server.ServeJsonFile p ->
        p = path
        /\ PyStr.startswith path (str "/output_dictionary/") = true
        /\ PyStr.endswith path (str ".json") = true).
Proof.
  intros Hlen Hs Hd.
  assert (E : forall g, Server.do_GET unquote g raw = Server.serve_index g).
  { intros g. unfold Server.do_GET.
    now rewrite (route_lookup_is_index _ Hlen Hs Hd). }
  split; [apply E|]. split; [|split; [|split]].
  - intros content Hc. rewrite E. unfold Server.serve_index. now rewrite Hc.
  - intros Hc. rewrite E. unfold Server.serve_index. now rewrite Hc.
  - intros fs' Hf. rewrite !E. unfold Server.serve_index. now rewrite Hf.
  - apply route_json_only.
Qed.

Lemma lookup_request_serves_index_witness :
  (1 < length (id ([47; 0x7684]%Z : pystr)))%nat
  /\ PyStr.startswith (id [47; 0x7684]) (str "/static") = false
  /\ PyStr.contains_char PyStr.DOT (id [47; 0x7684]) = false
  /\ Server.do_GET id
       (fun p => if PyStr.eqb p (str "index.html")
                 then Server.FileContent (str "<html></html>")
                 else Server.NotFound)
       [47; 0x7684]
     = Server.Response 200 (str "text/html; charset=utf-8") (str "<html></html>").
Proof.
  assert (H1 : (1 < length (id ([47; 0x7684]%Z : pystr)))%nat) by (vm_compute; lia).
  split; [exact H1|]. split; [reflexivity|]. split; [reflexivity|].
  apply (proj1 (proj2 (lookup_request_serves_index id _ [47; 0x7684]
                         H1 eq_refl eq_refl))).
  reflexivity.
Defined.

(** ** The search-index statements *)

Lemma sql_literal_body_escape (s rest : pystr) :
  PyStr.startswith rest [PyStr.APOS] = false ->
  CsvToSql.sql_literal_body
    (CsvToSql.escape_sql_string (Some s) ++ PyStr.APOS :: rest)
  = Some (s, rest).
Proof.
  intros Hrest. unfold CsvToSql.escape_sql_string, PyStr.replace_char.
  induction s as [|c s IH].
  - cbn [flat_map app CsvToSql.sql_literal_body].
    rewrite Z.eqb_refl. destruct rest as [|d rest]; [reflexivity|].
    cbn [PyStr.startswith] in Hrest. rewrite andb_true_r in Hrest.
    rewrite (Z.eqb_sym d), Hrest. reflexivity.
  - cbn [flat_map]. destruct (c =? PyStr.APOS) eqn:Ec.
    + apply Z.eqb_eq in Ec. subst c. cbn [app CsvToSql.sql_literal_body].
      rewrite Z.eqb_refl, IH. reflexivity.
    + cbn [app CsvToSql.sql_literal_body]. rewrite Ec, IH. reflexivity.
Qed.

Lemma expect_app (p s : pystr) : CsvToSql.expect p (p ++ s) = Some s.
Proof.
  induction p as [|c p IH]; cbn; [now destruct s|].
  now rewrite Z.eqb_refl.
Qed.

Lemma sql_literal_escape (x : option pystr) (rest : pystr) :
  PyStr.startswith rest [PyStr.APOS] = false ->
  CsvToSql.sql_literal
    (str "'" ++ CsvToSql.escape_sql_string x ++ str "'" ++ rest)
  = Some (CsvToSql.text x, rest).
Proof.
  intros Hrest. change (str "'") with [PyStr.APOS].
  cbn [app CsvToSql.sql_literal]. rewrite Z.eqb_refl.
  destruct x as [s|]; [now apply sql_literal_body_escape|].
  exact (sql_literal_body_escape [] rest Hrest).
Qed.

Lemma value_shape (r : CsvToSql.row) :
  CsvToSql.value r
  = str "("
    ++ (str "'" ++ CsvToSql.escape_sql_string (CsvToSql.word r) ++ str "'"
    ++ (str ", "
    ++ (str "'" ++ CsvToSql.escape_sql_string (CsvToSql.language r) ++ str "'"
    ++ (str ", "
    ++ (str "'" ++ CsvToSql.escape_sql_string (CsvToSql.definition r) ++ str "'"
    ++ (str ", "
    ++ (str "'" ++ CsvToSql.escape_sql_string (CsvToSql.pronunciation r) ++ str "'"
    ++ (str ", "
    ++ (CsvToSql.format_value (CsvToSql.is_common r) ++ str ")"))))))))).
Proof.
  unfold CsvToSql.value.
  change (str "('") with (str "(" ++ str "'").
  change (str "', '") with (str "'" ++ str ", " ++ str "'").
  change (str "', ") with (str "'" ++ str ", ").
  now rewrite <- !app_assoc.
Qed.

Lemma value_literals (r : CsvToSql.row) :
  CsvToSql.sql_tuple_literals (CsvToSql.value r)
  = Some (CsvToSql.text (CsvToSql.word r),
          CsvToSql.text (CsvToSql.language r),
          CsvToSql.text (CsvToSql.definition r),
          CsvToSql.text (CsvToSql.pronunciation r),
          CsvToSql.format_value (CsvToSql.is_common r) ++ str ")").
Proof.
  rewrite value_shape. unfold CsvToSql.sql_tuple_literals.
  rewrite expect_app.
  rewrite sql_literal_escape by reflexivity. rewrite expect_app.
  rewrite sql_literal_escape by reflexivity. rewrite expect_app.
  rewrite sql_literal_escape by reflexivity. rewrite expect_app.
  rewrite sql_literal_escape by reflexivity. rewrite expect_app.
  reflexivity.
Qed.

Lemma fold_step_sqlfile (rows : list CsvToSql.row) (b : list pystr)
    (out : pystr) (t : Z) :
  CsvToSql.batch
    (fold_left CsvToSql.step rows
       {| CsvToSql.batch := b; CsvToSql.sqlfile := out; CsvToSql.total := t |})
  = CsvToSql.batch
      (fold_left CsvToSql.step rows
         {| CsvToSql.batch := b; CsvToSql.sqlfile := []; CsvToSql.total := 0 |})
  /\ CsvToSql.sqlfile
      (fold_left CsvToSql.step rows
         {| CsvToSql.batch := b; CsvToSql.sqlfile := out; CsvToSql.total := t |})
    = out ++ CsvToSql.sqlfile
               (fold_left CsvToSql.step rows
                  {| CsvToSql.batch := b; CsvToSql.sqlfile := [];
                     CsvToSql.total := 0 |}).
Proof.
  revert b out t. induction rows as [|r rows IH]; intros b out t.
  - cbn. now rewrite app_nil_r.
  - cbn [fold_left]. unfold CsvToSql.step at 2 4 6 8.
    cbn [CsvToSql.batch CsvToSql.sqlfile CsvToSql.total].
    destruct (CsvToSql.batch_size <=? length (b ++ [CsvToSql.value r]))%nat.
    + destruct (IH [] (out ++ CsvToSql.statement (b ++ [CsvToSql.value r])
                                (str ";" ++ [PyStr.NL; PyStr.NL])) (t + 1))
        as [B1 S1].
      destruct (IH [] ([] ++ CsvToSql.statement (b ++ [CsvToSql.value r])
                               (str ";" ++ [PyStr.NL; PyStr.NL])) (0 + 1))
        as [B2 S2].
      rewrite B1, B2, S1, S2. cbn [app]. now rewrite <- app_assoc.
    + destruct (IH (b ++ [CsvToSql.value r]) out (t + 1)) as [B1 S1].
      destruct (IH (b ++ [CsvToSql.value r]) [] (0 + 1)) as [B2 S2].
      rewrite B1, B2, S1, S2. now cbn.
Qed.

Lemma fold_step_small (rows : list CsvToSql.row) (b : list pystr)
    (out : pystr) (t : Z) :
  (length b + length rows < CsvToSql.batch_size)%nat ->
  fold_left CsvToSql.step rows
    {| CsvToSql.batch := b; CsvToSql.sqlfile := out; CsvToSql.total := t |}
  = {| CsvToSql.batch := b ++ map CsvToSql.value rows;
       CsvToSql.sqlfile := out;
       CsvToSql.total := t + Z.of_nat (length rows) |}.
Proof.
  revert b t. induction rows as [|r rows IH]; intros b t Hlen.
  - cbn. now rewrite app_nil_r, Z.add_0_r.
  - cbn [fold_left length] in *. unfold CsvToSql.step at 2.
    cbn [CsvToSql.batch CsvToSql.sqlfile CsvToSql.total].
    destruct (Nat.leb_spec CsvToSql.batch_size (length (b ++ [CsvToSql.value r])))
      as [Hge|Hlt].
    + rewrite length_app in Hge. cbn [length] in Hge. lia.
    + rewrite IH by (rewrite length_app; cbn [length]; lia).
      cbn [map]. rewrite <- app_assoc. f_equal. lia.
Qed.

Lemma fold_step_fill (rows : list CsvToSql.row) (b : list pystr)
    (out : pystr) (t : Z) :
  rows <> [] ->
  (length b + length rows = CsvToSql.batch_size)%nat ->
  fold_left CsvToSql.step rows
    {| CsvToSql.batch := b; CsvToSql.sqlfile := out; CsvToSql.total := t |}
  = {| CsvToSql.batch := [];
       CsvToSql.sqlfile :=
         out ++ CsvToSql.statement (b ++ map CsvToSql.value rows)
                  (str ";" ++ [PyStr.NL; PyStr.NL]);
       CsvToSql.total := t + Z.of_nat (length rows) |}.
Proof.
  revert b t. induction rows as [|r rows IH]; intros b t Hne Hlen;
    [contradiction|].
  cbn [fold_left length] in *. unfold CsvToSql.step at 2.
  cbn [CsvToSql.batch CsvToSql.sqlfile CsvToSql.total].
  destruct (Nat.leb_spec CsvToSql.batch_size (length (b ++ [CsvToSql.value r])))
    as [Hge|Hlt]; rewrite length_app in *; cbn [length] in *.
  - destruct rows as [|r' rows]; [|cbn [length] in Hlen; lia].
    cbn [fold_left map length]. f_equal; lia.
  - destruct rows as [|r' rows]; [cbn [length] in Hlen; lia|].
    rewrite IH; [|discriminate|rewrite length_app; cbn [length] in *; lia].
    cbn [map]. rewrite <- app_assoc. f_equal. lia.
Qed.

Lemma main_small (rows : list CsvToSql.row) :
  rows <> [] ->
  (length rows < CsvToSql.batch_size)%nat ->
  CsvToSql.main rows
  = CsvToSql.statement (map CsvToSql.value rows) (str ";" ++ [PyStr.NL]).
Proof.
  intros Hne Hlen. unfold CsvToSql.main.
  rewrite fold_step_small by (cbn [length]; lia).
  cbn [CsvToSql.batch CsvToSql.sqlfile app].
  destruct rows as [|r rows]; [contradiction|reflexivity].
Qed.

Lemma main_full_batch (first rest : list CsvToSql.row) :
  length first = CsvToSql.batch_size ->
  CsvToSql.main (first ++ rest)
  = CsvToSql.statement (map CsvToSql.value first)
      (str ";" ++ [PyStr.NL; PyStr.NL])
    ++ CsvToSql.main rest.
Proof.
  intros Hlen. unfold CsvToSql.main. rewrite fold_left_app.
  rewrite fold_step_fill;
    [|intros ->; discriminate Hlen|cbn [length]; lia].
  cbn [app].
  destruct (fold_step_sqlfile rest []
              (CsvToSql.statement (map CsvToSql.value first)
                 (str ";" ++ [PyStr.NL; PyStr.NL]))
              (0 + Z.of_nat (length first))) as [B S].
  rewrite B, S.
  set (st := fold_left CsvToSql.step rest _).
  destruct (CsvToSql.batch st); [reflexivity|now rewrite <- app_assoc].
Qed.

(** C8. The four text fields of a row enter the SQL text only through
    [escape_sql_string]: a missing field becomes the empty string and every
    single quote is doubled, so that a SQL reader takes each of the four
    literals of the tuple as exactly the field's text and no embedded quote
    ends a literal early; the statements [main] writes consist of these
    tuples, in input order, in batches. *)
Theorem sql_values_are_quote_escaped (r : CsvToSql.row) (s : pystr) :
  CsvToSql.escape_sql_string None = []
  /\ CsvToSql.escape_sql_string (Some s)
     = flat_map
         (fun c => if c =? PyStr.APOS then [PyStr.APOS; PyStr.APOS] else [c]) s
  /\ (forall rest,
        PyStr.startswith rest [PyStr.APOS] = false ->
        CsvToSql.sql_literal
          (str "'" ++ CsvToSql.escape_sql_string (Some s) ++ str "'" ++ rest)
        = Some (s, rest))
  /\ CsvToSql.value r
     = str "('" ++ CsvToSql.escape_sql_string (CsvToSql.word r)
       ++ str "', '" ++ CsvToSql.escape_sql_string (CsvToSql.language r)
       ++ str "', '" ++ CsvToSql.escape_sql_string (CsvToSql.definition r)
       ++ str "', '" ++ CsvToSql.escape_sql_string (CsvToSql.pronunciation r)
       ++ str "', " ++ CsvToSql.format_value (CsvToSql.is_common r) ++ str ")"
  /\ CsvToSql.sql_tuple_literals (CsvToSql.value r)
     = Some (CsvToSql.text (CsvToSql.word r),
             CsvToSql.text (CsvToSql.language r),
             CsvToSql.text (CsvToSql.definition r),
             CsvToSql.text (CsvToSql.pronunciation r),
             CsvToSql.format_value (CsvToSql.is_common r) ++ str ")")
  /\ CsvToSql.main [] = []
  /\ (forall rows,
        rows <> [] -> (length rows < CsvToSql.batch_size)%nat ->
        CsvToSql.main rows
        = CsvToSql.statement (map CsvToSql.value rows) (str ";" ++ [PyStr.NL]))
  /\ (forall first rest,
        length first = CsvToSql.batch_size ->
        CsvToSql.main (first ++ rest)
        = CsvToSql.statement (map CsvToSql.value first)
            (str ";" ++ [PyStr.NL; PyStr.NL])
          ++ CsvToSql.main rest).
Proof.
  split; [reflexivity|]. split; [reflexivity|].
  split; [intros rest Hrest; exact (sql_literal_escape (Some s) rest Hrest)|].
  split; [reflexivity|]. split; [apply value_literals|].
  split; [reflexivity|]. split; [apply main_small|apply main_full_batch].
Qed.

(** ** Conversion of JSON lines *)

Section jsonl_facts.
Context {J : Type} (json_loads : pystr -> JsonlToJson.loads_result J).

Lemma warnings_app (l1 l2 : list JsonlToJson.event) :
  JsonlToJson.warnings (l1 ++ l2)
  = JsonlToJson.warnings l1 ++ JsonlToJson.warnings l2.
Proof. apply omap_app. Qed.

Lemma warnings_progress (i : Z) (log : list JsonlToJson.event) :
  JsonlToJson.warnings (JsonlToJson.progress i log) = JsonlToJson.warnings log.
Proof.
  unfold JsonlToJson.progress. destruct (_ =? 0); [|reflexivity].
  rewrite warnings_app. cbn. now rewrite app_nil_r.
Qed.

Lemma sampled_from_stop (sample_size : option Z) (i : Z) (lines : list pystr) :
  JsonlToJson.sample_reached sample_size i = true ->
  JsonlToJson.sampled_from sample_size i lines = [].
Proof.
  unfold JsonlToJson.sample_reached, JsonlToJson.sampled_from.
  destruct sample_size as [n|]; [|discriminate].
  destruct (n =? 0); [discriminate|]. cbn [negb andb].
  intros H. apply Z.leb_le in H.
  replace (Z.to_nat (n - i)) with 0%nat by lia. reflexivity.
Qed.

Lemma sampled_from_next (sample_size : option Z) (i : Z) (line : pystr)
    (rest : list pystr) :
  JsonlToJson.sample_reached sample_size i = false ->
  JsonlToJson.sampled_from sample_size i (line :: rest)
  = line :: JsonlToJson.sampled_from sample_size (i + 1) rest.
Proof.
  unfold JsonlToJson.sample_reached, JsonlToJson.sampled_from.
  destruct sample_size as [n|]; [|reflexivity].
  destruct (n =? 0); [reflexivity|]. cbn [negb andb].
  intros H. apply Z.leb_gt in H.
  replace (Z.to_nat (n - i)) with (S (Z.to_nat (n - (i + 1)))) by lia.
  reflexivity.
Qed.

Lemma sampled_from_nil (sample_size : option Z) (i : Z) :
  JsonlToJson.sampled_from sample_size i [] = [].
Proof.
  unfold JsonlToJson.sampled_from. destruct sample_size as [n|];
    [destruct (n =? 0); [reflexivity|apply take_nil]|reflexivity].
Qed.

(** The loop on a file whose every item is a line: it ends without an
    exception exactly when every line it reads is readable. *)
Lemma read_lines_reads (lines : list pystr) (sample_size : option Z) (i : Z)
    (entries : list J) (log : list JsonlToJson.event) :
  let read := JsonlToJson.sampled_from sample_size i lines in
  let r := JsonlToJson.read_lines json_loads sample_size i
             (map JsonlToJson.Line lines) entries log in
  fst r = (if forallb (JsonlToJson.readable json_loads) read
           then Some (entries ++ JsonlToJson.parsed_entries json_loads read)
           else None)
  /\ (forallb (JsonlToJson.readable json_loads) read = true ->
      JsonlToJson.warnings (snd r)
      = JsonlToJson.warnings log
        ++ JsonlToJson.malformed_lines json_loads i read).
Proof.
  cbn zeta.
  revert i entries log. induction lines as [|line rest IH]; intros i entries log.
  - cbn [map JsonlToJson.read_lines fst snd]. rewrite sampled_from_nil.
    cbn. now rewrite !app_nil_r.
  - cbn [map JsonlToJson.read_lines].
    destruct (JsonlToJson.sample_reached sample_size i) eqn:Hs.
    + rewrite (sampled_from_stop _ _ _ Hs). cbn [fst snd forallb].
      rewrite warnings_app. cbn. now rewrite !app_nil_r.
    + rewrite (sampled_from_next _ _ _ _ Hs).
      unfold JsonlToJson.parsed_entries.
      cbn [map List.filter JsonlToJson.malformed_lines forallb].
      unfold JsonlToJson.readable at 1 3.
      destruct (PyStr.strip line) as [|c l] eqn:El.
      * cbn [andb].
        destruct (IH (i + 1) entries (JsonlToJson.progress i log)) as [E W].
        split; [exact E|]. intros Hr. rewrite (W Hr), warnings_progress.
        reflexivity.
      * cbn [omap list_omap].
        destruct (json_loads (c :: l)) as [entry| |] eqn:Ej;
          cbn [andb JsonlToJson.loaded].
        -- destruct (IH (i + 1) (entries ++ [entry])
                       (JsonlToJson.progress i log)) as [E W].
           split.
           ++ rewrite E. destruct (forallb _ _); [|reflexivity].
              now rewrite <- app_assoc.
           ++ intros Hr. rewrite (W Hr), warnings_progress. reflexivity.
        -- destruct (IH (i + 1) entries
                       (log ++ [JsonlToJson.InvalidJson (i + 1)])) as [E W].
           split; [exact E|]. intros Hr.
           rewrite (W Hr), warnings_app, <- app_assoc. reflexivity.
        -- split; [reflexivity|discriminate].
Qed.

(** A failure to read the next line ends the loop with an exception,
    whatever the lines before and after it are, when no sample size stops
    the loop before. *)
Lemma read_lines_read_raised (before : list pystr)
    (after : list JsonlToJson.read_item) (i : Z) (entries : list J)
    (log : list JsonlToJson.event) :
  fst (JsonlToJson.read_lines json_loads None i
         (map JsonlToJson.Line before ++ JsonlToJson.ReadRaised :: after)
         entries log)
  = None.
Proof.
  revert i entries log. induction before as [|line rest IH];
    intros i entries log; [reflexivity|].
  cbn [map app JsonlToJson.read_lines JsonlToJson.sample_reached].
  destruct (PyStr.strip line) as [|c l]; [apply IH|].
  destruct (json_loads (c :: l)); [apply IH|apply IH|reflexivity].
Qed.

Lemma jsonl_to_json_result (json_dump : list J -> bool) (lines : list pystr)
    (sample_size : option Z) :
  let read := JsonlToJson.sampled sample_size lines in
  let r := JsonlToJson.jsonl_to_json json_loads json_dump
             (JsonlToJson.Opened (map JsonlToJson.Line lines)) sample_size in
  fst r = (if forallb (JsonlToJson.readable json_loads) read
              && json_dump (JsonlToJson.parsed_entries json_loads read)
           then Some (JsonlToJson.parsed_entries json_loads read)
           else None)
  /\ (forallb (JsonlToJson.readable json_loads) read = true ->
      json_dump (JsonlToJson.parsed_entries json_loads read) = true ->
      JsonlToJson.warnings (snd r)
      = JsonlToJson.malformed_lines json_loads 0 read).
Proof.
  cbn zeta. unfold JsonlToJson.jsonl_to_json, JsonlToJson.sampled.
  destruct (read_lines_reads lines sample_size 0 [] []) as [E W].
  cbn zeta in E, W.
  destruct (JsonlToJson.read_lines json_loads sample_size 0
              (map JsonlToJson.Line lines) [] []) as [[entries|] log];
    cbn [fst snd app] in *.
  - destruct (forallb _ _); [|discriminate]. injection E as ->.
    cbn [andb]. destruct (json_dump _) eqn:Ed; cbn [fst snd].
    + split; [reflexivity|]. intros _ _. now apply W.
    + split; [reflexivity|discriminate].
  - destruct (forallb _ _); [discriminate|]. cbn [andb fst].
    split; [reflexivity|discriminate].
Qed.

End jsonl_facts.




(** * Further properties of the code *)

(** ** Shards of words and files *)

Lemma count_han_chars_app (a b : pystr) :
  SeparateShards.count_han_chars (a ++ b)
  = SeparateShards.count_han_chars a + SeparateShards.count_han_chars b.
Proof.
  induction a as [|c a IH]; cbn [app SeparateShards.count_han_chars]; lia.
Qed.

Lemma count_han_chars_filter (w : pystr) :
  SeparateShards.count_han_chars
    (List.filter SeparateShards.is_han_character w)
  = SeparateShards.count_han_chars w.
Proof.
  induction w as [|c w IH]; [reflexivity|].
  cbn [List.filter SeparateShards.count_han_chars].
  destruct (SeparateShards.is_han_character c) eqn:E;
    cbn [SeparateShards.count_han_chars]; rewrite ?E; lia.
Qed.

Lemma count_han_chars_bounds (w : pystr) :
  0 <= SeparateShards.count_han_chars w <= Z.of_nat (length w).
Proof.
  induction w as [|c w IH]; cbn [SeparateShards.count_han_chars length];
    [lia|].
  destruct (SeparateShards.is_han_character c); lia.
Qed.

(** The shard of a word depends on its Han characters only: the count is
    additive over concatenation and lies between 0 and the length, a word
    and the word of its Han characters have the same shard, and text
    without Han characters added before, inside or after a word does not
    move it to another shard. *)
Theorem shard_ignores_other_characters (a b c other : pystr) :
  SeparateShards.count_han_chars other = 0 ->
  SeparateShards.count_han_chars (a ++ b)
  = SeparateShards.count_han_chars a + SeparateShards.count_han_chars b
  /\ 0 <= SeparateShards.count_han_chars a <= Z.of_nat (length a)
  /\ SeparateShards.get_shard_for_word
       (List.filter SeparateShards.is_han_character a)
     = SeparateShards.get_shard_for_word a
  /\ SeparateShards.get_shard_for_word (a ++ other ++ b)
     = SeparateShards.get_shard_for_word (a ++ b)
  /\ SeparateShards.get_shard_for_word (other ++ c)
     = SeparateShards.get_shard_for_word c
  /\ SeparateShards.get_shard_for_word (c ++ other)
     = SeparateShards.get_shard_for_word c.
Proof.
  intros H0. unfold SeparateShards.get_shard_for_word.
  rewrite count_han_chars_filter, !count_han_chars_app, H0.
  rewrite Z.add_0_l, Z.add_0_r.
  repeat split; try reflexivity; apply count_han_chars_bounds.
Qed.

Lemma shard_ignores_other_characters_witness :
  SeparateShards.count_han_chars (str "-x ") = 0
  /\ SeparateShards.get_shard_for_word ([0x5B66] ++ str "-x " ++ [0x751F])
     = SeparateShards.get_shard_for_word ([0x5B66] ++ [0x751F]).
Proof.
  split; [reflexivity|].
  exact (proj1 (proj2 (proj2 (proj2
    (shard_ignores_other_characters [0x5B66] [0x751F] [] (str "-x ") eq_refl))))).
Defined.

Lemma rfind_from_app (c : Z) (a b : pystr) (i last : Z) :
  PyStr.rfind_from c (a ++ b) i last
  = PyStr.rfind_from c b (i + Z.of_nat (length a)) (PyStr.rfind_from c a i last).
Proof.
  revert i last. induction a as [|x a IH]; intros i last; cbn [app length].
  - cbn. now rewrite Z.add_0_r.
  - cbn [PyStr.rfind_from]. rewrite IH. f_equal. lia.
Qed.

Lemma stem_of_json_name (w : pystr) :
  w <> [] -> SeparateShards.stem (w ++ str ".json") = w.
Proof.
  intros Hw. unfold SeparateShards.stem, PyStr.rfind.
  rewrite rfind_from_app.
  change (str ".json") with [46; 106; 115; 111; 110].
  cbn [PyStr.rfind_from]. change PyStr.DOT with 46.
  cbn [Z.eqb Pos.eqb]. rewrite length_app. cbn [length].
  assert (0 < length w)%nat by (destruct w; [contradiction|cbn; lia]).
  replace (0 <? 0 + Z.of_nat (length w)) with true
    by (symmetry; apply Z.ltb_lt; lia).
  replace (0 + Z.of_nat (length w) <? Z.of_nat (length w + 5) - 1) with true
    by (symmetry; apply Z.ltb_lt; lia).
  cbn [andb]. replace (Z.to_nat (0 + Z.of_nat (length w))) with (length w) by lia.
  apply take_app_length.
Qed.

(** A file [<word>.json] is put in the shard of its word, whatever the word
    is: dots inside the word do not cut it short, and the file of the empty
    word, whose stem is the whole name, is still in [non-han] like the
    empty word. *)
Theorem file_is_sharded_by_its_word (w : pystr) :
  SeparateShards.get_shard_for_word (SeparateShards.stem (w ++ str ".json"))
  = SeparateShards.get_shard_for_word w
  /\ (w <> [] -> SeparateShards.stem (w ++ str ".json") = w)
  /\ SeparateShards.stem (str ".json") = str ".json".
Proof.
  split; [|split; [apply stem_of_json_name|reflexivity]].
  destruct w as [|c w]; [reflexivity|].
  now rewrite stem_of_json_name.
Qed.

Ltac eval_str :=
  repeat match goal with
         | |- context [str ?x] =>
             let v := eval vm_compute in (str x) in change (str x) with v
         | H : context [str ?x] |- _ =>
             let v := eval vm_compute in (str x) in change (str x) with v in H
         end.

(** No two files are copied to the same place and no copy lands among the
    source files: two copies with the same destination are copies of the
    same file, and a destination is never the source path of a file. *)
Theorem copies_do_not_collide (name1 name2 src1 dst1 src2 dst2 : pystr) :
  SeparateShards.copy_of name1 = CopyFile src1 dst1 ->
  SeparateShards.copy_of name2 = CopyFile src2 dst2 ->
  (dst1 = dst2 -> name1 = name2) /\ dst1 <> src2.
Proof.
  unfold SeparateShards.copy_of. intros [= <- <-] [= <- <-].
  rewrite !get_shard_for_word_cases. unfold path_join, SeparateShards.source_dir.
  destruct (SeparateShards.han_code_points (SeparateShards.stem name1))
    as [|[|[|k1]]];
    destruct (SeparateShards.han_code_points (SeparateShards.stem name2))
      as [|[|[|k2]]];
    eval_str; cbn [app]; (split; [intros H|intros H]);
    try discriminate H; try (injection H; intros; assumption).
Qed.

Lemma copies_do_not_collide_witness :
  SeparateShards.copy_of (str "a.json")
  = CopyFile (str "output_dictionary/a.json") (str "output_non-han/a.json")
  /\ SeparateShards.copy_of [0x7684; 46; 106; 115; 111; 110]
     = CopyFile (str "output_dictionary/" ++ [0x7684] ++ str ".json")
         (str "output_han-1char/" ++ [0x7684] ++ str ".json")
  /\ str "output_non-han/a.json"
     <> str "output_dictionary/" ++ [0x7684] ++ str ".json".
Proof.
  assert (H1 : SeparateShards.copy_of (str "a.json")
    = CopyFile (str "output_dictionary/a.json") (str "output_non-han/a.json"))
    by reflexivity.
  assert (H2 : SeparateShards.copy_of [0x7684; 46; 106; 115; 111; 110]
     = CopyFile (str "output_dictionary/" ++ [0x7684] ++ str ".json")
         (str "output_han-1char/" ++ [0x7684] ++ str ".json"))
    by reflexivity.
  split; [exact H1|]. split; [exact H2|].
  exact (proj2 (copies_do_not_collide _ _ _ _ _ _ H1 H2)).
Defined.

(** ** The kanji sent to the oracle *)

Lemma set_add_NoDup (s : list pystr) (x : pystr) :
  NoDup s -> NoDup (set_add s x).
Proof.
  intros Hs. unfold set_add. case_bool_decide; [exact Hs|].
  apply NoDup_app. split; [exact Hs|]. split.
  - intros y Hy Hy'. apply list_elem_of_singleton in Hy'. now subst.
  - apply NoDup_singleton.
Qed.

Lemma elem_of_set_add (s : list pystr) (x y : pystr) :
  y ∈ set_add s x <-> y ∈ s \/ y = x.
Proof.
  unfold set_add. case_bool_decide as Hx.
  - split; [auto|]. intros [?| ->]; assumption.
  - rewrite elem_of_app, list_elem_of_singleton. reflexivity.
Qed.

Lemma sorted_members (set_iter : list pystr -> list pystr) (s : list pystr) :
  (forall l, set_iter l ≡ₚ l) ->
  PyStr.sorted (set_iter s) ≡ₚ s.
Proof.
  intros Hp. unfold PyStr.sorted. now rewrite merge_sort_Permutation, Hp.
Qed.

Lemma set_fold_members {A : Type} (f : A -> option pystr) (l : list A)
    (s0 : list pystr) :
  NoDup s0 ->
  let unique_kanji :=
    fold_left
      (fun unique_kanji e =>
         match f e with
         | Some x =>
             match x with
             | [] => unique_kanji
             | _ :: _ => set_add unique_kanji x
             end
         | None => unique_kanji
         end)
      l s0 in
  NoDup unique_kanji
  /\ forall x, x ∈ unique_kanji <->
       x ∈ s0 \/ (x <> [] /\ exists e, e ∈ l /\ f e = Some x).
Proof.
  revert s0. induction l as [|e l IH]; intros s0 Hs0.
  - cbn [fold_left]. split; [exact Hs0|]. intros x. split; [auto|].
    intros [H|(_ & e & He & _)]; [exact H|]. now apply elem_of_nil in He.
  - cbn [fold_left].
    destruct (f e) as [[|c k]|] eqn:El.
    + destruct (IH s0 Hs0) as [Hn Hm]. split; [exact Hn|].
      intros x. rewrite Hm. split.
      * intros [?|(Hx & e' & He' & Hl)]; [auto|].
        right. split; [exact Hx|]. exists e'. split; [|exact Hl].
        apply elem_of_cons. now right.
      * intros [?|(Hx & e' & He' & Hl)]; [auto|].
        apply elem_of_cons in He'. destruct He' as [->|He'].
        -- rewrite El in Hl. injection Hl as <-. contradiction.
        -- right. split; [exact Hx|]. now exists e'.
    + destruct (IH (set_add s0 (c :: k)) (set_add_NoDup _ _ Hs0)) as [Hn Hm].
      split; [exact Hn|]. intros x. rewrite Hm, elem_of_set_add. split.
      * intros [[?| ->]|(Hx & e' & He' & Hl)]; [auto| |].
        -- right. split; [discriminate|]. exists e. split; [|exact El].
           apply elem_of_cons. now left.
        -- right. split; [exact Hx|]. exists e'. split; [|exact Hl].
           apply elem_of_cons. now right.
      * intros [?|(Hx & e' & He' & Hl)]; [auto|].
        apply elem_of_cons in He'. destruct He' as [->|He'].
        -- rewrite El in Hl. injection Hl as <-. auto.
        -- right. split; [exact Hx|]. now exists e'.
    + destruct (IH s0 Hs0) as [Hn Hm]. split; [exact Hn|].
      intros x. rewrite Hm. split.
      * intros [?|(Hx & e' & He' & Hl)]; [auto|].
        right. split; [exact Hx|]. exists e'. split; [|exact Hl].
        apply elem_of_cons. now right.
      * intros [?|(Hx & e' & He' & Hl)]; [auto|].
        apply elem_of_cons in He'. destruct He' as [->|He'].
        -- rewrite El in Hl. discriminate Hl.
        -- right. split; [exact Hx|]. now exists e'.
Qed.

(** The batch built from KANJIDIC2 holds each non-empty [literal] of the
    file exactly once and nothing else, whatever order the set is iterated
    in. *)
Theorem unique_kanji_of_kanjidic
    (set_iter : list pystr -> list pystr)
    (characters : list CharacterMapping.char_entry) :
  (forall l, set_iter l ≡ₚ l) ->
  NoDup (CharacterMapping.extract_unique_kanji_from_kanjidic set_iter characters)
  /\ forall x,
       x ∈ CharacterMapping.extract_unique_kanji_from_kanjidic set_iter characters
       <-> x <> [] /\ exists e, e ∈ characters
                               /\ CharacterMapping.literal e = Some x.
Proof.
  intros Hp. unfold CharacterMapping.extract_unique_kanji_from_kanjidic.
  destruct (set_fold_members CharacterMapping.literal characters []
              (NoDup_nil_2 (A := pystr))) as [Hn Hm].
  split.
  - now rewrite (sorted_members set_iter _ Hp).
  - intros x. rewrite (sorted_members set_iter _ Hp), Hm.
    split; [intros [H|H]; [now apply elem_of_nil in H|exact H]|auto].
Qed.

Lemma unique_kanji_of_kanjidic_witness :
  (forall l : list pystr, rev l ≡ₚ l)
  /\ NoDup (CharacterMapping.extract_unique_kanji_from_kanjidic (@rev pystr)
              [ {| CharacterMapping.literal := Some [0x5B66] |}
              ; {| CharacterMapping.literal := None |}
              ; {| CharacterMapping.literal := Some [] |}
              ; {| CharacterMapping.literal := Some [0x5B66] |} ]).
Proof.
  assert (Hrev : forall l : list pystr, rev l ≡ₚ l)
    by (intros l; symmetry; apply Permutation_rev).
  split; [exact Hrev|].
  exact (proj1 (unique_kanji_of_kanjidic (@rev pystr) _ Hrev)).
Defined.

Lemma jmdict_set_members (words : list KanjiMapping.word) (s0 : list pystr) :
  NoDup s0 ->
  let unique_kanji :=
    fold_left
      (fun unique_kanji word =>
         match KanjiMapping.kanji word with
         | Some (e :: es) =>
             fold_left
               (fun unique_kanji kanji_entry =>
                  match KanjiMapping.text kanji_entry with
                  | Some kanji_text =>
                      match kanji_text with
                      | [] => unique_kanji
                      | _ :: _ => set_add unique_kanji kanji_text
                      end
                  | None => unique_kanji
                  end)
               (e :: es) unique_kanji
         | Some [] => unique_kanji
         | None => unique_kanji
         end)
      words s0 in
  NoDup unique_kanji
  /\ forall x, x ∈ unique_kanji <->
       x ∈ s0
       \/ (x <> [] /\ exists w es e,
              w ∈ words /\ KanjiMapping.kanji w = Some es
              /\ e ∈ es /\ KanjiMapping.text e = Some x).
Proof.
  revert s0. induction words as [|w words IH]; intros s0 Hs0.
  - cbn [fold_left]. split; [exact Hs0|]. intros x. split; [auto|].
    intros [H|(_ & w & es & e & Hw & _)]; [exact H|]. now apply elem_of_nil in Hw.
  - cbn [fold_left].
    assert (Hskip :
      (KanjiMapping.kanji w = None \/ KanjiMapping.kanji w = Some []) ->
      forall x : pystr, x ∈ s0 \/ (x <> [] /\ exists w' es e,
              w' ∈ words /\ KanjiMapping.kanji w' = Some es
              /\ e ∈ es /\ KanjiMapping.text e = Some x)
        <-> x ∈ s0 \/ (x <> [] /\ exists w' es e,
              w' ∈ w :: words /\ KanjiMapping.kanji w' = Some es
              /\ e ∈ es /\ KanjiMapping.text e = Some x)).
    { intros Hk x. split.
      - intros [?|(Hx & w' & es & e & Hw' & Hr)]; [auto|].
        right. split; [exact Hx|]. exists w', es, e.
        split; [apply elem_of_cons; now right|exact Hr].
      - intros [?|(Hx & w' & es & e & Hw' & Hk' & He & Ht)]; [auto|].
        apply elem_of_cons in Hw'. destruct Hw' as [->|Hw'].
        + destruct Hk as [Hk|Hk]; rewrite Hk in Hk'; [discriminate|].
          injection Hk' as <-. now apply elem_of_nil in He.
        + right. split; [exact Hx|]. now exists w', es, e. }
    destruct (KanjiMapping.kanji w) as [[|e es]|] eqn:Ek.
    + destruct (IH s0 Hs0) as [Hn Hm]. split; [exact Hn|].
      intros x. rewrite Hm. apply Hskip. now right.
    + destruct (set_fold_members KanjiMapping.text (e :: es) s0 Hs0) as [Hn1 Hm1].
      destruct (IH _ Hn1) as [Hn Hm]. split; [exact Hn|].
      intros x. rewrite Hm, Hm1. split.
      * intros [[?|(Hx & e' & He' & Ht)]|(Hx & w' & es' & e' & Hw' & Hr)];
          [auto| |].
        -- right. split; [exact Hx|]. exists w, (e :: es), e'.
           split; [apply elem_of_cons; now left|auto].
        -- right. split; [exact Hx|]. exists w', es', e'.
           split; [apply elem_of_cons; now right|exact Hr].
      * intros [?|(Hx & w' & es' & e' & Hw' & Hk' & He' & Ht)]; [auto|].
        apply elem_of_cons in Hw'. destruct Hw' as [->|Hw'].
        -- rewrite Ek in Hk'. injection Hk' as <-.
           left. right. split; [exact Hx|]. now exists e'.
        -- right. split; [exact Hx|]. now exists w', es', e'.
    + destruct (IH s0 Hs0) as [Hn Hm]. split; [exact Hn|].
      intros x. rewrite Hm. apply Hskip. now left.
Qed.

(** The batch built from JMDict holds each non-empty [text] of a kanji
    spelling of a word exactly once and nothing else, whatever order the
    set is iterated in; words without the [kanji] key or with an empty
    list add nothing. *)
Theorem unique_kanji_of_jmdict
    (set_iter : list pystr -> list pystr) (words : list KanjiMapping.word) :
  (forall l, set_iter l ≡ₚ l) ->
  NoDup (KanjiMapping.extract_unique_kanji_from_jmdict set_iter words)
  /\ forall x,
       x ∈ KanjiMapping.extract_unique_kanji_from_jmdict set_iter words
       <-> x <> [] /\ exists w es e,
             w ∈ words /\ KanjiMapping.kanji w = Some es
             /\ e ∈ es /\ KanjiMapping.text e = Some x.
Proof.
  intros Hp. unfold KanjiMapping.extract_unique_kanji_from_jmdict.
  destruct (jmdict_set_members words [] (NoDup_nil_2 (A := pystr))) as [Hn Hm].
  split.
  - now rewrite (sorted_members set_iter _ Hp).
  - intros x. rewrite (sorted_members set_iter _ Hp), Hm.
    split; [intros [H|H]; [now apply elem_of_nil in H|exact H]|auto].
Qed.

Lemma unique_kanji_of_jmdict_witness :
  (forall l : list pystr, rev l ≡ₚ l)
  /\ NoDup (KanjiMapping.extract_unique_kanji_from_jmdict (@rev pystr)
              [ {| KanjiMapping.kanji :=
                     Some [ {| KanjiMapping.text := Some [0x5B66; 0x751F] |}
                          ; {| KanjiMapping.text := Some [0x5B78; 0x751F] |} ] |}
              ; {| KanjiMapping.kanji := None |}
              ; {| KanjiMapping.kanji :=
                     Some [ {| KanjiMapping.text := Some [0x5B66; 0x751F] |} ] |} ]).
Proof.
  assert (Hrev : forall l : list pystr, rev l ≡ₚ l)
    by (intros l; symmetry; apply Permutation_rev).
  split; [exact Hrev|].
  exact (proj1 (unique_kanji_of_jmdict (@rev pystr) _ Hrev)).
Defined.

(** ** The mapping built from a batch *)

Lemma contains_app_false (d1 d2 : PyDict.dict pystr pystr) (k : pystr) :
  PyDict.contains d1 k = false -> PyDict.contains d2 k = false ->
  PyDict.contains (d1 ++ d2) k = false.
Proof.
  unfold PyDict.contains. rewrite get_app.
  destruct (PyDict.get d1 k); [discriminate|]. auto.
Qed.

Lemma get_not_key (d : PyDict.dict pystr pystr) (k : pystr) :
  k ∉ PyDict.keys d -> PyDict.get d k = None.
Proof.
  intros Hk. destruct (PyDict.get d k) eqn:E; [|reflexivity].
  exfalso. apply Hk, contains_elem_of_keys. unfold PyDict.contains.
  now rewrite E.
Qed.

Lemma build_mapping_changed_pairs (ps acc : list (pystr * pystr)) :
  NoDup (map fst ps) ->
  (forall p, p ∈ ps -> PyDict.contains acc (fst p) = false) ->
  fold_left
    (fun mapping oc =>
       let original := fst oc in
       let converted := snd oc in
       if negb (PyStr.eqb converted original)
       then PyDict.setitem mapping original converted
       else mapping)
    ps acc
  = acc ++ List.filter (fun oc => negb (PyStr.eqb (snd oc) (fst oc))) ps.
Proof.
  revert acc. induction ps as [|[k v] ps IH]; intros acc Hnd Hacc.
  - cbn. now rewrite app_nil_r.
  - cbn [map fst] in Hnd. apply NoDup_cons in Hnd. destruct Hnd as [Hk Hnd].
    cbn [fold_left List.filter fst snd].
    destruct (negb (PyStr.eqb v k)) eqn:Ec.
    + rewrite (setitem_absent acc k v)
        by (apply (Hacc (k, v)); apply elem_of_cons; now left).
      rewrite IH; [now rewrite <- app_assoc|exact Hnd|].
      intros p Hp. apply contains_app_false.
      * apply Hacc. apply elem_of_cons. now right.
      * unfold PyDict.contains. cbn [PyDict.get].
        rewrite decide_False; [reflexivity|].
        intros E. apply Hk. rewrite <- E. apply list_elem_of_fmap.
        now exists p.
    + apply IH; [exact Hnd|]. intros p Hp. apply Hacc.
      apply elem_of_cons. now right.
Qed.

Lemma keys_filter_combine (P : pystr * pystr -> bool) (u l : list pystr)
    (k : pystr) :
  k ∈ PyDict.keys (List.filter P (combine u l)) -> k ∈ u.
Proof.
  unfold PyDict.keys. intros H. apply list_elem_of_fmap in H.
  destruct H as ([k' v] & -> & H). apply list_elem_of_In, List.filter_In in H.
  destruct H as [H _]. apply in_combine_l in H. now apply list_elem_of_In.
Qed.

Lemma get_filter_combine (P : pystr * pystr -> bool) (u l : list pystr)
    (i : nat) (k v : pystr) :
  NoDup u -> u !! i = Some k -> l !! i = Some v ->
  PyDict.get (List.filter P (combine u l)) k
  = if P (k, v) then Some v else None.
Proof.
  revert l i. induction u as [|k0 u IH]; intros l i Hnd Hu Hl;
    [discriminate|].
  apply NoDup_cons in Hnd. destruct Hnd as [Hk0 Hnd].
  destruct l as [|v0 l]; [discriminate|].
  destruct i as [|i]; cbn in Hu, Hl.
  - injection Hu as ->. injection Hl as ->. cbn [combine List.filter].
    destruct (P (k, v)).
    + cbn [PyDict.get]. now rewrite decide_True.
    + apply get_not_key. intros H. apply keys_filter_combine in H. contradiction.
  - assert (k <> k0)
      by (intros ->; apply Hk0; eapply list_elem_of_lookup_2; eassumption).
    cbn [combine List.filter]. destruct (P (k0, v0)).
    + cbn [PyDict.get]. rewrite decide_False by assumption. now apply (IH l i).
    + now apply (IH l i).
Qed.

(** When the oracle answers with one line per kanji, the mapping is the
    list of the pairs (kanji, line at the same position) whose line differs
    from the kanji, in batch order; looking a kanji up gives the line at
    its position, or nothing when the line equals the kanji. *)
Theorem mapping_associates_by_position
    (opencc : pystr -> oracle_result) (unique_kanji : list pystr)
    (stdout : pystr) :
  NoDup unique_kanji ->
  opencc (PyStr.join [PyStr.NL] unique_kanji) = Completed stdout ->
  length (PyStr.split PyStr.NL (PyStr.strip stdout)) = length unique_kanji ->
  CharacterMapping.generate_mapping_batch opencc unique_kanji
  = List.filter (fun oc => negb (PyStr.eqb (snd oc) (fst oc)))
      (combine unique_kanji (PyStr.split PyStr.NL (PyStr.strip stdout)))
  /\ KanjiMapping.generate_mapping_batch opencc unique_kanji
     = Return (CharacterMapping.generate_mapping_batch opencc unique_kanji)
  /\ forall i kanji line,
       unique_kanji !! i = Some kanji ->
       PyStr.split PyStr.NL (PyStr.strip stdout) !! i = Some line ->
       PyDict.get (CharacterMapping.generate_mapping_batch opencc unique_kanji)
         kanji
       = if PyStr.eqb line kanji then None else Some line.
Proof.
  intros Hnd Hrun Hlen.
  assert (E : CharacterMapping.generate_mapping_batch opencc unique_kanji
    = List.filter (fun oc => negb (PyStr.eqb (snd oc) (fst oc)))
        (combine unique_kanji (PyStr.split PyStr.NL (PyStr.strip stdout)))).
  { unfold CharacterMapping.generate_mapping_batch. rewrite Hrun, Hlen.
    rewrite Nat.eqb_refl. cbn [negb].
    rewrite build_mapping_changed_pairs; [reflexivity| |].
    - assert (Hm : map fst (combine unique_kanji
                (PyStr.split PyStr.NL (PyStr.strip stdout))) = unique_kanji).
      { revert Hlen. generalize (PyStr.split PyStr.NL (PyStr.strip stdout)).
        clear. induction unique_kanji as [|k u IH]; intros [|v l] Hlen;
          try discriminate; [reflexivity|].
        cbn. f_equal. apply IH. now injection Hlen. }
      rewrite Hm. exact Hnd.
    - reflexivity. }
  split; [exact E|]. split.
  - unfold KanjiMapping.generate_mapping_batch,
      CharacterMapping.generate_mapping_batch.
    rewrite Hrun. now destruct (negb _).
  - intros i kanji line Hu Hl. rewrite E.
    rewrite (get_filter_combine _ _ _ i kanji line Hnd Hu Hl). cbn [fst snd].
    now destruct (PyStr.eqb line kanji).
Qed.

Lemma mapping_associates_by_position_witness :
  NoDup [[0x56FD]; [0x5B66]; [0x5C71]]
  /\ (fun _ : pystr => Completed [0x570B; 10; 0x5B78; 10; 0x5C71; 10])
       (PyStr.join [PyStr.NL] [[0x56FD]; [0x5B66]; [0x5C71]])
     = Completed [0x570B; 10; 0x5B78; 10; 0x5C71; 10]
  /\ length (PyStr.split PyStr.NL
               (PyStr.strip [0x570B; 10; 0x5B78; 10; 0x5C71; 10]))
     = length [[0x56FD]; [0x5B66]; [0x5C71]]
  /\ CharacterMapping.generate_mapping_batch
       (fun _ => Completed [0x570B; 10; 0x5B78; 10; 0x5C71; 10])
       [[0x56FD]; [0x5B66]; [0x5C71]]
     = [([0x56FD], [0x570B]); ([0x5B66], [0x5B78])].
Proof.
  assert (Hnd : NoDup ([[0x56FD]; [0x5B66]; [0x5C71]] : list pystr))
    by (apply (bool_decide_unpack _); vm_compute; reflexivity).
  split; [exact Hnd|]. split; [reflexivity|]. split; [reflexivity|].
  exact (proj1 (mapping_associates_by_position
                  (fun _ => Completed [0x570B; 10; 0x5B78; 10; 0x5C71; 10])
                  [[0x56FD]; [0x5B66]; [0x5C71]] _ Hnd eq_refl eq_refl)).
Defined.

Lemma setitem_Forall (P : pystr * pystr -> Prop) (d : PyDict.dict pystr pystr)
    (k v : pystr) :
  Forall P d -> P (k, v) -> Forall P (PyDict.setitem d k v).
Proof.
  intros Hd Hkv. induction Hd as [|[k0 v0] d H0 Hd IH]; cbn [PyDict.setitem].
  - now constructor.
  - destruct (decide (k = k0)) as [->|Hne]; constructor; auto.
Qed.

Lemma keys_setitem_absent (d : PyDict.dict pystr pystr) (k v : pystr) :
  PyDict.contains d k = false ->
  PyDict.keys (PyDict.setitem d k v) = PyDict.keys d ++ [k].
Proof.
  intros Hc. rewrite (setitem_absent _ _ _ Hc). unfold PyDict.keys.
  now rewrite map_app.
Qed.

Lemma setitem_NoDup_keys (d : PyDict.dict pystr pystr) (k v : pystr) :
  NoDup (PyDict.keys d) -> NoDup (PyDict.keys (PyDict.setitem d k v)).
Proof.
  intros Hd. destruct (PyDict.contains d k) eqn:Hc.
  - now rewrite keys_setitem_present.
  - rewrite (keys_setitem_absent _ _ _ Hc). apply NoDup_app.
    split; [exact Hd|]. split; [|apply NoDup_singleton].
    intros x Hx Hx'. apply list_elem_of_singleton in Hx'. subst x.
    apply contains_elem_of_keys in Hx. congruence.
Qed.

Lemma build_mapping_invariant (unique_kanji : list pystr)
    (ps acc : list (pystr * pystr)) :
  (forall p, p ∈ ps -> fst p ∈ unique_kanji) ->
  Forall (fun kv => snd kv <> fst kv /\ fst kv ∈ unique_kanji) acc ->
  NoDup (PyDict.keys acc) ->
  let mapping :=
    fold_left
      (fun mapping oc =>
         let original := fst oc in
         let converted := snd oc in
         if negb (PyStr.eqb converted original)
         then PyDict.setitem mapping original converted
         else mapping)
      ps acc in
  Forall (fun kv => snd kv <> fst kv /\ fst kv ∈ unique_kanji) mapping
  /\ NoDup (PyDict.keys mapping).
Proof.
  revert acc. induction ps as [|[k v] ps IH]; intros acc Hps Hacc Hnd.
  - cbn. auto.
  - cbn [fold_left fst snd].
    assert (Hps' : forall p, p ∈ ps -> fst p ∈ unique_kanji)
      by (intros p Hp; apply Hps, elem_of_cons; now right).
    destruct (negb (PyStr.eqb v k)) eqn:Ec.
    + apply IH; [exact Hps'| |now apply setitem_NoDup_keys].
      apply setitem_Forall; [exact Hacc|]. cbn [fst snd]. split.
      * apply negb_true_iff in Ec. unfold PyStr.eqb in Ec.
        now apply bool_decide_eq_false_1 in Ec.
      * apply (Hps (k, v)). apply elem_of_cons. now left.
    + now apply IH.
Qed.

(** Identity conversions are left out and nothing foreign gets in: in
    every mapping [generate_mapping_batch] returns, in either script, each
    key is one of the kanji sent and its value differs from it, and no key
    occurs twice.  The mapping is empty when the oracle exits with an error
    and when its output, once stripped of the white space around it, does
    not split into exactly one line per kanji sent.  When the executable is
    missing the character script returns the empty mapping and the kanji
    script lets [FileNotFoundError] out; in every other case the two
    scripts return the same mapping. *)
Theorem mapping_omits_identity
    (opencc : pystr -> oracle_result) (unique_kanji : list pystr) :
  Forall (fun kv => snd kv <> fst kv /\ fst kv ∈ unique_kanji)
    (CharacterMapping.generate_mapping_batch opencc unique_kanji)
  /\ NoDup (PyDict.keys
             (CharacterMapping.generate_mapping_batch opencc unique_kanji))
  /\ KanjiMapping.generate_mapping_batch opencc unique_kanji
     = match opencc (PyStr.join [PyStr.NL] unique_kanji) with
       | OpenCCNotFound => Raise FileNotFoundError
       | _ => Return (CharacterMapping.generate_mapping_batch opencc
                        unique_kanji)
       end
  /\ (forall mapping,
        KanjiMapping.generate_mapping_batch opencc unique_kanji
        = Return mapping ->
        Forall (fun kv => snd kv <> fst kv /\ fst kv ∈ unique_kanji) mapping
        /\ NoDup (PyDict.keys mapping))
  /\ (forall stdout,
        opencc (PyStr.join [PyStr.NL] unique_kanji) = Completed stdout ->
        length (PyStr.split PyStr.NL (PyStr.strip stdout))
        <> length unique_kanji ->
        CharacterMapping.generate_mapping_batch opencc unique_kanji = []
        /\ KanjiMapping.generate_mapping_batch opencc unique_kanji = Return [])
  /\ (opencc (PyStr.join [PyStr.NL] unique_kanji) = CalledProcessError ->
      CharacterMapping.generate_mapping_batch opencc unique_kanji = []
      /\ KanjiMapping.generate_mapping_batch opencc unique_kanji = Return [])
  /\ (opencc (PyStr.join [PyStr.NL] unique_kanji) = OpenCCNotFound ->
      CharacterMapping.generate_mapping_batch opencc unique_kanji = []
      /\ KanjiMapping.generate_mapping_batch opencc unique_kanji
         = Raise FileNotFoundError).
Proof.
  assert (Hempty : Forall (fun kv : pystr * pystr =>
                             snd kv <> fst kv /\ fst kv ∈ unique_kanji) []
                   /\ NoDup (PyDict.keys ([] : PyDict.dict pystr pystr)))
    by (split; [constructor|apply NoDup_nil_2]).
  assert (Hall : Forall (fun kv => snd kv <> fst kv /\ fst kv ∈ unique_kanji)
            (CharacterMapping.generate_mapping_batch opencc unique_kanji)
          /\ NoDup (PyDict.keys
               (CharacterMapping.generate_mapping_batch opencc unique_kanji))).
  { unfold CharacterMapping.generate_mapping_batch.
    destruct (opencc _) as [stdout| |]; [|exact Hempty|exact Hempty].
    destruct (negb _); [exact Hempty|].
    apply build_mapping_invariant; [|constructor|apply NoDup_nil_2].
    intros [k v] Hp. apply list_elem_of_In, in_combine_l in Hp.
    now apply list_elem_of_In. }
  assert (Hsame : KanjiMapping.generate_mapping_batch opencc unique_kanji
     = match opencc (PyStr.join [PyStr.NL] unique_kanji) with
       | OpenCCNotFound => Raise FileNotFoundError
       | _ => Return (CharacterMapping.generate_mapping_batch opencc
                        unique_kanji)
       end).
  { unfold CharacterMapping.generate_mapping_batch,
      KanjiMapping.generate_mapping_batch.
    destruct (opencc _) as [stdout| |]; [|reflexivity|reflexivity].
    now destruct (negb _). }
  destruct Hall as [H1 H2]. split; [exact H1|]. split; [exact H2|].
  split; [exact Hsame|]. split.
  { intros mapping Hret. rewrite Hsame in Hret.
    destruct (opencc _); [| |discriminate]; injection Hret as <-; now split. }
  rewrite Hsame. unfold CharacterMapping.generate_mapping_batch.
  split; [|split].
  - intros stdout Hrun Hlen. rewrite Hrun. apply Nat.eqb_neq in Hlen.
    now rewrite Hlen.
  - intros Hrun. now rewrite Hrun.
  - intros Hrun. now rewrite Hrun.
Qed.

(** ** Merging and building again *)

Lemma merge_mappings_step_shape (N M : PyDict.dict pystr pystr) :
  NoDup (PyDict.keys M) ->
  NoDup (PyDict.keys (CharacterMapping.merge_mappings M N))
  /\ (length M <= length (CharacterMapping.merge_mappings M N)
      <= length M + length N)%nat.
Proof.
  unfold CharacterMapping.merge_mappings, PyDict.items, PyDict.copy.
  revert M. induction N as [|[k v] N IH]; intros M HM; cbn [fold_left fst snd].
  - split; [exact HM|cbn [length]; lia].
  - destruct (PyDict.contains M k) eqn:Hc; cbn [negb].
    + destruct (IH M HM) as [H1 H2]. split; [exact H1|cbn [length]; lia].
    + destruct (IH (PyDict.setitem M k v) (setitem_NoDup_keys _ _ _ HM))
        as [H1 H2].
      split; [exact H1|].
      assert (Hl : length (PyDict.setitem M k v) = S (length M))
        by (rewrite (setitem_absent _ _ _ Hc), length_app; cbn [length]; lia).
      rewrite Hl in H2. cbn [length]. lia.
Qed.

Lemma contains_merge_mappings (M N : PyDict.dict pystr pystr) (k : pystr) :
  PyDict.contains (CharacterMapping.merge_mappings M N) k
  = PyDict.contains M k || PyDict.contains N k.
Proof.
  unfold PyDict.contains. rewrite merge_mappings_get.
  destruct (PyDict.get M k); reflexivity.
Qed.

(** Merging keeps a dictionary a dictionary: when no key occurs twice in
    the existing mapping, none does in the merged one; the merged mapping
    has at least the entries of the existing one and at most those of both;
    and its keys are the keys of either. *)
Theorem merge_mappings_keeps_keys_unique (M N : PyDict.dict pystr pystr) :
  NoDup (PyDict.keys M) ->
  NoDup (PyDict.keys (CharacterMapping.merge_mappings M N))
  /\ (length M <= length (CharacterMapping.merge_mappings M N)
      <= length M + length N)%nat
  /\ forall k,
       k ∈ PyDict.keys (CharacterMapping.merge_mappings M N)
       <-> k ∈ PyDict.keys M \/ k ∈ PyDict.keys N.
Proof.
  intros HM. destruct (merge_mappings_step_shape N M HM) as [H1 H2].
  split; [exact H1|]. split; [exact H2|].
  intros k. rewrite <- !contains_elem_of_keys, contains_merge_mappings.
  apply orb_true_iff.
Qed.

Lemma merge_mappings_keeps_keys_unique_witness :
  NoDup (PyDict.keys [(str "a", str "b")])
  /\ NoDup (PyDict.keys
             (CharacterMapping.merge_mappings [(str "a", str "b")]
                [(str "c", str "d"); (str "a", str "x"); (str "c", str "y")])).
Proof.
  assert (H : NoDup (PyDict.keys [(str "a", str "b")]))
    by (apply NoDup_singleton).
  split; [exact H|].
  exact (proj1 (merge_mappings_keeps_keys_unique _ _ H)).
Defined.

Lemma merge_mappings_present (N M : PyDict.dict pystr pystr) :
  (forall kv, kv ∈ N -> PyDict.contains M (fst kv) = true) ->
  CharacterMapping.merge_mappings M N = M.
Proof.
  unfold CharacterMapping.merge_mappings, PyDict.items, PyDict.copy.
  induction N as [|[k v] N IH]; intros H; cbn [fold_left fst snd];
    [reflexivity|].
  assert (Hk : PyDict.contains M k = true)
    by (apply (H (k, v)); apply elem_of_cons; now left).
  rewrite Hk. cbn [negb]. apply IH. intros kv Hkv. apply H. apply elem_of_cons. now right.
Qed.

Lemma merge_mappings_again (M N M' : PyDict.dict pystr pystr) :
  M' ≡ₚ CharacterMapping.merge_mappings M N ->
  CharacterMapping.merge_mappings M' N = M'.
Proof.
  intros HP. apply merge_mappings_present. intros [k v] Hkv. cbn [fst].
  rewrite (contains_Permutation _ _ k HP), contains_merge_mappings.
  apply orb_true_iff. right. apply contains_elem_of_keys.
  unfold PyDict.keys. apply list_elem_of_fmap. now exists (k, v).
Qed.

(** Building again changes nothing: a run that starts from a prior mapping
    holding the entries a first run merged (in whatever order the file is
    read back) merges nothing new and performs the same operations with the
    same file content as the first run, whatever order the set of kanji is
    iterated in either time. *)
Theorem character_mapping_rebuild_is_idempotent
    (set_iter1 set_iter2 : list pystr -> list pystr)
    (characters : list CharacterMapping.char_entry)
    (chinese_char : option (list pystr))
    (opencc : pystr -> oracle_result)
    (j2c : option (PyDict.dict pystr pystr))
    (written : PyDict.dict pystr pystr) :
  (forall l, set_iter1 l ≡ₚ l) ->
  (forall l, set_iter2 l ≡ₚ l) ->
  written ≡ₚ CharacterMapping.merge_mappings
               (CharacterMapping.load_existing_j2c_mapping j2c)
               (CharacterMapping.generate_mapping_batch opencc
                  (CharacterMapping.extract_unique_kanji_from_kanjidic
                     set_iter1 characters)) ->
  CharacterMapping.merge_mappings written
    (CharacterMapping.generate_mapping_batch opencc
       (CharacterMapping.extract_unique_kanji_from_kanjidic
          set_iter2 characters))
  = written
  /\ CharacterMapping.main set_iter2 (Some characters) chinese_char opencc
       (Some written)
     = CharacterMapping.main set_iter1 (Some characters) chinese_char opencc
         j2c.
Proof.
  intros H1 H2 HP.
  rewrite (extract_unique_kanji_order_free set_iter2 set_iter1 _ H2 H1).
  pose proof (merge_mappings_again _ _ _ HP) as Hagain.
  split; [exact Hagain|].
  unfold CharacterMapping.main.
  destruct chinese_char as [chinese_chars|]; [|reflexivity].
  rewrite (extract_unique_kanji_order_free set_iter2 set_iter1 _ H2 H1).
  destruct (CharacterMapping.generate_mapping_batch opencc _) as [|kv cm] eqn:E;
    [reflexivity|].
  cbn [CharacterMapping.load_existing_j2c_mapping] in *.
  rewrite Hagain. unfold CharacterMapping.save_mapping_as_json.
  now rewrite (dumps_sorted_Permutation _ _ HP).
Qed.

Lemma character_mapping_rebuild_is_idempotent_witness :
  (forall l : list pystr, id l ≡ₚ l)
  /\ (forall l : list pystr, rev l ≡ₚ l)
  /\ CharacterMapping.main (@rev pystr)
       (Some [ {| CharacterMapping.literal := Some [0x5B66] |}
             ; {| CharacterMapping.literal := Some [0x56FD] |} ])
       (Some [[0x5B78]])
       (fun _ => Completed [0x570B; 10; 0x5B78; 10])
       (Some [([0x5B66], [0x5B78]); (str "a", str "b"); ([0x56FD], [0x570B])])
     = CharacterMapping.main id
       (Some [ {| CharacterMapping.literal := Some [0x5B66] |}
             ; {| CharacterMapping.literal := Some [0x56FD] |} ])
       (Some [[0x5B78]])
       (fun _ => Completed [0x570B; 10; 0x5B78; 10])
       (Some [(str "a", str "b")]).
Proof.
  assert (Hid : forall l : list pystr, id l ≡ₚ l) by reflexivity.
  assert (Hrev : forall l : list pystr, rev l ≡ₚ l)
    by (intros l; symmetry; apply Permutation_rev).
  split; [exact Hid|]. split; [exact Hrev|].
  refine (proj2 (character_mapping_rebuild_is_idempotent id (@rev pystr)
                   _ _ _ (Some [(str "a", str "b")]) _ Hid Hrev _)).
  change ([([0x5B66], [0x5B78]); (str "a", str "b"); ([0x56FD], [0x570B])]
          ≡ₚ [(str "a", str "b"); ([0x56FD], [0x570B]); ([0x5B66], [0x5B78])]).
  apply (Permutation_cons_append [_; _]).
Defined.

(** ** Nothing to convert *)

Lemma pystr_eqb_refl (a : pystr) : PyStr.eqb a a = true.
Proof. unfold PyStr.eqb. now apply bool_decide_eq_true_2. Qed.

Lemma build_mapping_echo (u : list pystr) (acc : PyDict.dict pystr pystr) :
  fold_left
    (fun mapping oc =>
       let original := fst oc in
       let converted := snd oc in
       if negb (PyStr.eqb converted original)
       then PyDict.setitem mapping original converted
       else mapping)
    (combine u u) acc
  = acc.
Proof.
  induction u as [|k u IH]; [reflexivity|].
  cbn [combine fold_left]. cbv beta zeta. cbn [fst snd].
  rewrite pystr_eqb_refl. exact IH.
Qed.

Lemma generate_mapping_batch_empty (opencc : pystr -> oracle_result) :
  CharacterMapping.generate_mapping_batch opencc [] = [].
Proof.
  unfold CharacterMapping.generate_mapping_batch.
  destruct (opencc _) as [stdout| |]; try reflexivity.
  now destruct (negb _).
Qed.

(** The character-mapping build treats "nothing converted" as a failure:
    when KANJIDIC2 yields no kanji at all, or when the oracle returns every
    kanji unchanged, the program exits with status 1 after creating the
    output directory and leaves the mapping file as it was. *)
Theorem nothing_converted_is_an_error
    (set_iter : list pystr -> list pystr)
    (characters : list CharacterMapping.char_entry)
    (chinese_char : option (list pystr))
    (opencc : pystr -> oracle_result)
    (j2c : option (PyDict.dict pystr pystr)) :
  let unique_kanji :=
    CharacterMapping.extract_unique_kanji_from_kanjidic set_iter characters in
  (unique_kanji = []
   \/ exists stdout,
        opencc (PyStr.join [PyStr.NL] unique_kanji) = Completed stdout
        /\ PyStr.split PyStr.NL (PyStr.strip stdout) = unique_kanji) ->
  CharacterMapping.main set_iter (Some characters) chinese_char opencc j2c
  = ([Mkdir (str "output")], Return 1).
Proof.
  intros unique_kanji H. unfold CharacterMapping.main.
  destruct chinese_char as [chinese_chars|]; [|reflexivity].
  fold unique_kanji.
  assert (E : CharacterMapping.generate_mapping_batch opencc unique_kanji = []).
  { destruct H as [->|(stdout & Hrun & Hecho)].
    - apply generate_mapping_batch_empty.
    - unfold CharacterMapping.generate_mapping_batch.
      rewrite Hrun, Hecho, Nat.eqb_refl. cbn [negb].
      apply build_mapping_echo. }
  now rewrite E.
Qed.

Lemma nothing_converted_is_an_error_witness :
  (CharacterMapping.extract_unique_kanji_from_kanjidic id
     [ {| CharacterMapping.literal := Some [0x5C71] |} ] = []
   \/ exists stdout,
        (fun _ : pystr => Completed [0x5C71; 10])
          (PyStr.join [PyStr.NL]
             (CharacterMapping.extract_unique_kanji_from_kanjidic id
                [ {| CharacterMapping.literal := Some [0x5C71] |} ]))
        = Completed stdout
        /\ PyStr.split PyStr.NL (PyStr.strip stdout)
           = CharacterMapping.extract_unique_kanji_from_kanjidic id
               [ {| CharacterMapping.literal := Some [0x5C71] |} ])
  /\ CharacterMapping.main id
       (Some [ {| CharacterMapping.literal := Some [0x5C71] |} ])
       (Some [[0x5C71]]) (fun _ => Completed [0x5C71; 10])
       (Some [(str "a", str "b")])
     = ([Mkdir (str "output")], Return 1).
Proof.
  assert (H : CharacterMapping.extract_unique_kanji_from_kanjidic id
     [ {| CharacterMapping.literal := Some [0x5C71] |} ] = []
   \/ exists stdout,
        (fun _ : pystr => Completed [0x5C71; 10])
          (PyStr.join [PyStr.NL]
             (CharacterMapping.extract_unique_kanji_from_kanjidic id
                [ {| CharacterMapping.literal := Some [0x5C71] |} ]))
        = Completed stdout
        /\ PyStr.split PyStr.NL (PyStr.strip stdout)
           = CharacterMapping.extract_unique_kanji_from_kanjidic id
               [ {| CharacterMapping.literal := Some [0x5C71] |} ])
    by (right; exists [0x5C71; 10]; split; reflexivity).
  split; [exact H|].
  exact (nothing_converted_is_an_error id _ _ _ _ H).
Defined.

Lemma kanji_generate_mapping_batch_empty (opencc : pystr -> oracle_result) :
  opencc [] <> OpenCCNotFound ->
  KanjiMapping.generate_mapping_batch opencc [] = Return [].
Proof.
  intros Hne. unfold KanjiMapping.generate_mapping_batch.
  cbn [PyStr.join]. destruct (opencc []) as [stdout| |];
    [|reflexivity|contradiction].
  now destruct (negb _).
Qed.

(** With no kanji spelling in JMDict the kanji-mapping build cannot
    succeed: unless the OpenCC executable is missing, it writes the Rust
    module and the JSON file from the empty mapping and then stops with a
    division by zero in its closing statistics. *)
Theorem kanji_mapping_without_kanji_crashes
    (set_iter : list pystr -> list pystr) (words : list KanjiMapping.word)
    (opencc : pystr -> oracle_result) :
  KanjiMapping.extract_unique_kanji_from_jmdict set_iter words = [] ->
  opencc [] <> OpenCCNotFound ->
  KanjiMapping.main set_iter (Some words) opencc
  = ( [ Mkdir (str "output")
      ; WriteFile KanjiMapping.rust_output_path
          (KanjiMapping.rust_header ++ KanjiMapping.rust_footer)
      ; WriteFile KanjiMapping.json_output_path (str "{}") ],
      Raise ZeroDivisionError ).
Proof.
  intros He Hne. unfold KanjiMapping.main. rewrite He.
  rewrite (kanji_generate_mapping_batch_empty opencc Hne). reflexivity.
Qed.

Lemma kanji_mapping_without_kanji_crashes_witness :
  KanjiMapping.extract_unique_kanji_from_jmdict id
    [ {| KanjiMapping.kanji := None |}; {| KanjiMapping.kanji := Some [] |} ]
  = []
  /\ (fun _ : pystr => Completed []) [] <> OpenCCNotFound
  /\ snd (KanjiMapping.main id
            (Some [ {| KanjiMapping.kanji := None |}
                  ; {| KanjiMapping.kanji := Some [] |} ])
            (fun _ => Completed []))
     = Raise ZeroDivisionError.
Proof.
  split; [reflexivity|]. split; [discriminate|].
  rewrite (kanji_mapping_without_kanji_crashes id
             [ {| KanjiMapping.kanji := None |}
             ; {| KanjiMapping.kanji := Some [] |} ]
             (fun _ => Completed []) eq_refl);
    [reflexivity|discriminate].
Defined.

(** ** The kanji-mapping build *)

Lemma combine_strongly_sorted (u l : list pystr) :
  StronglySorted PyStr.le u -> NoDup u ->
  StronglySorted PyJson.item_le (combine u l).
Proof.
  revert l. induction u as [|k u IH]; intros l Hs Hn; [constructor|].
  destruct l as [|v l]; [constructor|].
  apply StronglySorted_inv in Hs. destruct Hs as [Hs Hk].
  apply NoDup_cons in Hn. destruct Hn as [Hk' Hn].
  cbn [combine]. constructor; [now apply IH|].
  apply Forall_forall. intros [k2 v2] Hin.
  apply list_elem_of_In, in_combine_l, list_elem_of_In in Hin.
  unfold PyJson.item_le. apply item_leb_cases. right. cbn [fst snd]. split.
  - intros ->. now apply Hk'.
  - rewrite Forall_forall in Hk. apply Hk. exact Hin.
Qed.

Lemma filter_strongly_sorted {A : Type} (R : relation A) (P : A -> bool)
    (l : list A) :
  StronglySorted R l -> StronglySorted R (List.filter P l).
Proof.
  induction 1 as [|x l Hs IH Hx]; cbn [List.filter]; [constructor|].
  destruct (P x); [|exact IH]. constructor; [exact IH|].
  rewrite Forall_forall in *. intros y Hy.
  apply list_elem_of_In, List.filter_In in Hy.
  apply Hx, list_elem_of_In. tauto.
Qed.

Lemma sorted_items_of_sorted (d : PyDict.dict pystr pystr) :
  Sorted PyJson.item_le d -> PyJson.sorted_items d = d.
Proof.
  intros Hd. unfold PyJson.sorted_items, PyDict.items.
  apply (Sorted_unique PyJson.item_le); [apply Sorted_merge_sort; apply _| |].
  - exact Hd.
  - apply merge_sort_Permutation.
Qed.

Lemma map_fst_combine (u l : list pystr) :
  length l = length u -> map fst (combine u l) = u.
Proof.
  revert l. induction u as [|k u IH]; intros [|v l] Hlen;
    try discriminate; [reflexivity|].
  cbn. f_equal. apply IH. now injection Hlen.
Qed.

Lemma kanji_batch_sorted (opencc : pystr -> oracle_result)
    (unique_kanji : list pystr) (m : PyDict.dict pystr pystr) :
  Sorted PyStr.le unique_kanji -> NoDup unique_kanji ->
  KanjiMapping.generate_mapping_batch opencc unique_kanji = Return m ->
  Sorted PyJson.item_le m.
Proof.
  intros Hs Hn. unfold KanjiMapping.generate_mapping_batch.
  destruct (opencc _) as [stdout| |]; [|intros [= <-]; constructor|discriminate].
  destruct (negb _) eqn:El; [intros [= <-]; constructor|].
  intros [= <-].
  apply negb_false_iff, Nat.eqb_eq in El.
  rewrite build_mapping_changed_pairs.
  - cbn [app]. apply StronglySorted_Sorted, filter_strongly_sorted.
    apply combine_strongly_sorted; [|exact Hn].
    apply Sorted_StronglySorted; [apply _|exact Hs].
  - now rewrite (map_fst_combine _ _ El).
  - reflexivity.
Qed.

(** The kanji-mapping build does not depend on the order in which the set
    of kanji is iterated: two runs perform the same operations with the
    same file contents.  The JSON file, although written without
    [sort_keys], has its keys in sorted order, because the mapping is
    filled in the order of the sorted batch. *)
Theorem kanji_mapping_build_deterministic
    (set_iter1 set_iter2 : list pystr -> list pystr)
    (jmdict : option (list KanjiMapping.word))
    (opencc : pystr -> oracle_result) :
  (forall l, set_iter1 l ≡ₚ l) ->
  (forall l, set_iter2 l ≡ₚ l) ->
  KanjiMapping.main set_iter1 jmdict opencc
  = KanjiMapping.main set_iter2 jmdict opencc
  /\ forall words m,
       KanjiMapping.generate_mapping_batch opencc
         (KanjiMapping.extract_unique_kanji_from_jmdict set_iter1 words)
       = Return m ->
       Sorted PyJson.item_le m
       /\ KanjiMapping.save_mapping_as_json m KanjiMapping.json_output_path
          = [WriteFile KanjiMapping.json_output_path (PyJson.dumps true m)].
Proof.
  intros H1 H2.
  assert (E : forall words,
    KanjiMapping.extract_unique_kanji_from_jmdict set_iter1 words
    = KanjiMapping.extract_unique_kanji_from_jmdict set_iter2 words).
  { intros words. unfold KanjiMapping.extract_unique_kanji_from_jmdict.
    apply sorted_Permutation. now rewrite H1, H2. }
  split.
  - unfold KanjiMapping.main. destruct jmdict as [words|]; [|reflexivity].
    now rewrite E.
  - intros words m Hm.
    assert (Hs : Sorted PyJson.item_le m).
    { apply (kanji_batch_sorted opencc _ m) in Hm; [exact Hm| |].
      - unfold KanjiMapping.extract_unique_kanji_from_jmdict, PyStr.sorted.
        apply Sorted_merge_sort. apply _.
      - apply (unique_kanji_of_jmdict set_iter1 words H1). }
    split; [exact Hs|]. unfold KanjiMapping.save_mapping_as_json.
    unfold PyJson.dumps. destruct m; [reflexivity|].
    now rewrite (sorted_items_of_sorted _ Hs).
Qed.

Lemma kanji_mapping_build_deterministic_witness :
  (forall l : list pystr, id l ≡ₚ l)
  /\ (forall l : list pystr, rev l ≡ₚ l)
  /\ KanjiMapping.main id
       (Some [ {| KanjiMapping.kanji :=
                    Some [ {| KanjiMapping.text := Some [0x5B66; 0x751F] |} ] |}
             ; {| KanjiMapping.kanji :=
                    Some [ {| KanjiMapping.text := Some [0x56FD; 0x5BB6] |} ] |} ])
       (fun _ => Completed [0x570B; 0x5BB6; 10; 0x5B78; 0x751F; 10])
     = KanjiMapping.main (@rev pystr)
       (Some [ {| KanjiMapping.kanji :=
                    Some [ {| KanjiMapping.text := Some [0x5B66; 0x751F] |} ] |}
             ; {| KanjiMapping.kanji :=
                    Some [ {| KanjiMapping.text := Some [0x56FD; 0x5BB6] |} ] |} ])
       (fun _ => Completed [0x570B; 0x5BB6; 10; 0x5B78; 0x751F; 10]).
Proof.
  assert (Hid : forall l : list pystr, id l ≡ₚ l) by reflexivity.
  assert (Hrev : forall l : list pystr, rev l ≡ₚ l)
    by (intros l; symmetry; apply Permutation_rev).
  split; [exact Hid|]. split; [exact Hrev|].
  exact (proj1 (kanji_mapping_build_deterministic id (@rev pystr) _ _ Hid Hrev)).
Defined.

Lemma rust_literal_body_escape (s rest : pystr) :
  RustSource.rust_text s = true ->
  RustSource.literal_body (KanjiMapping.rust_escape s ++ PyStr.QUOTE :: rest)
  = Some (s, rest).
Proof.
  unfold KanjiMapping.rust_escape, PyStr.replace_char, RustSource.rust_text.
  induction s as [|c s IH]; intros Htext.
  - cbn [flat_map app RustSource.literal_body]. now rewrite Z.eqb_refl.
  - cbn [forallb] in Htext. apply andb_prop in Htext.
    destruct Htext as [Hc Hs]. apply andb_prop in Hc. destruct Hc as [Hsc Hcr].
    specialize (IH Hs).
    cbn [flat_map]. rewrite flat_map_app, <- app_assoc.
    destruct (c =? PyStr.BACKSLASH) eqn:Eb.
    + cbn [flat_map app RustSource.literal_body].
      change (PyStr.BACKSLASH =? PyStr.QUOTE) with false. cbv iota.
      cbn [app RustSource.literal_body].
      change (PyStr.BACKSLASH =? PyStr.QUOTE) with false.
      rewrite Z.eqb_refl. cbv iota. rewrite IH.
      apply Z.eqb_eq in Eb. now subst c.
    + cbn [flat_map app]. destruct (c =? PyStr.QUOTE) eqn:Eq.
      * apply Z.eqb_eq in Eq. subst c.
        cbn [app RustSource.literal_body].
        change (PyStr.BACKSLASH =? PyStr.QUOTE) with false.
        rewrite !Z.eqb_refl.
        change (PyStr.QUOTE =? PyStr.BACKSLASH) with false. cbv iota.
        now rewrite IH.
      * cbn [app RustSource.literal_body]. rewrite Eq, Eb, Hsc.
        apply negb_true_iff in Hcr. rewrite Hcr. cbn [negb orb].
        now rewrite IH.
Qed.

Lemma rust_insert_line_shape (kv : pystr * pystr) (rest : pystr) :
  KanjiMapping.rust_insert_line kv ++ rest
  = str "    map.insert("
    ++ (PyStr.QUOTE :: KanjiMapping.rust_escape (fst kv)
    ++ PyStr.QUOTE :: (str ", "
    ++ (PyStr.QUOTE :: KanjiMapping.rust_escape (snd kv)
    ++ PyStr.QUOTE :: ((str ");" ++ [PyStr.NL]) ++ rest)))).
Proof.
  unfold KanjiMapping.rust_insert_line. cbv zeta.
  repeat (rewrite <- ?app_assoc; cbn [app]). reflexivity.
Qed.

Lemma rust_insert_line_read (kv : pystr * pystr) (rest : pystr) :
  RustSource.rust_text (fst kv) = true ->
  RustSource.rust_text (snd kv) = true ->
  RustSource.insert_line (KanjiMapping.rust_insert_line kv ++ rest)
  = Some (fst kv, snd kv, rest).
Proof.
  intros Hk Hv.
  rewrite rust_insert_line_shape. unfold RustSource.insert_line.
  rewrite expect_app. cbn [RustSource.literal]. rewrite Z.eqb_refl.
  rewrite (rust_literal_body_escape _ _ Hk), expect_app.
  cbn [RustSource.literal]. rewrite Z.eqb_refl.
  rewrite (rust_literal_body_escape _ _ Hv), expect_app. reflexivity.
Qed.

Lemma rust_insert_lines_read (items : list (pystr * pystr)) (rest : pystr) :
  Forall (fun kv => RustSource.rust_text (fst kv) = true
                    /\ RustSource.rust_text (snd kv) = true) items ->
  RustSource.insert_lines (length items)
    (concat (map KanjiMapping.rust_insert_line items) ++ rest)
  = Some (items, rest).
Proof.
  induction 1 as [|[k v] items [Hk Hv] _ IH]; [reflexivity|].
  cbn [length map concat RustSource.insert_lines].
  rewrite <- app_assoc, (rust_insert_line_read (k, v) _ Hk Hv), IH.
  reflexivity.
Qed.

Lemma normalize_crlf_no_cr (s : pystr) :
  RustSource.no_cr s = true -> RustSource.normalize_crlf s = s.
Proof.
  unfold RustSource.no_cr.
  induction s as [|c s IH]; [reflexivity|].
  cbn [forallb]. intros H. apply andb_prop in H. destruct H as [Hc Hs].
  cbn [RustSource.normalize_crlf]. destruct s as [|d s']; [reflexivity|].
  apply negb_true_iff in Hc. rewrite Hc. cbn [andb]. f_equal. exact (IH Hs).
Qed.

Lemma no_cr_app (a b : pystr) :
  RustSource.no_cr (a ++ b) = RustSource.no_cr a && RustSource.no_cr b.
Proof. apply forallb_app. Qed.

Lemma no_cr_replace_char (old : Z) (new s : pystr) :
  RustSource.no_cr new = true -> RustSource.no_cr s = true ->
  RustSource.no_cr (PyStr.replace_char old new s) = true.
Proof.
  intros Hnew. unfold PyStr.replace_char.
  induction s as [|c s IH]; [reflexivity|].
  intros H. change (RustSource.no_cr (c :: s))
    with (negb (c =? RustSource.CR) && RustSource.no_cr s) in H.
  apply andb_prop in H. destruct H as [Hc Hs].
  cbn [flat_map]. rewrite no_cr_app, (IH Hs), andb_true_r.
  destruct (c =? old); [exact Hnew|].
  unfold RustSource.no_cr. cbn [forallb]. now rewrite Hc.
Qed.

Lemma rust_text_no_cr (s : pystr) :
  RustSource.rust_text s = true -> RustSource.no_cr s = true.
Proof.
  unfold RustSource.rust_text, RustSource.no_cr.
  induction s as [|c s IH]; [reflexivity|].
  cbn [forallb]. intros H. apply andb_prop in H. destruct H as [Hc Hs].
  apply andb_prop in Hc. destruct Hc as [_ Hc]. now rewrite Hc, IH.
Qed.

Lemma no_cr_insert_line (kv : pystr * pystr) :
  RustSource.rust_text (fst kv) = true ->
  RustSource.rust_text (snd kv) = true ->
  RustSource.no_cr (KanjiMapping.rust_insert_line kv) = true.
Proof.
  intros Hk Hv.
  assert (He : forall s, RustSource.rust_text s = true ->
                         RustSource.no_cr (KanjiMapping.rust_escape s) = true).
  { intros s Hs. unfold KanjiMapping.rust_escape.
    apply no_cr_replace_char; [reflexivity|].
    apply no_cr_replace_char; [reflexivity|now apply rust_text_no_cr]. }
  unfold KanjiMapping.rust_insert_line. cbv zeta.
  rewrite !no_cr_app, (He _ Hk), (He _ Hv).
  vm_compute. reflexivity.
Qed.

Lemma no_cr_insert_lines (items : list (pystr * pystr)) :
  Forall (fun kv => RustSource.rust_text (fst kv) = true
                    /\ RustSource.rust_text (snd kv) = true) items ->
  RustSource.no_cr (concat (map KanjiMapping.rust_insert_line items)) = true.
Proof.
  induction 1 as [|kv items [Hk Hv] _ IH]; [reflexivity|].
  cbn [map concat]. now rewrite no_cr_app, (no_cr_insert_line kv Hk Hv), IH.
Qed.

(** The generated Rust module can be read back when no key and no value
    holds a carriage return or a code point that is not a scalar value: the
    compiler's normalization of line ends leaves the text as it is, and
    after the fixed header the [map.insert] lines decode, as Rust string
    literals, to exactly the entries of the mapping sorted by key, with
    quotes and backslashes inside keys and values intact, and the fixed
    footer follows.  Without that condition it need not: a key with an
    isolated carriage return gives a line that is not Rust, and a key with
    CR LF is read back with LF alone. *)
Theorem rust_module_reads_back (mapping : PyDict.dict pystr pystr)
    (output_path : pystr) :
  Forall (fun kv => RustSource.rust_text (fst kv) = true
                    /\ RustSource.rust_text (snd kv) = true) mapping ->
  (exists rust_code,
     KanjiMapping.save_mapping_as_rust_code mapping output_path
     = [WriteFile output_path rust_code]
     /\ RustSource.normalize_crlf rust_code = rust_code
     /\ RustSource.read_source KanjiMapping.rust_header (length mapping)
          rust_code
        = Some (PyJson.sorted_items mapping, KanjiMapping.rust_footer))
  /\ PyJson.sorted_items mapping ≡ₚ mapping
  /\ Sorted PyJson.item_le (PyJson.sorted_items mapping)
  /\ RustSource.insert_line
       (RustSource.normalize_crlf
          (KanjiMapping.rust_insert_line ([97; 13; 98], [120])))
     = None
  /\ RustSource.insert_line
       (RustSource.normalize_crlf
          (KanjiMapping.rust_insert_line ([97; 13; 10; 98], [120])))
     = Some ([97; 10; 98], [120], []).
Proof.
  intros Htext.
  assert (Hperm : PyJson.sorted_items mapping ≡ₚ mapping)
    by (unfold PyJson.sorted_items, PyDict.items; apply merge_sort_Permutation).
  assert (Hsorted : Forall (fun kv => RustSource.rust_text (fst kv) = true
                                      /\ RustSource.rust_text (snd kv) = true)
                      (PyJson.sorted_items mapping))
    by (now rewrite Hperm).
  split; [|split; [exact Hperm|split; [|split]]].
  - eexists. split; [reflexivity|].
    assert (Hcr : RustSource.no_cr
                    (KanjiMapping.rust_header
                     ++ concat (map KanjiMapping.rust_insert_line
                                  (PyJson.sorted_items mapping))
                     ++ KanjiMapping.rust_footer) = true).
    { rewrite !no_cr_app, (no_cr_insert_lines _ Hsorted).
      vm_compute. reflexivity. }
    split; [exact (normalize_crlf_no_cr _ Hcr)|].
    unfold RustSource.read_source.
    rewrite (normalize_crlf_no_cr _ Hcr), expect_app.
    rewrite <- (Permutation_length Hperm).
    now apply rust_insert_lines_read.
  - unfold PyJson.sorted_items. apply Sorted_merge_sort. apply _.
  - vm_compute. reflexivity.
  - vm_compute. reflexivity.
Qed.

Lemma rust_module_reads_back_witness :
  Forall (fun kv => RustSource.rust_text (fst kv) = true
                    /\ RustSource.rust_text (snd kv) = true)
    [([0x5B66; 34], [0x5B78; 92]); ([0x56FD], [0x570B])]
  /\ exists rust_code,
       KanjiMapping.save_mapping_as_rust_code
         [([0x5B66; 34], [0x5B78; 92]); ([0x56FD], [0x570B])]
         (str "src/kanji_mapping_generated.rs")
       = [WriteFile (str "src/kanji_mapping_generated.rs") rust_code]
       /\ RustSource.normalize_crlf rust_code = rust_code
       /\ RustSource.read_source KanjiMapping.rust_header
            (length [([0x5B66; 34], [0x5B78; 92]); ([0x56FD], [0x570B])])
            rust_code
          = Some (PyJson.sorted_items
                    [([0x5B66; 34], [0x5B78; 92]); ([0x56FD], [0x570B])],
                  KanjiMapping.rust_footer).
Proof.
  assert (H : Forall (fun kv : pystr * pystr =>
                        RustSource.rust_text (fst kv) = true
                        /\ RustSource.rust_text (snd kv) = true)
                [([0x5B66; 34], [0x5B78; 92]); ([0x56FD], [0x570B])])
    by (repeat constructor).
  split; [exact H|].
  exact (proj1 (rust_module_reads_back
                  [([0x5B66; 34], [0x5B78; 92]); ([0x56FD], [0x570B])]
                  (str "src/kanji_mapping_generated.rs") H)).
Defined.

(** ** Routing of requests *)

Lemma endswith_json_has_dot (path : pystr) :
  PyStr.endswith path (str ".json") = true ->
  PyStr.contains_char PyStr.DOT path = true.
Proof.
  unfold PyStr.endswith.
  change (rev (str ".json")) with [110; 111; 115; 106; 46].
  intros H.
  assert (Hin : In 46 (rev path)).
  { destruct (rev path) as [|a [|b [|c [|d [|e r]]]]];
      cbn [PyStr.startswith] in H; try discriminate H;
      rewrite ?andb_false_r in H; try discriminate H.
    repeat (apply andb_prop in H; destruct H as [? H]).
    assert (e = 46) by (symmetry; now apply Z.eqb_eq). subst e.
    cbn. auto 10. }
  apply in_rev in Hin. unfold PyStr.contains_char.
  apply existsb_exists. exists 46. split; [exact Hin|reflexivity].
Qed.

Lemma dictionary_path_not_static (path : pystr) :
  PyStr.startswith path (str "/output_dictionary/") = true ->
  PyStr.startswith path (str "/static") = false.
Proof.
  change (str "/output_dictionary/")
    with (47 :: 111 :: str "utput_dictionary/").
  change (str "/static") with (47 :: 115 :: str "tatic").
  destruct path as [|a [|b r]]; cbn [PyStr.startswith]; try discriminate.
  - rewrite andb_false_r. discriminate.
  - intros H. apply andb_prop in H. destruct H as [_ H].
    apply andb_prop in H. destruct H as [H _]. apply Z.eqb_eq in H. subst b.
    change (115 =? 111) with false. cbn [andb]. now rewrite andb_false_r.
Qed.

(** Where a request goes is decided by two tests only.  The index page is
    served exactly for the paths without a dot that do not start with
    [/static], whatever their length; the artifact lookup is reached exactly
    by the paths that start with [/output_dictionary/] and end with
    [.json]; every other path is handed to the static file handler. *)
Theorem route_is_decided_by_dot_and_prefix (path : pystr) :
  (Server.route path = Server.ServeIndex
   <-> PyStr.startswith path (str "/static") = false
       /\ PyStr.contains_char PyStr.DOT path = false)
  /\ (Server.route path = Server.ServeJsonFile path
      <-> PyStr.startswith path (str "/output_dictionary/") = true
          /\ PyStr.endswith path (str ".json") = true)
  /\ (Server.route path = Server.SuperDoGET
      <-> (PyStr.startswith path (str "/static") = true
           \/ PyStr.contains_char PyStr.DOT path = true)
          /\ ~ (PyStr.startswith path (str "/output_dictionary/") = true
                /\ PyStr.endswith path (str ".json") = true)).
Proof.
  pose proof (endswith_json_has_dot path) as Hjson.
  pose proof (dictionary_path_not_static path) as Hdict.
  assert (Hroot : PyStr.eqb path (str "/") = true ->
                  PyStr.startswith path (str "/static") = false
                  /\ PyStr.contains_char PyStr.DOT path = false).
  { unfold PyStr.eqb. intros H. apply bool_decide_eq_true_1 in H. subst path.
    split; reflexivity. }
  unfold Server.route.
  destruct (PyStr.eqb path (str "/")) eqn:Eroot;
    destruct (PyStr.startswith path (str "/static")) eqn:Es;
    destruct (PyStr.contains_char PyStr.DOT path) eqn:Ed;
    destruct (PyStr.startswith path (str "/output_dictionary/")) eqn:Eo;
    destruct (PyStr.endswith path (str ".json")) eqn:Ej;
    destruct (1 <? length path)%nat eqn:El;
    cbn [negb andb orb];
    try (destruct (Hroot eq_refl); discriminate);
    try (specialize (Hjson eq_refl); discriminate);
    try (specialize (Hdict eq_refl); discriminate);
    (split; [|split]); split;
    try discriminate; try tauto;
    try (intros [? ?]; discriminate);
    try (intros [[?|?] ?]; discriminate).
  all: try (intros [_ H]; exfalso; apply H; auto).
  all: intros _; split; [auto|intros [? ?]; discriminate].
Qed.

Lemma split_parts_no_sep (sep : Z) (s : pystr) :
  Forall (fun w => PyStr.contains_char sep w = false) (PyStr.split sep s).
Proof.
  induction s as [|c s IH]; cbn [PyStr.split].
  - constructor; [reflexivity|constructor].
  - destruct (c =? sep) eqn:Ec.
    + constructor; [reflexivity|exact IH].
    + destruct (PyStr.split sep s) as [|w ws].
      * constructor; [|constructor]. unfold PyStr.contains_char. cbn.
        now rewrite (Z.eqb_sym sep c), Ec.
      * apply Forall_cons in IH. destruct IH as [Hw Hws].
        constructor; [|exact Hws]. unfold PyStr.contains_char in *. cbn.
        now rewrite (Z.eqb_sym sep c), Ec, Hw.
Qed.

Lemma last_Forall {A : Type} (P : A -> Prop) (l : list A) (d : A) :
  l <> [] -> Forall P l -> P (List.last l d).
Proof.
  intros Hne Hl. induction Hl as [|x l Hx Hl IH]; [contradiction|].
  destruct l as [|y l]; [exact Hx|]. apply IH. discriminate.
Qed.

Lemma contains_char_take (c : Z) (n : nat) (s : pystr) :
  PyStr.contains_char c s = false -> PyStr.contains_char c (take n s) = false.
Proof.
  unfold PyStr.contains_char. revert n. induction s as [|x s IH]; intros n.
  - now destruct n.
  - destruct n as [|n]; [reflexivity|]. cbn. intros H.
    apply orb_false_elim in H. destruct H as [Hx Hs]. now rewrite Hx, IH.
Qed.

(** The artifact lookup cannot be steered out of the dictionary directory:
    for every path, the name taken from the request has no [/] in it, and
    the file opened is [../output_dictionary/<name>.json].  The response is
    200 with its content.  When the file is missing it is 404 if every
    character of the name is below U+0100, and otherwise nothing is sent,
    [send_error] raising [UnicodeEncodeError]; on any other error it is
    500 if every character of the error text is below U+0100, and
    otherwise again nothing is sent. *)
Theorem artifact_lookup_stays_in_directory
    (fs : pystr -> Server.open_result) (path : pystr) :
  let filename := List.last (PyStr.split PyStr.SLASH path) [] in
  let character := take (length filename - 5) filename in
  PyStr.contains_char PyStr.SLASH character = false
  /\ Server.serve_json_file fs path
     = match fs (str "../output_dictionary/" ++ character ++ str ".json") with
       | Server.FileContent content =>
           Server.Response 200 (str "application/json; charset=utf-8") content
       | Server.NotFound =>
           if Server.latin1 character
           then Server.SendError 404
                  (str "Character '" ++ character ++ str "' not found")
           else Server.UnicodeEncodeError
       | Server.OpenError e =>
           if Server.latin1 e
           then Server.SendError 500
                  (str "Error loading character data: " ++ e)
           else Server.UnicodeEncodeError
       end.
Proof.
  intros filename character.
  assert (Hc : PyStr.contains_char PyStr.SLASH character = false).
  { apply contains_char_take. subst filename.
    apply (last_Forall (fun w => PyStr.contains_char PyStr.SLASH w = false));
      [apply split_nonempty|apply split_parts_no_sep]. }
  split; [exact Hc|]. unfold Server.serve_json_file.
  fold filename. fold character.
  rewrite (os_path_join_artifact character Hc).
  unfold Server.artifact_path.
  destruct (fs _); [reflexivity|apply send_error_not_found
                   |apply send_error_loading].
Qed.

(** ** Lines of a JSON lines file *)

Lemma jsonl_lines_accounted {J : Type}
    (json_loads : pystr -> JsonlToJson.loads_result J)
    (i : Z) (lines : list pystr) :
  forallb (JsonlToJson.readable json_loads) lines = true ->
  (length (JsonlToJson.parsed_entries json_loads lines)
   + length (JsonlToJson.malformed_lines json_loads i lines)
   + length (List.filter (fun l => match l with [] => true | _ :: _ => false end)
               (map PyStr.strip lines)))%nat
  = length lines.
Proof.
  revert i. unfold JsonlToJson.parsed_entries.
  induction lines as [|line rest IH]; intros i Hr; [reflexivity|].
  cbn [forallb] in Hr. apply andb_prop in Hr. destruct Hr as [Hline Hrest].
  cbn [map List.filter JsonlToJson.malformed_lines].
  specialize (IH (i + 1) Hrest). unfold JsonlToJson.readable in Hline.
  destruct (PyStr.strip line) as [|c l] eqn:El; cbn [length].
  - lia.
  - cbn [omap list_omap].
    destruct (json_loads (c :: l)); cbn [JsonlToJson.loaded length];
      [lia|lia|discriminate].
Qed.

Lemma parsed_entries_length {J : Type}
    (json_loads : pystr -> JsonlToJson.loads_result J) (lines : list pystr) :
  (length (JsonlToJson.parsed_entries json_loads lines) <= length lines)%nat.
Proof.
  unfold JsonlToJson.parsed_entries.
  induction lines as [|line rest IH]; [reflexivity|].
  cbn [map List.filter]. destruct (PyStr.strip line) as [|c l]; cbn [length].
  - lia.
  - cbn [omap list_omap].
    destruct (JsonlToJson.loaded (json_loads (c :: l))); cbn [length]; lia.
Qed.

(** The conversion succeeds exactly when [json.loads] raises nothing but
    [JSONDecodeError] on the lines read and the output can be written;
    otherwise it returns [False].  When it succeeds, every line read is
    accounted for exactly once: it is blank, it gives an entry of the output
    array, or it gives a warning.  In sample mode the array has at most
    [sample_size] entries, and with a negative sample size no line is read.
    A missing file, a file that cannot be opened and a line that cannot be
    read make it return [False]. *)
Theorem jsonl_accounts_for_every_line
    (J : Type) (json_loads : pystr -> JsonlToJson.loads_result J)
    (json_dump : list J -> bool) (lines : list pystr)
    (sample_size : option Z) :
  let read := JsonlToJson.sampled sample_size lines in
  let entries := JsonlToJson.parsed_entries json_loads read in
  let r := JsonlToJson.jsonl_to_json json_loads json_dump
             (JsonlToJson.Opened (map JsonlToJson.Line lines)) sample_size in
  fst r = (if forallb (JsonlToJson.readable json_loads) read
              && json_dump entries
           then Some entries else None)
  /\ (fst r = Some entries ->
      (length entries + length (JsonlToJson.warnings (snd r))
       + length (List.filter
                   (fun l => match l with [] => true | _ :: _ => false end)
                   (map PyStr.strip read)))%nat
      = length read)
  /\ (length entries <= length lines)%nat
  /\ (forall n, sample_size = Some n -> n <> 0 ->
        (length entries <= Z.to_nat n)%nat)
  /\ (forall n, sample_size = Some n -> n < 0 -> read = [])
  /\ fst (JsonlToJson.jsonl_to_json json_loads json_dump
            JsonlToJson.NoSuchFile sample_size) = None
  /\ fst (JsonlToJson.jsonl_to_json json_loads json_dump
            JsonlToJson.OpenRaised sample_size) = None
  /\ (forall after,
        fst (JsonlToJson.jsonl_to_json json_loads json_dump
               (JsonlToJson.Opened
                  (map JsonlToJson.Line lines
                   ++ JsonlToJson.ReadRaised :: after)) None)
        = None).
Proof.
  intros read entries r.
  destruct (jsonl_to_json_result json_loads json_dump lines sample_size)
    as [E W]. cbn zeta in E, W. fold read in E, W. fold entries in E, W.
  fold r in E, W.
  assert (Hlen : (length read <= length lines)%nat).
  { unfold read, JsonlToJson.sampled, JsonlToJson.sampled_from.
    destruct sample_size as [n|]; [|lia].
    destruct (n =? 0); [lia|]. rewrite length_take. lia. }
  pose proof (parsed_entries_length json_loads read) as Hle.
  fold entries in Hle.
  split; [exact E|]. split.
  { intros Hsome. rewrite Hsome in E.
    destruct (forallb (JsonlToJson.readable json_loads) read) eqn:Hr;
      [|discriminate].
    destruct (json_dump entries) eqn:Hd; [|discriminate].
    rewrite (W eq_refl eq_refl).
    exact (jsonl_lines_accounted json_loads 0 read Hr). }
  split; [lia|]. split.
  { intros n -> Hn.
    unfold read, JsonlToJson.sampled, JsonlToJson.sampled_from in Hle.
    destruct (Z.eqb_spec n 0); [contradiction|].
    rewrite length_take, Z.sub_0_r in Hle. lia. }
  split.
  { intros n -> Hn. unfold read, JsonlToJson.sampled, JsonlToJson.sampled_from.
    destruct (Z.eqb_spec n 0); [lia|].
    replace (Z.to_nat (n - 0)) with 0%nat by lia. reflexivity. }
  split; [reflexivity|]. split; [reflexivity|].
  intros after. unfold JsonlToJson.jsonl_to_json.
  pose proof (read_lines_read_raised json_loads lines after 0 [] []) as Hraised.
  destruct (JsonlToJson.read_lines json_loads None 0 _ [] [])
    as [[es|] log]; [discriminate Hraised|reflexivity].
Qed.

(** ** Notes: conversion *)

Section process_notes_facts.
Variable opencc : nat -> pystr -> pystr -> oracle_result.
Variable uuid4 : nat -> pystr.
Variable timestamp : nat -> Z.
Variables user_id opencc_path : pystr.
Hypothesis opencc_found :
  forall n path text, opencc n path text <> OpenCCNotFound.

Lemma convert_with_opencc_returns (n : nat) (word : pystr) :
  exists traditional,
    ImportNotes.convert_with_opencc (opencc n) word opencc_path
    = Return traditional.
Proof.
  unfold ImportNotes.convert_with_opencc.
  destruct (opencc n opencc_path word) eqn:E; eauto.
  now apply opencc_found in E.
Qed.

Lemma process_notes_from (notes : list ImportNotes.note)
    (st : ImportNotes.loop_state) :
  Forall (fun n => is_Some (PyDict.get n (str "word"))
                   /\ is_Some (PyDict.get n (str "note"))) notes ->
  exists st' new,
    for_each (ImportNotes.process_one opencc uuid4 timestamp user_id opencc_path)
      notes st = Return st'
    /\ ImportNotes.processed st' = ImportNotes.processed st ++ new
    /\ Forall2 (ImportNotes.processed_from user_id (ImportNotes.conversions st'))
         notes new
    /\ (forall k v, PyDict.get (ImportNotes.conversions st) k = Some v ->
                    PyDict.get (ImportNotes.conversions st') k = Some v)
    /\ PyDict.keys (ImportNotes.conversions st')
       = PyDict.keys (ImportNotes.conversions st)
         ++ ImportNotes.distinct_words (PyDict.keys (ImportNotes.conversions st))
              (ImportNotes.words_of notes)
    /\ ImportNotes.opencc_calls st'
       = (ImportNotes.opencc_calls st
          + length (ImportNotes.distinct_words
                      (PyDict.keys (ImportNotes.conversions st))
                      (ImportNotes.words_of notes)))%nat
    /\ map ImportNotes.id new
       = map uuid4 (seq (length (ImportNotes.processed st)) (length notes))
    /\ map ImportNotes.createdAt new
       = map timestamp (seq (length (ImportNotes.processed st)) (length notes)).
Proof.
  intros Hnotes. revert st.
  induction Hnotes as [|note notes [[word Hw] [text Ht]] Hnotes IH]; intros st.
  - exists st, []. cbn. rewrite !app_nil_r, Nat.add_0_r.
    repeat split; auto.
  - cbn [for_each]. unfold ImportNotes.process_one at 1.
    unfold getitem at 1 2. rewrite Hw, Ht. cbn [bind].
    unfold ImportNotes.words_of. cbn [omap list_omap]. rewrite Hw.
    fold (ImportNotes.words_of notes).
    cbn [ImportNotes.distinct_words].
    destruct (PyDict.contains (ImportNotes.conversions st) word) eqn:Hc;
      cbn [negb].
    + (* the word was converted before *)
      assert (Hin : word ∈ PyDict.keys (ImportNotes.conversions st))
        by now apply contains_elem_of_keys.
      rewrite bool_decide_eq_true_2 by exact Hin.
      unfold PyDict.contains in Hc. unfold getitem.
      destruct (PyDict.get (ImportNotes.conversions st) word) as [trad|] eqn:Hg;
        [|discriminate].
      cbn [bind fst snd].
      match goal with
      | |- context [for_each _ notes ?s1] =>
          destruct (IH s1) as (st' & new & Hrun & Hp & Hf & Hext & Hk & Hn & Hid & Hts)
      end.
      cbn [ImportNotes.processed ImportNotes.conversions
           ImportNotes.opencc_calls] in *.
      exists st'. eexists (_ :: new). split; [exact Hrun|].
      split; [rewrite Hp, <- app_assoc; reflexivity|].
      split.
      { constructor; [|exact Hf]. exists word, text.
        cbn [ImportNotes.character ImportNotes.noteText ImportNotes.userId
             ImportNotes.isAdmin ImportNotes.createdAt ImportNotes.updatedAt].
        repeat split; auto. }
      split; [exact Hext|]. split; [exact Hk|]. split; [exact Hn|].
      rewrite length_app in Hid, Hts. cbn [length] in Hid, Hts.
      replace (length (ImportNotes.processed st) + 1)%nat
        with (S (length (ImportNotes.processed st))) in Hid, Hts by lia.
      cbn [map seq length ImportNotes.id ImportNotes.createdAt].
      split; f_equal; assumption.
    + (* first occurrence of the word *)
      assert (Hin : ~ word ∈ PyDict.keys (ImportNotes.conversions st)).
      { intros H. apply contains_elem_of_keys in H. congruence. }
      rewrite bool_decide_eq_false_2 by exact Hin.
      destruct (convert_with_opencc_returns (ImportNotes.opencc_calls st) word)
        as [trad Hconv].
      rewrite Hconv. cbn [bind fst snd].
      match goal with
      | |- context [for_each _ notes ?s1] =>
          destruct (IH s1) as (st' & new & Hrun & Hp & Hf & Hext & Hk & Hn & Hid & Hts)
      end.
      cbn [ImportNotes.processed ImportNotes.conversions
           ImportNotes.opencc_calls] in *.
      exists st'. eexists (_ :: new). split; [exact Hrun|].
      split; [rewrite Hp, <- app_assoc; reflexivity|].
      split.
      { constructor; [|exact Hf]. exists word, text.
        cbn [ImportNotes.character ImportNotes.noteText ImportNotes.userId
             ImportNotes.isAdmin ImportNotes.createdAt ImportNotes.updatedAt].
        repeat split; auto. apply Hext. rewrite get_setitem.
        now rewrite decide_True. }
      split.
      { intros k v Hkv. apply Hext. rewrite get_setitem.
        destruct (decide (k = word)) as [->|Hne]; [|exact Hkv].
        unfold PyDict.contains in Hc. rewrite Hkv in Hc. discriminate. }
      rewrite (keys_setitem_absent _ _ _ Hc) in Hk, Hn.
      split; [rewrite Hk, <- app_assoc; reflexivity|].
      split; [rewrite Hn; cbn [length]; lia|].
      rewrite length_app in Hid, Hts. cbn [length] in Hid, Hts.
      replace (length (ImportNotes.processed st) + 1)%nat
        with (S (length (ImportNotes.processed st))) in Hid, Hts by lia.
      cbn [map seq length ImportNotes.id ImportNotes.createdAt].
      split; f_equal; assumption.
Qed.

End process_notes_facts.

(** [process_notes]: when every note has the keys [word] and [note]
    and the OpenCC executable is found, [process_notes] returns one record
    per note, in order, with the note's text, the given user, [isAdmin] 0,
    equal creation and update times, and the identifiers and times drawn in
    order.  OpenCC runs once per distinct word, in order of first
    occurrence, and notes with the same word get the same character even
    when OpenCC answers differently from one run to the next. *)
Theorem notes_convert_each_word_once
    (opencc : nat -> pystr -> pystr -> oracle_result)
    (uuid4 : nat -> pystr) (timestamp : nat -> Z)
    (user_id opencc_path : pystr) (notes : list ImportNotes.note) :
  (forall n path text, opencc n path text <> OpenCCNotFound) ->
  Forall (fun n => is_Some (PyDict.get n (str "word"))
                   /\ is_Some (PyDict.get n (str "note"))) notes ->
  exists st,
    ImportNotes.process_notes_loop opencc uuid4 timestamp notes user_id
      opencc_path = Return st
    /\ ImportNotes.process_notes opencc uuid4 timestamp notes user_id
         opencc_path = Return (ImportNotes.processed st)
    /\ Forall2 (ImportNotes.processed_from user_id (ImportNotes.conversions st))
         notes (ImportNotes.processed st)
    /\ PyDict.keys (ImportNotes.conversions st)
       = ImportNotes.distinct_words [] (ImportNotes.words_of notes)
    /\ ImportNotes.opencc_calls st
       = length (ImportNotes.distinct_words [] (ImportNotes.words_of notes))
    /\ map ImportNotes.id (ImportNotes.processed st)
       = map uuid4 (seq 0 (length notes))
    /\ map ImportNotes.createdAt (ImportNotes.processed st)
       = map timestamp (seq 0 (length notes))
    /\ (forall i j ni nj pi pj,
          notes !! i = Some ni -> notes !! j = Some nj ->
          ImportNotes.processed st !! i = Some pi ->
          ImportNotes.processed st !! j = Some pj ->
          PyDict.get ni (str "word") = PyDict.get nj (str "word") ->
          ImportNotes.character pi = ImportNotes.character pj).
Proof.
  intros Hfound Hnotes.
  destruct (process_notes_from opencc uuid4 timestamp user_id opencc_path
              Hfound notes
              {| ImportNotes.processed := [];
                 ImportNotes.conversions := [];
                 ImportNotes.opencc_calls := 0 |} Hnotes)
    as (st & new & Hrun & Hp & Hf & _ & Hk & Hn & Hid & Hts).
  cbn [ImportNotes.processed ImportNotes.conversions ImportNotes.opencc_calls
       app length PyDict.keys map Nat.add] in *.
  subst new. exists st.
  split; [exact Hrun|].
  split.
  { unfold ImportNotes.process_notes.
    unfold ImportNotes.process_notes_loop in *. now rewrite Hrun. }
  split; [exact Hf|]. split; [exact Hk|]. split; [exact Hn|].
  split; [exact Hid|]. split; [exact Hts|].
  intros i j ni nj pi pj Hi Hj Hpi Hpj Hw.
  destruct (Forall2_lookup_lr _ _ _ _ _ _ Hf Hi Hpi)
    as (wi & ti & Hwi & _ & Hci & _).
  destruct (Forall2_lookup_lr _ _ _ _ _ _ Hf Hj Hpj)
    as (wj & tj & Hwj & _ & Hcj & _).
  rewrite Hwi, Hwj in Hw. injection Hw as ->. congruence.
Qed.

Lemma notes_convert_each_word_once_witness :
  (* OpenCC answers differently at every run *)
  (forall (n : nat) (path text : pystr),
      Completed (text ++ [48 + Z.of_nat n]) <> OpenCCNotFound)
  /\ Forall (fun n => is_Some (PyDict.get n (str "word"))
                      /\ is_Some (PyDict.get n (str "note")))
       [ [(str "word", str "a"); (str "note", str "x")]
       ; [(str "word", str "b"); (str "note", str "y")]
       ; [(str "word", str "a"); (str "note", str "z")] ]
  /\ exists st,
       ImportNotes.process_notes_loop
         (fun n _ text => Completed (text ++ [48 + Z.of_nat n]))
         (fun _ => str "id") (fun n => Z.of_nat n)
         [ [(str "word", str "a"); (str "note", str "x")]
         ; [(str "word", str "b"); (str "note", str "y")]
         ; [(str "word", str "a"); (str "note", str "z")] ]
         (str "u") (str "opencc") = Return st
       /\ ImportNotes.opencc_calls st = 2%nat
       /\ map ImportNotes.character (ImportNotes.processed st)
          = [str "a0"; str "b1"; str "a0"].
Proof.
  assert (H1 : forall (n : nat) (path text : pystr),
             Completed (text ++ [48 + Z.of_nat n]) <> OpenCCNotFound)
    by (intros; discriminate).
  assert (H2 : Forall (fun n => is_Some (PyDict.get n (str "word"))
                                /\ is_Some (PyDict.get n (str "note")))
                 [ [(str "word", str "a"); (str "note", str "x")]
                 ; [(str "word", str "b"); (str "note", str "y")]
                 ; [(str "word", str "a"); (str "note", str "z")] ])
    by (repeat constructor; vm_compute; eauto).
  split; [exact H1|]. split; [exact H2|].
  destruct (notes_convert_each_word_once
              (fun n _ text => Completed (text ++ [48 + Z.of_nat n]))
              (fun _ => str "id") (fun n => Z.of_nat n) (str "u")
              (str "opencc") _ H1 H2)
    as (st & Hrun & _ & _ & _ & Hn & _).
  exists st. split; [exact Hrun|]. split; [exact Hn|].
  vm_compute in Hrun. injection Hrun as <-. reflexivity.
Defined.

Lemma for_each_app {A S : Type} (body : S -> A -> result S) (xs ys : list A)
    (s : S) :
  for_each body (xs ++ ys) s = (s' <- for_each body xs s ;; for_each body ys s').
Proof.
  revert s. induction xs as [|x xs IH]; intros s; [reflexivity|].
  cbn [app for_each]. destruct (body s x); cbn [bind]; auto.
Qed.

(** Errors of [process_notes]: with an OpenCC executable that can be
    started, the first note without the key [word] or the key [note] ends
    [process_notes] with a [KeyError], whatever follows it.  With one that
    cannot be started, the first note ends it: with the
    [FileNotFoundError] that [convert_with_opencc] does not catch when the
    note has both keys, with the [KeyError] otherwise. *)
Theorem notes_without_keys_raise
    (opencc : nat -> pystr -> pystr -> oracle_result)
    (uuid4 : nat -> pystr) (timestamp : nat -> Z)
    (user_id opencc_path : pystr) (good : list ImportNotes.note)
    (bad : ImportNotes.note) (rest : list ImportNotes.note) :
  Forall (fun n => is_Some (PyDict.get n (str "word"))
                   /\ is_Some (PyDict.get n (str "note"))) good ->
  PyDict.get bad (str "word") = None \/ PyDict.get bad (str "note") = None ->
  ((forall n path text, opencc n path text <> OpenCCNotFound) ->
   ImportNotes.process_notes opencc uuid4 timestamp (good ++ bad :: rest)
     user_id opencc_path = Raise KeyError)
  /\ ((forall n path text, opencc n path text = OpenCCNotFound) ->
      ImportNotes.process_notes opencc uuid4 timestamp (good ++ bad :: rest)
        user_id opencc_path
      = match good with
        | [] => Raise KeyError
        | _ :: _ => Raise FileNotFoundError
        end).
Proof.
  intros Hgood Hbad.
  assert (Hone : forall st,
             ImportNotes.process_one opencc uuid4 timestamp user_id opencc_path
               st bad = Raise KeyError).
  { intros st. unfold ImportNotes.process_one, getitem.
    destruct (PyDict.get bad (str "word")) as [w|]; [|reflexivity].
    destruct Hbad as [Hbad|Hbad]; [discriminate|].
    now rewrite Hbad. }
  split.
  - intros Hfound.
    destruct (process_notes_from opencc uuid4 timestamp user_id opencc_path
                Hfound good
                {| ImportNotes.processed := [];
                   ImportNotes.conversions := [];
                   ImportNotes.opencc_calls := 0 |} Hgood)
      as (st & new & Hrun & _).
    unfold ImportNotes.process_notes, ImportNotes.process_notes_loop.
    rewrite for_each_app, Hrun. cbn [bind for_each]. now rewrite Hone.
  - intros Hmissing.
    unfold ImportNotes.process_notes, ImportNotes.process_notes_loop.
    destruct Hgood as [|note good [[w Hw] [t Ht]] Hgood].
    + cbn [app for_each]. now rewrite Hone.
    + cbn [app for_each]. unfold ImportNotes.process_one at 1.
      unfold getitem at 1 2. rewrite Hw, Ht.
      cbn [bind ImportNotes.conversions PyDict.contains PyDict.get negb
           ImportNotes.opencc_calls].
      unfold ImportNotes.convert_with_opencc. now rewrite Hmissing.
Qed.

Lemma notes_without_keys_raise_witness :
  Forall (fun n => is_Some (PyDict.get n (str "word"))
                   /\ is_Some (PyDict.get n (str "note")))
    [ [(str "word", str "a"); (str "note", str "x")] ]
  /\ (PyDict.get [(str "word", str "b")] (str "word") = None
      \/ PyDict.get [(str "word", str "b")] (str "note") = None)
  /\ ImportNotes.process_notes (fun _ _ text => Completed text)
       (fun _ => str "id") (fun n => Z.of_nat n)
       ([ [(str "word", str "a"); (str "note", str "x")] ]
        ++ [(str "word", str "b")] :: [])
       (str "u") (str "opencc") = Raise KeyError.
Proof.
  assert (H1 : Forall (fun n => is_Some (PyDict.get n (str "word"))
                                /\ is_Some (PyDict.get n (str "note")))
                 [ [(str "word", str "a"); (str "note", str "x")] ])
    by (repeat constructor; vm_compute; eauto).
  assert (H2 : PyDict.get [(str "word", str "b")] (str "word") = None
               \/ PyDict.get [(str "word", str "b")] (str "note") = None)
    by (right; reflexivity).
  split; [exact H1|]. split; [exact H2|].
  apply (proj1 (notes_without_keys_raise (fun _ _ text => Completed text)
                  (fun _ => str "id") (fun n => Z.of_nat n) (str "u")
                  (str "opencc") _ _ [] H1 H2)).
  intros; discriminate.
Defined.

(** ** Notes: insertion *)





Lemma replace_char_absent (old : Z) (new s : pystr) :
  PyStr.contains_char old s = false -> PyStr.replace_char old new s = s.
Proof.
  unfold PyStr.contains_char, PyStr.replace_char.
  induction s as [|c s IH]; [reflexivity|].
  cbn [existsb flat_map]. intros H. apply orb_false_elim in H as [Hc Hs].
  rewrite (Z.eqb_sym c), Hc. cbn [app]. now rewrite IH.
Qed.

(** The statement of a note: the identifier and the user id are written
    as they are, the character and the text quote-escaped.  When the
    identifier and the user id hold no single quote, the tuple after
    [VALUES] reads back, for a SQL reader, as the four strings of the note
    followed by its three numbers. *)
Theorem note_statement_reads_back (note : ImportNotes.processed_note) :
  PyStr.contains_char PyStr.APOS (ImportNotes.id note) = false ->
  PyStr.contains_char PyStr.APOS (ImportNotes.userId note) = false ->
  exists tuple,
    ImportNotes.note_sql note
    = str "INSERT OR REPLACE INTO notes (id, userId, character, noteText, isAdmin, createdAt, updatedAt)"
      ++ [PyStr.NL] ++ str "VALUES " ++ tuple
    /\ CsvToSql.sql_tuple_literals tuple
       = Some (ImportNotes.id note, ImportNotes.userId note,
               ImportNotes.character note, ImportNotes.noteText note,
               format_int (ImportNotes.isAdmin note) ++ str ", "
               ++ format_int (ImportNotes.createdAt note) ++ str ", "
               ++ format_int (ImportNotes.updatedAt note) ++ str ");").
Proof.
  intros Hid Huser.
  exists (str "("
    ++ (str "'" ++ CsvToSql.escape_sql_string (Some (ImportNotes.id note))
        ++ str "'"
    ++ (str ", "
    ++ (str "'" ++ CsvToSql.escape_sql_string (Some (ImportNotes.userId note))
        ++ str "'"
    ++ (str ", "
    ++ (str "'" ++ CsvToSql.escape_sql_string (Some (ImportNotes.character note))
        ++ str "'"
    ++ (str ", "
    ++ (str "'" ++ CsvToSql.escape_sql_string (Some (ImportNotes.noteText note))
        ++ str "'"
    ++ (str ", "
    ++ (format_int (ImportNotes.isAdmin note) ++ str ", "
        ++ format_int (ImportNotes.createdAt note) ++ str ", "
        ++ format_int (ImportNotes.updatedAt note) ++ str ");")))))))))).
  split.
  - unfold ImportNotes.note_sql, CsvToSql.escape_sql_string.
    rewrite (replace_char_absent _ _ _ Hid), (replace_char_absent _ _ _ Huser).
    change (str "VALUES ('") with (str "VALUES " ++ str "(" ++ str "'").
    change (str "', '") with (str "'" ++ str ", " ++ str "'").
    change (str "', ") with (str "'" ++ str ", ").
    now rewrite <- !app_assoc.
  - unfold CsvToSql.sql_tuple_literals.
    rewrite expect_app.
    rewrite sql_literal_escape by reflexivity. rewrite expect_app.
    rewrite sql_literal_escape by reflexivity. rewrite expect_app.
    rewrite sql_literal_escape by reflexivity. rewrite expect_app.
    rewrite sql_literal_escape by reflexivity. rewrite expect_app.
    reflexivity.
Qed.

Lemma note_statement_reads_back_witness :
  PyStr.contains_char PyStr.APOS (str "7f3c") = false
  /\ PyStr.contains_char PyStr.APOS (str "u1") = false
  /\ exists tuple,
       ImportNotes.note_sql
         {| ImportNotes.id := str "7f3c";
            ImportNotes.userId := str "u1";
            ImportNotes.character := [0x5B78];
            ImportNotes.noteText := str "it's";
            ImportNotes.isAdmin := 0;
            ImportNotes.createdAt := 1700000000;
            ImportNotes.updatedAt := 1700000000 |}
       = str "INSERT OR REPLACE INTO notes (id, userId, character, noteText, isAdmin, createdAt, updatedAt)"
         ++ [PyStr.NL] ++ str "VALUES " ++ tuple
       /\ CsvToSql.sql_tuple_literals tuple
          = Some (str "7f3c", str "u1", [0x5B78], str "it's",
                  str "0, 1700000000, 1700000000);").
Proof.
  split; [reflexivity|]. split; [reflexivity|].
  exact (note_statement_reads_back
           {| ImportNotes.id := str "7f3c";
              ImportNotes.userId := str "u1";
              ImportNotes.character := [0x5B78];
              ImportNotes.noteText := str "it's";
              ImportNotes.isAdmin := 0;
              ImportNotes.createdAt := 1700000000;
              ImportNotes.updatedAt := 1700000000 |}
           eq_refl eq_refl).
Defined.

(** ** Notes: the CSV file *)

Lemma lstrip_idempotent (s : pystr) : PyStr.lstrip (PyStr.lstrip s) = PyStr.lstrip s.
Proof.
  induction s as [|c s IH]; [reflexivity|].
  cbn [PyStr.lstrip]. destruct (PyStr.isspace c) eqn:E; [exact IH|].
  cbn [PyStr.lstrip]. now rewrite E.
Qed.

Lemma lstrip_snoc (s : pystr) (c : Z) :
  PyStr.isspace c = false -> PyStr.lstrip (s ++ [c]) = PyStr.lstrip s ++ [c].
Proof.
  intros Hc. induction s as [|d s IH].
  - cbn [app PyStr.lstrip]. now rewrite Hc.
  - cbn [app PyStr.lstrip]. now destruct (PyStr.isspace d).
Qed.

Lemma rstrip_cons (c : Z) (s : pystr) :
  PyStr.isspace c = false -> PyStr.rstrip (c :: s) = c :: PyStr.rstrip s.
Proof.
  intros Hc. unfold PyStr.rstrip. cbn [rev].
  now rewrite (lstrip_snoc _ _ Hc), rev_app_distr.
Qed.

Lemma strip_trimmed (s : pystr) :
  PyStr.lstrip (PyStr.strip s) = PyStr.strip s
  /\ PyStr.rstrip (PyStr.strip s) = PyStr.strip s.
Proof.
  unfold PyStr.strip. split.
  - pose proof (lstrip_idempotent s) as H.
    destruct (PyStr.lstrip s) as [|c t]; [reflexivity|].
    cbn [PyStr.lstrip] in H.
    destruct (PyStr.isspace c) eqn:Hc.
    + (* a stripped string does not start with a space *)
      exfalso. clear - H Hc.
      assert (Hlen : forall u, (length (PyStr.lstrip u) <= length u)%nat).
      { induction u as [|d u IH]; [reflexivity|].
        cbn [PyStr.lstrip]. destruct (PyStr.isspace d); cbn [length]; lia. }
      specialize (Hlen t). rewrite H in Hlen. cbn [length] in Hlen. lia.
    + rewrite (rstrip_cons _ _ Hc). cbn [PyStr.lstrip]. now rewrite Hc.
  - unfold PyStr.rstrip. now rewrite rev_involutive, lstrip_idempotent.
Qed.

Lemma parse_rows_from (rows : list (list pystr))
    (st : list ImportNotes.note * list ConvertNotes.event) :
  exists notes,
    fold_left ConvertNotes.parse_row rows st
    = (fst st ++ notes,
       snd st ++ map (fun row => ConvertNotes.ShortRow (length row) (take 2 row))
                   (List.filter ConvertNotes.short rows))
    /\ Forall2 ConvertNotes.note_of (List.filter ConvertNotes.complete rows) notes.
Proof.
  revert st. induction rows as [|row rows IH]; intros st.
  - exists []. cbn. rewrite !app_nil_r. split; [now destruct st|constructor].
  - cbn [fold_left List.filter].
    unfold ConvertNotes.complete at 1, ConvertNotes.short at 1.
    unfold ConvertNotes.parse_row at 2.
    destruct row as [|w row].
    { cbn [forallb negb andb]. apply IH. }
    destruct (forallb ConvertNotes.blank (w :: row)) eqn:Hblank.
    { cbn [negb andb]. apply IH. }
    cbn [negb andb].
    destruct row as [|p [|d [|t extra]]].
    1-3: match goal with
         | |- context [fold_left _ _ ?s1] =>
             destruct (IH s1) as (notes & -> & Hn)
         end;
         exists notes; cbn [fst snd length Nat.leb Nat.ltb map];
         (split; [now rewrite <- app_assoc|exact Hn]).
    match goal with
    | |- context [fold_left _ _ ?s1] => destruct (IH s1) as (notes & -> & Hn)
    end.
    eexists (_ :: notes). cbn [fst snd length Nat.leb Nat.ltb].
    split; [now rewrite <- app_assoc|].
    constructor; [|exact Hn]. now exists w, p, d, t, extra.
Qed.

Lemma complete_or_short (rows : list (list pystr)) :
  (length (List.filter ConvertNotes.complete rows)
   + length (List.filter ConvertNotes.short rows))%nat
  = length (List.filter (fun row => negb (forallb ConvertNotes.blank row)) rows).
Proof.
  induction rows as [|row rows IH]; [reflexivity|].
  cbn [List.filter]. unfold ConvertNotes.complete at 1, ConvertNotes.short at 1.
  destruct (forallb ConvertNotes.blank row); cbn [negb andb]; [exact IH|].
  destruct (Nat.leb_spec 4 (length row)) as [H|H].
  - apply Nat.ltb_ge in H. rewrite H. cbn [length]. lia.
  - apply Nat.ltb_lt in H. rewrite H. cbn [length]. lia.
Qed.

Lemma note_of_keys (row : list pystr) (n : ImportNotes.note) :
  ConvertNotes.note_of row n ->
  PyDict.keys n
  = [str "word"; str "pronunciation"; str "definition"; str "note"]
  /\ Forall (fun kv => PyStr.strip (snd kv) = snd kv) n
  /\ is_Some (PyDict.get n (str "word"))
  /\ is_Some (PyDict.get n (str "note")).
Proof.
  intros (w & p & d & t & extra & _ & ->).
  assert (Hstrip : forall s, PyStr.strip (PyStr.strip s) = PyStr.strip s).
  { intros s. destruct (strip_trimmed s) as [Hl Hr].
    unfold PyStr.strip at 1. now rewrite Hl, Hr. }
  split; [reflexivity|]. split.
  - repeat constructor; cbn [snd]; apply Hstrip.
  - split; eexists; reflexivity.
Qed.

Lemma csv_rows_shape (rows : list (list pystr)) :
  Forall2 ConvertNotes.note_of (List.filter ConvertNotes.complete rows)
    (fst (ConvertNotes.parse_notes_csv rows))
  /\ Forall (fun n => is_Some (PyDict.get n (str "word"))
                      /\ is_Some (PyDict.get n (str "note")))
       (fst (ConvertNotes.parse_notes_csv rows)).
Proof.
  unfold ConvertNotes.parse_notes_csv.
  destruct (parse_rows_from rows ([], [])) as (notes & -> & Hn).
  cbn [fst app]. split; [exact Hn|].
  clear - Hn. induction Hn as [|row n ? ? Hrow _ IH]; constructor; [|exact IH].
  destruct (note_of_keys _ _ Hrow) as (_ & _ & Hw & Ht). now split.
Qed.

(** [parse_notes_csv]: the notes are, in order, the rows with at
    least four fields that are not all blank, each with exactly the keys
    [word], [pronunciation], [definition] and [note] bound to the first
    four fields stripped (fields after the fourth are dropped, and a second
    strip changes nothing); the other rows that are not blank are reported
    with their length and first two fields, and blank rows are skipped in
    silence. *)
Theorem csv_rows_become_notes (rows : list (list pystr)) :
  let r := ConvertNotes.parse_notes_csv rows in
  Forall2 ConvertNotes.note_of (List.filter ConvertNotes.complete rows) (fst r)
  /\ snd r
     = map (fun row => ConvertNotes.ShortRow (length row) (take 2 row))
         (List.filter ConvertNotes.short rows)
  /\ Forall (fun n =>
               PyDict.keys n
               = [str "word"; str "pronunciation"; str "definition"; str "note"]
               /\ Forall (fun kv => PyStr.strip (snd kv) = snd kv) n)
       (fst r)
  /\ (length (fst r) + length (snd r))%nat
     = length (List.filter (fun row => negb (forallb ConvertNotes.blank row))
                 rows).
Proof.
  cbn zeta. unfold ConvertNotes.parse_notes_csv.
  destruct (parse_rows_from rows ([], [])) as (notes & -> & Hn).
  cbn [fst snd app]. split; [exact Hn|]. split; [reflexivity|]. split.
  - clear - Hn. induction Hn as [|row n ? ? Hrow _ IH]; constructor; [|exact IH].
    destruct (note_of_keys _ _ Hrow) as (Hk & Hs & _). now split.
  - rewrite <- complete_or_short, length_map.
    now rewrite (Forall2_length _ _ _ Hn).
Qed.

(** [parse_notes_csv] with [process_notes]: the notes made from the
    rows of the CSV file have the keys [process_notes] reads.  With an
    OpenCC executable that can be started, [process_notes] applied to them
    raises nothing and returns one record per complete row, in order, whose
    text is the stripped fourth field of the row and whose character is
    the entry of the conversion table for the stripped first field. *)
Theorem csv_notes_can_be_imported
    (opencc : nat -> pystr -> pystr -> oracle_result)
    (uuid4 : nat -> pystr) (timestamp : nat -> Z)
    (user_id opencc_path : pystr) (rows : list (list pystr)) :
  (forall n path text, opencc n path text <> OpenCCNotFound) ->
  exists st,
    ImportNotes.process_notes_loop opencc uuid4 timestamp
      (fst (ConvertNotes.parse_notes_csv rows)) user_id opencc_path
    = Return st
    /\ ImportNotes.process_notes opencc uuid4 timestamp
         (fst (ConvertNotes.parse_notes_csv rows)) user_id opencc_path
       = Return (ImportNotes.processed st)
    /\ Forall2 (fun row p =>
                  PyStr.strip <$> row !! 3%nat = Some (ImportNotes.noteText p)
                  /\ (exists w, row !! 0%nat = Some w
                       /\ PyDict.get (ImportNotes.conversions st) (PyStr.strip w)
                          = Some (ImportNotes.character p))
                  /\ ImportNotes.userId p = user_id)
         (List.filter ConvertNotes.complete rows) (ImportNotes.processed st).
Proof.
  intros Hfound.
  destruct (csv_rows_shape rows) as [Hnotes Hkeys].
  destruct (process_notes_from opencc uuid4 timestamp user_id opencc_path
              Hfound (fst (ConvertNotes.parse_notes_csv rows))
              {| ImportNotes.processed := [];
                 ImportNotes.conversions := [];
                 ImportNotes.opencc_calls := 0 |} Hkeys)
    as (st & new & Hrun & Hp & Hf & _).
  cbn [ImportNotes.processed app] in Hp. subst new.
  exists st. split; [exact Hrun|]. split.
  { unfold ImportNotes.process_notes.
    unfold ImportNotes.process_notes_loop in *. now rewrite Hrun. }
  eapply Forall2_trans; [|exact Hnotes|exact Hf].
  intros row n p (w & p' & d & t & extra & -> & ->)
    (word & text & Hw & Ht & Hc & Htext & Huser & _).
  cbn in Hw, Ht. injection Hw as <-. injection Ht as <-.
  cbn [lookup list_lookup fmap option_fmap option_map].
  split; [now rewrite Htext|]. split; [|exact Huser].
  exists w. split; [reflexivity|exact Hc].
Qed.

Lemma csv_notes_can_be_imported_witness :
  (forall (n : nat) (path text : pystr), Completed text <> OpenCCNotFound)
  /\ exists st,
       ImportNotes.process_notes_loop (fun _ _ text => Completed text)
         (fun _ => str "id") (fun n => Z.of_nat n)
         (fst (ConvertNotes.parse_notes_csv
                 [ [str " a"; str "p"; str "d"; str "n "; str "e"]
                 ; [str " "; str ""]
                 ; [str "b"; str "q"] ]))
         (str "u") (str "opencc")
       = Return st
       /\ map ImportNotes.noteText (ImportNotes.processed st) = [str "n"].
Proof.
  assert (H1 : forall (n : nat) (path text : pystr),
             Completed text <> OpenCCNotFound) by (intros; discriminate).
  split; [exact H1|].
  destruct (csv_notes_can_be_imported (fun _ _ text => Completed text)
              (fun _ => str "id") (fun n => Z.of_nat n) (str "u")
              (str "opencc")
              [ [str " a"; str "p"; str "d"; str "n "; str "e"]
              ; [str " "; str ""]
              ; [str "b"; str "q"] ] H1)
    as (st & Hrun & _).
  exists st. split; [exact Hrun|].
  vm_compute in Hrun. injection Hrun as <-. reflexivity.
Defined.
